(** * WhatsApp reminder bot: scheduling and rescheduling engine

    A shallow embedding of [index.js]: the business-hours table, the
    availability engine, the time-expression parser, the per-phone
    rescheduling dialogue, the import merge and the reminder tick,
    followed by the properties proved about them. *)

From Equations Require Import Equations.
From stdpp Require Import gmap strings list.
From Stdlib Require Import ZArith Lia Ascii String Sorted.

Open Scope Z_scope.

(** ** Time: the part of dayjs the program uses

    An instant is a number of milliseconds since the Unix epoch, as in a
    JavaScript [Date].  The ISO strings the program stores
    ([toISOString()]) and the dayjs objects it builds from them denote
    exactly one such number, so both are represented by it.  Local time is
    the instant shifted by the zone's offset from UTC, taken as one fixed
    number of minutes [utcOffset] (no daylight-saving change). *)

Definition MS_PER_SECOND : Z := 1000.
Definition MS_PER_MINUTE : Z := 60000.
Definition MS_PER_HOUR : Z := 3600000.
Definition MS_PER_DAY : Z := 86400000.

Section Dayjs.
Variable utcOffset : Z.

(** Milliseconds on the local wall clock. *)
Definition localMs (t : Z) : Z := t + utcOffset * MS_PER_MINUTE.

(** The local calendar day, counted from 1970-01-01.  [format('YYYY-MM-DD')]
    prints this day, so two instants have the same formatted date exactly
    when they have the same [localDay]; a 'YYYY-MM-DD' string is
    represented by its day number. *)
Definition localDay (t : Z) : Z := localMs t / MS_PER_DAY.

(** [.hour()], [.minute()], [.second()], [.day()]. *)
Definition hour (t : Z) : Z := (localMs t mod MS_PER_DAY) / MS_PER_HOUR.
Definition minute (t : Z) : Z := (localMs t mod MS_PER_HOUR) / MS_PER_MINUTE.
Definition second (t : Z) : Z := (localMs t mod MS_PER_MINUTE) / MS_PER_SECOND.
Definition day (t : Z) : Z := (localDay t + 4) mod 7.

(** [dayjs('YYYY-MM-DD')]: local midnight of that day. *)
Definition dayjs_of_date (d : Z) : Z := d * MS_PER_DAY - utcOffset * MS_PER_MINUTE.

(** The setters [.hour(h)], [.minute(m)], [.second(s)] replace one field
    of the local time and, like [Date.setHours], carry an out-of-range
    value over into the next larger unit. *)
Definition set_hour (t h : Z) : Z := t + (h - hour t) * MS_PER_HOUR.
Definition set_minute (t m : Z) : Z := t + (m - minute t) * MS_PER_MINUTE.
Definition set_second (t s : Z) : Z := t + (s - second t) * MS_PER_SECOND.

(** [.add(n, 'minute')], [.add(n, 'day')], [.subtract(n, 'hour')]. *)
Definition add_minute (t n : Z) : Z := t + n * MS_PER_MINUTE.
Definition add_day (t n : Z) : Z := t + n * MS_PER_DAY.
Definition subtract_hour (t n : Z) : Z := t - n * MS_PER_HOUR.

(** [.startOf('day')]. *)
Definition startOf_day (t : Z) : Z := t - localMs t mod MS_PER_DAY.

(** [a.diff(b, unit)] truncates the quotient toward zero. *)
Definition diff_minute (a b : Z) : Z := Z.quot (a - b) MS_PER_MINUTE.
Definition diff_day (a b : Z) : Z := Z.quot (a - b) MS_PER_DAY.

(** [a.isSame(b)] compares the instants ([a.isBefore(b)] is [a < b]). *)
Definition isSame (a b : Z) : bool := a =? b.
End Dayjs.

(** ** Strings

    A JavaScript string is represented by the [string] of the bytes of its
    UTF-8 encoding, which is also how a string literal of this file is
    read.  The digits, the ASCII letters and the punctuation the program
    looks for are single bytes below 128, and every byte of a character
    outside ASCII is 128 or more, so these are tested byte by byte.  White
    space is not all ASCII: a white-space character takes one to three
    bytes. *)

Definition is_digit (c : ascii) : bool :=
  let n := nat_of_ascii c in ((48 <=? n) && (n <=? 57))%nat.

Definition digit_value (c : ascii) : Z := Z.of_nat (nat_of_ascii c) - 48.

(** The string of the given bytes. *)
Definition bytes (l : list Z) : string :=
  string_of_list_ascii (map (fun b => ascii_of_nat (Z.to_nat b)) l).

(** The white space of [trim], [\s] and [parseInt]: the WhiteSpace and
    LineTerminator characters of ECMAScript.  [space_len s] is the number
    of bytes of the white-space character [s] begins with, 0 when it
    begins with none:
    - U+0009 to U+000D and U+0020, one byte;
    - U+00A0, bytes C2 A0;
    - U+1680, bytes E1 9A 80;
    - U+2000 to U+200A, U+2028, U+2029 and U+202F, bytes E2 80 80 to
      E2 80 8A, E2 80 A8, E2 80 A9 and E2 80 AF;
    - U+205F, bytes E2 81 9F;
    - U+3000, bytes E3 80 80;
    - U+FEFF, bytes EF BB BF. *)
Definition space_len (s : string) : nat :=
  match s with
  | String a rest =>
      let a := nat_of_ascii a in
      if ((9 <=? a) && (a <=? 13)) || (a =? 32) then 1
      else
        match rest with
        | String b rest =>
            let b := nat_of_ascii b in
            if (a =? 194) && (b =? 160) then 2
            else
              match rest with
              | String c _ =>
                  let c := nat_of_ascii c in
                  if ((a =? 225) && (b =? 154) && (c =? 128))
                     || ((a =? 226) && (b =? 128)
                         && (((128 <=? c) && (c <=? 138))
                             || (c =? 168) || (c =? 169) || (c =? 175)))
                     || ((a =? 226) && (b =? 129) && (c =? 159))
                     || ((a =? 227) && (b =? 128) && (c =? 128))
                     || ((a =? 239) && (b =? 187) && (c =? 191))
                  then 3 else 0
              | EmptyString => 0
              end
        | EmptyString => 0
        end
  | EmptyString => 0
  end%nat.

Fixpoint all_digits (s : string) : bool :=
  match s with
  | EmptyString => true
  | String c rest => is_digit c && all_digits rest
  end.

Definition starts_with_digit (s : string) : bool :=
  match s with
  | String c _ => is_digit c
  | EmptyString => false
  end.

(** ** Calendar model *)

Record BusinessHours := { open : option string; close : option string }.

(** [BUSINESS_HOURS]: 0 = Sunday, ..., 6 = Saturday; any other key is
    [undefined]. *)
Definition BUSINESS_HOURS (dayOfWeek : Z) : option BusinessHours :=
  match dayOfWeek with
  | 0 => Some {| open := None; close := None |}
  | 1 | 2 | 3 | 4 | 5 | 6 => Some {| open := Some "10:00"%string; close := Some "21:00"%string |}
  | _ => None
  end.

Definition TIME_SLOT_DURATION : Z := 60.

(** [BUSINESS_HOURS[d] && BUSINESS_HOURS[d].open]: the entry exists and its
    [open] is neither [null] nor the empty string. *)
Definition has_business_hours (dayOfWeek : Z) : bool :=
  match BUSINESS_HOURS dayOfWeek with
  | Some {| open := Some o |} => negb (String.eqb o "")
  | _ => false
  end.

(** [Number] on a string of decimal digits ([Number("") = 0]). *)
Fixpoint Number_digits (acc : Z) (s : string) : Z :=
  match s with
  | EmptyString => acc
  | String c rest => Number_digits (10 * acc + digit_value c) rest
  end.

(** [s.split(':')]. *)
Fixpoint split_colon (cur : string) (s : string) : list string :=
  match s with
  | EmptyString => [cur]
  | String c rest =>
      if Ascii.eqb c ":" then cur :: split_colon "" rest
      else split_colon (cur +:+ String c "") rest
  end.

(** [const [h, m] = s.split(':').map(Number)] for an "HH:MM" entry of the
    table. *)
Definition hour_minute (s : string) : Z * Z :=
  match map (Number_digits 0) (split_colon "" s) with
  | h :: m :: _ => (h, m)
  | _ => (0, 0)
  end.

(** ** Appointments *)

Record Appointment := {
  name : string;
  phone : string;
  appointmentTime : Z;
  isFromUpload : bool;
  isRescheduled : bool;
  isExisting : bool
}.

(** ** Availability engine *)

Section Availability.
Variable utcOffset : Z.

(** [getAvailableDates(numDays)], with the current instant [now] made an
    argument.  The loop runs [i = 1 .. numDays]. *)
Definition getAvailableDates (now : Z) (numDays : nat) : list Z :=
  foldl (fun availableDates i =>
           let date := add_day now (Z.of_nat i) in
           let dayOfWeek := day utcOffset date in
           if has_business_hours dayOfWeek
           then availableDates ++ [localDay utcOffset date]
           else availableDates)
        [] (seq 1 numDays).

(** [isTimeSlotAvailable(proposedTime, userPhone)] over the appointment
    list.  [Math.abs(a.diff(b, 'hour', true)) < 1] compares the exact
    quotient of the millisecond difference by 3600000 with 1, which is the
    comparison of the difference itself with 3600000. *)
Fixpoint isTimeSlotAvailable (appointmentData : list Appointment)
         (proposedTime : Z) (userPhone : string) : bool :=
  match appointmentData with
  | [] => true
  | appointment :: rest =>
      if String.eqb (phone appointment) userPhone
      then isTimeSlotAvailable rest proposedTime userPhone
      else
        let apptTime := appointmentTime appointment in
        if (localDay utcOffset proposedTime =? localDay utcOffset apptTime)
           && (Z.abs (proposedTime - apptTime) <? MS_PER_HOUR)
        then false
        else isTimeSlotAvailable rest proposedTime userPhone
  end.

(** The number of iterations the slot loop still has to make; the loop
    is defined by recursion on it. *)
Definition slots_left (endTime currentSlot : Z) : nat :=
  Z.to_nat ((endTime - currentSlot + (TIME_SLOT_DURATION * MS_PER_MINUTE - 1))
              / (TIME_SLOT_DURATION * MS_PER_MINUTE)).

(** The [while (currentSlot.isBefore(endTime))] loop of
    [getAvailableTimeSlots]; [keep] is the availability test. *)
Equations? slot_loop (keep : Z -> bool) (endTime currentSlot : Z) : list Z
  by wf (slots_left endTime currentSlot) lt :=
  slot_loop keep endTime currentSlot with Z_lt_dec currentSlot endTime => {
    | left _ :=
        (if keep currentSlot then [currentSlot] else [])
          ++ slot_loop keep endTime (add_minute currentSlot TIME_SLOT_DURATION);
    | right _ := [] }.
Proof.
  unfold slots_left, add_minute, TIME_SLOT_DURATION, MS_PER_MINUTE.
  apply Z2Nat.inj_lt; Z.div_mod_to_equations; lia.
Qed.

(** [getAvailableTimeSlots(dateStr, userPhone)]. *)
Definition getAvailableTimeSlots (appointmentData : list Appointment)
           (dateStr : Z) (userPhone : string) : list Z :=
  let date := dayjs_of_date utcOffset dateStr in
  let dayOfWeek := day utcOffset date in
  if negb (has_business_hours dayOfWeek) then []
  else
    match BUSINESS_HOURS dayOfWeek with
    | Some {| open := Some o; close := Some c |} =>
        let '(openHour, openMinute) := hour_minute o in
        let '(closeHour, closeMinute) := hour_minute c in
        let currentSlot :=
          set_second utcOffset (set_minute utcOffset (set_hour utcOffset date openHour) openMinute) 0 in
        let endTime :=
          set_second utcOffset (set_minute utcOffset (set_hour utcOffset date closeHour) closeMinute) 0 in
        slot_loop (fun slot => isTimeSlotAvailable appointmentData slot userPhone)
                  endTime currentSlot
    | _ => []
    end.
End Availability.

(** One slot duration in milliseconds, and the slots the loop generates
    before the availability test. *)
Definition SLOT_MS : Z := TIME_SLOT_DURATION * MS_PER_MINUTE.

Definition generated_slots (endTime currentSlot : Z) : list Z :=
  slot_loop (fun _ => true) endTime currentSlot.

(** A slot conflicts with an appointment when both fall on the same local
    calendar date and are less than one hour apart. *)
Definition conflicts (utcOffset : Z) (slot : Z) (a : Appointment) : Prop :=
  localDay utcOffset slot = localDay utcOffset (appointmentTime a)
  /\ Z.abs (slot - appointmentTime a) < MS_PER_HOUR.

(** The instant at which the local clock of day [d] shows [h]:[m]. *)
Definition local_time (utcOffset d h m : Z) : Z :=
  dayjs_of_date utcOffset d + h * MS_PER_HOUR + m * MS_PER_MINUTE.

(** ** JavaScript string operations *)

Module JS.

(** [toLowerCase] on the letters A to Z; the other bytes are kept, so a
    cased letter outside ASCII keeps its case.  The program looks in the
    lowered text only for ASCII words, digits and white space; the only
    characters outside ASCII whose lower case holds an ASCII letter are
    U+0130 (i followed by U+0307) and U+212A (k), and neither makes one
    of those words. *)
Definition lower_char (c : ascii) : ascii :=
  let n := nat_of_ascii c in
  if ((65 <=? n) && (n <=? 90))%nat then ascii_of_nat (n + 32) else c.

Fixpoint toLowerCase (s : string) : string :=
  match s with
  | EmptyString => EmptyString
  | String c rest => String (lower_char c) (toLowerCase rest)
  end.

(** Drops the white-space characters at the start.  [skip] counts the
    bytes still to pass of the white-space character being dropped. *)
Fixpoint drop_spaces (skip : nat) (s : string) : string :=
  match s with
  | EmptyString => EmptyString
  | String _ rest =>
      match skip with
      | S k => drop_spaces k rest
      | O =>
          match space_len s with
          | S k => drop_spaces k rest
          | O => s
          end
      end
  end.

Definition trimStart (s : string) : string := drop_spaces 0 s.

(** The string consists of white-space characters only. *)
Fixpoint only_spaces (skip : nat) (s : string) : bool :=
  match s with
  | EmptyString => true
  | String _ rest =>
      match skip with
      | S k => only_spaces k rest
      | O =>
          match space_len s with
          | S k => only_spaces k rest
          | O => false
          end
      end
  end.

(** Drops the white space at the end: the bytes are kept up to the point
    from which only white space follows. *)
Fixpoint trimEnd (s : string) : string :=
  if only_spaces 0 s then EmptyString
  else
    match s with
    | EmptyString => EmptyString
    | String c rest => String c (trimEnd rest)
    end.

Definition trim (s : string) : string := trimEnd (trimStart s).

(** [s.replace(/\s+/g, ' ')]: every maximal run of white-space characters
    becomes one space. *)
Fixpoint collapse_from (in_run : bool) (skip : nat) (s : string) : string :=
  match s with
  | EmptyString => EmptyString
  | String c rest =>
      match skip with
      | S k => collapse_from in_run k rest
      | O =>
          match space_len s with
          | S k =>
              if in_run then collapse_from true k rest
              else String " " (collapse_from true k rest)
          | O => String c (collapse_from false 0 rest)
          end
      end
  end.

Definition collapse_spaces (s : string) : string := collapse_from false 0 s.

Fixpoint startsWith (p s : string) : bool :=
  match p, s with
  | EmptyString, _ => true
  | String a p', String b s' => Ascii.eqb a b && startsWith p' s'
  | String _ _, EmptyString => false
  end.

(** [s.includes(p)]. *)
Fixpoint includes (s p : string) : bool :=
  startsWith p s ||
  match s with
  | EmptyString => false
  | String _ rest => includes rest p
  end.

(** The value of a digit in a radix, if it is one. *)
Definition digit_in_radix (radix : Z) (c : ascii) : option Z :=
  let n := Z.of_nat (nat_of_ascii (lower_char c)) in
  let v := if (48 <=? n) && (n <=? 57) then n - 48
           else if (97 <=? n) && (n <=? 122) then n - 87
           else radix in
  if v <? radix then Some v else None.

(** The longest prefix of digits, read in the radix; [None] when the
    prefix is empty. *)
Fixpoint read_digits (radix : Z) (acc : option Z) (s : string) : option Z :=
  match s with
  | EmptyString => acc
  | String c rest =>
      match digit_in_radix radix c with
      | Some v => read_digits radix (Some (radix * default 0 acc + v)) rest
      | None => acc
      end
  end.

(** [parseInt(s)] with no radix argument: leading white space is skipped,
    one sign is read, a [0x] prefix selects radix 16, and the longest
    prefix of digits is the result; [None] stands for [NaN].  The value is
    the exact integer; the program only compares it with list lengths. *)
Definition parseInt (s : string) : option Z :=
  let s1 := trimStart s in
  let '(sign, s2) :=
    match s1 with
    | String "-" rest => (-1, rest)
    | String "+" rest => (1, rest)
    | _ => (1, s1)
    end in
  let '(radix, s3) :=
    match s2 with
    | String "0" (String x rest) =>
        if Ascii.eqb (lower_char x) "x" then (16, rest) else (10, s2)
    | _ => (10, s2)
    end in
  match read_digits radix None s3 with
  | Some v => Some (sign * v)
  | None => None
  end.

End JS.

(** ** Regular expressions

    The fragment of JavaScript regular expressions the time patterns are
    written in, with the backtracking order of the language: alternatives
    left to right, [?] and [*] greedy.  [\d] and the literal characters
    of the patterns take one byte; [\s*] takes white-space characters of
    one to three bytes; [[^\d]*] takes code units that are no digits,
    which are the bytes that are no digits. *)

Module Regex.

Inductive cclass :=
| Digit                  (* \d *)
| Char (c : ascii).

Inductive regex :=
| Eps
| One (k : cclass)
| Spaces                         (* \s* *)
| NonDigits                      (* [^\d]* *)
| Seq (r1 r2 : regex)
| Alt (r1 r2 : regex)            (* r1|r2 *)
| Opt (r : regex)                (* r? *)
| Group (i : nat) (r : regex).   (* the i-th capturing group *)

(** [ci] is the [i] flag. *)
Definition in_class (ci : bool) (k : cclass) (a : ascii) : bool :=
  match k with
  | Digit => is_digit a
  | Char c => if ci then Ascii.eqb (JS.lower_char c) (JS.lower_char a) else Ascii.eqb c a
  end.

Definition captures := list (nat * string).

Definition capture (i : nat) (caps : captures) : option string :=
  snd <$> List.find (fun p => Nat.eqb (fst p) i) caps.

(** The part of [s] consumed when [s'] is what remains of it. *)
Definition consumed (s s' : string) : string :=
  String.substring 0 (String.length s - String.length s') s.

(** [\s*]: the longest run of white-space characters is tried first,
    then the shorter ones.  [skip] counts the bytes still to pass of the
    white-space character being taken. *)
Fixpoint spaces (skip : nat) (s : string) (caps : captures)
         (cont : string -> captures -> option captures) : option captures :=
  match s with
  | String _ rest =>
      match skip with
      | S k => spaces k rest caps cont
      | O =>
          match space_len s with
          | S k =>
              match spaces k rest caps cont with
              | Some r => Some r
              | None => cont s caps
              end
          | O => cont s caps
          end
      end
  | EmptyString => cont s caps
  end.

(** [[^\d]*] *)
Fixpoint non_digits (s : string) (caps : captures)
         (cont : string -> captures -> option captures) : option captures :=
  match s with
  | String a rest =>
      if is_digit a then cont s caps
      else
        match non_digits rest caps cont with
        | Some r => Some r
        | None => cont s caps
        end
  | EmptyString => cont s caps
  end.

Fixpoint run (ci : bool) (r : regex) (s : string) (caps : captures)
         (cont : string -> captures -> option captures) : option captures :=
  match r with
  | Eps => cont s caps
  | One k =>
      match s with
      | String a rest => if in_class ci k a then cont rest caps else None
      | EmptyString => None
      end
  | Spaces => spaces 0 s caps cont
  | NonDigits => non_digits s caps cont
  | Seq r1 r2 => run ci r1 s caps (fun s' caps' => run ci r2 s' caps' cont)
  | Alt r1 r2 =>
      match run ci r1 s caps cont with
      | Some res => Some res
      | None => run ci r2 s caps cont
      end
  | Opt r' =>
      match run ci r' s caps cont with
      | Some res => Some res
      | None => cont s caps
      end
  | Group i r' =>
      run ci r' s caps (fun s' caps' => cont s' ((i, consumed s s') :: caps'))
  end.

(** [s.match(/^r$/)]: the captures of the first successful path, or
    [None] for [null]. *)
Definition match_anchored (ci : bool) (r : regex) (s : string) : option captures :=
  run ci r s [] (fun s' caps => match s' with EmptyString => Some caps | _ => None end).

End Regex.

(** ** Time expression parser *)

Module TimeParser.
Import Regex.

Definition d12 : regex := Alt (Seq (One Digit) (One Digit)) (One Digit).  (* \d{1,2} *)
Definition d2 : regex := Seq (One Digit) (One Digit).                     (* \d{2} *)
Definition colon : regex := One (Char ":").
Definition meridiem : regex :=                                            (* (?:pm|am) *)
  Alt (Seq (One (Char "p")) (One (Char "m"))) (Seq (One (Char "a")) (One (Char "m"))).

(** A pattern with its [i] flag. *)
Definition timeFormats : list (bool * regex) :=
  [ (* /^(\d{1,2})\s*(?:pm|am)$/i *)
    (true, Seq (Group 1 d12) (Seq Spaces meridiem));
    (* /^(\d{1,2}):(\d{2})\s*(?:pm|am)$/i *)
    (true, Seq (Group 1 d12) (Seq colon (Seq (Group 2 d2) (Seq Spaces meridiem))));
    (* /^(\d{1,2}):\s*(?:pm|am)$/i *)
    (true, Seq (Group 1 d12) (Seq colon (Seq Spaces meridiem)));
    (* /^(\d{1,2})\s*(?:pm|am)$/i *)
    (true, Seq (Group 1 d12) (Seq Spaces meridiem));
    (* /^(\d{1,2}):?(\d{2})?\s*(?:pm|am)$/i *)
    (true, Seq (Group 1 d12) (Seq (Opt colon) (Seq (Opt (Group 2 d2)) (Seq Spaces meridiem))));
    (* /^(\d{1,2})$/ *)
    (false, Group 1 d12);
    (* /^(\d{1,2}):$/ *)
    (false, Seq (Group 1 d12) colon);
    (* /^(\d{1,2}):(\d{2})$/ *)
    (false, Seq (Group 1 d12) (Seq colon (Group 2 d2))) ].

Definition alternativePatterns : list (bool * regex) :=
  [ (* /^(\d{1,2}):(\d{2})$/ *)
    (false, Seq (Group 1 d12) (Seq colon (Group 2 d2)));
    (* /^(\d{1,2})[^\d]*$/ *)
    (false, Seq (Group 1 d12) NonDigits) ].

(** The first pattern of the list that matches, with its captures. *)
Fixpoint first_match (patterns : list (bool * regex)) (s : string) : option captures :=
  match patterns with
  | [] => None
  | (ci, r) :: rest =>
      match match_anchored ci r s with
      | Some caps => Some caps
      | None => first_match rest s
      end
  end.

Inductive Period := AM | PM.

Record Parsed := {
  matchedHour : Z;
  matchedMinute : Z;
  matchedPeriod : option Period;
  is24HourFormat : bool
}.

(** [parseInt] of a captured group; a group that took part in the match
    holds digits only, so the result is a number. *)
Definition group_number (i : nat) (caps : captures) : Z :=
  default 0 (capture i caps ≫= JS.parseInt).

(** [match[2] && match[2] !== ''] *)
Definition has_group (i : nat) (caps : captures) : bool :=
  match capture i caps with
  | Some s => negb (String.eqb s "")
  | None => false
  end.

(** The two pattern loops of [handleTimeSelection]; [None] when
    [matchedFormat] stays false. *)
Definition parse (inputTime : string) : option Parsed :=
  match first_match timeFormats inputTime with
  | Some caps =>
      let matchedHour := group_number 1 caps in
      let matchedMinute := if has_group 2 caps then group_number 2 caps else 0 in
      let matchedPeriod :=
        if JS.includes inputTime "pm" then Some PM
        else if JS.includes inputTime "am" then Some AM
        else None in
      let is24HourFormat :=
        match matchedPeriod with
        | None => 12 <? matchedHour
        | Some _ => false
        end in
      Some {| matchedHour := matchedHour; matchedMinute := matchedMinute;
              matchedPeriod := matchedPeriod; is24HourFormat := is24HourFormat |}
  | None =>
      match first_match alternativePatterns inputTime with
      | Some caps =>
          let matchedHour := group_number 1 caps in
          let matchedMinute := if has_group 2 caps then group_number 2 caps else 0 in
          Some {| matchedHour := matchedHour; matchedMinute := matchedMinute;
                  matchedPeriod := None; is24HourFormat := 12 <? matchedHour |}
      | None => None
      end
  end.

Section Resolve.
Variable utcOffset : Z.

(** [for (const timeSlot of slots) if (hour === h && minute === m) ...]:
    the first slot at the given local hour and minute. *)
Definition slot_at (slots : list Z) (h m : Z) : option Z :=
  List.find (fun timeSlot => (hour utcOffset timeSlot =? h) && (minute utcOffset timeSlot =? m)) slots.

(** The candidate hours of an input without AM/PM. *)
Definition candidateHours (matchedHour : Z) : list Z :=
  if (1 <=? matchedHour) && (matchedHour <=? 11) then [matchedHour; matchedHour + 12]
  else if matchedHour =? 12 then [12; 0]
  else if 12 <? matchedHour then [matchedHour]
  else [].

(** The outer loop over the candidate hours, which stops at the first
    hour that has a slot. *)
Fixpoint first_candidate (hours : list Z) (slots : list Z) (m : Z) : option Z :=
  match hours with
  | [] => None
  | candidateHour :: rest =>
      match slot_at slots candidateHour m with
      | Some timeSlot => Some timeSlot
      | None => first_candidate rest slots m
      end
  end.

(** The exact-match step. *)
Definition exact_match (p : Parsed) (slots : list Z) : option Z :=
  if is24HourFormat p then slot_at slots (matchedHour p) (matchedMinute p)
  else
    match matchedPeriod p with
    | Some period =>
        let hour24 :=
          match period with
          | PM => if matchedHour p <? 12 then matchedHour p + 12 else matchedHour p
          | AM => if matchedHour p =? 12 then 0 else matchedHour p
          end in
        slot_at slots hour24 (matchedMinute p)
    | None => first_candidate (candidateHours (matchedHour p)) slots (matchedMinute p)
    end.

(** The exact-match step in the words of the specification: the first
    slot, in list order, whose local hour and minute equal one of the
    candidates.  Compared with [first_candidate] below. *)
Definition exact_match_list_order (hours : list Z) (slots : list Z) (m : Z) : option Z :=
  List.find (fun timeSlot =>
               existsb (fun h => (hour utcOffset timeSlot =? h)
                                 && (minute utcOffset timeSlot =? m)) hours)
            slots.

(** The hour interpretations of the fuzzy step. *)
Definition possibleHours (p : Parsed) : list Z :=
  let h := matchedHour p in
  let both := [h] ++ (if h <=? 11 then [h + 12] else []) ++ (if h =? 12 then [0] else []) in
  if is24HourFormat p || (12 <? h) then [h]
  else
    match matchedPeriod p with
    | Some PM => if h <? 12 then [h + 12] else if h =? 12 then [12] else both
    | Some AM => if h =? 12 then [0] else [h]
    | None => both
    end.

Definition tolerance : Z := 15.

(** The fuzzy step: the first slot that some interpretation puts within
    the tolerance. *)
Definition fuzzy_match (p : Parsed) (slots : list Z) : option Z :=
  List.find (fun timeSlot =>
          existsb (fun h =>
                     let targetTime :=
                       set_minute utcOffset (set_hour utcOffset timeSlot h) (matchedMinute p) in
                     Z.abs (diff_minute timeSlot targetTime) <=? tolerance)
                  (possibleHours p))
       slots.

(** [selectedTime] after both steps. *)
Definition select_time (p : Parsed) (slots : list Z) : option Z :=
  match exact_match p slots with
  | Some t => Some t
  | None => fuzzy_match p slots
  end.
End Resolve.

End TimeParser.

(** A slot shows the local time [h]:[m]. *)
Definition shows (off : Z) (h m : Z) (slot : Z) : Prop :=
  hour off slot = h /\ minute off slot = m.

(** The two candidates of a bare hour, in the order the program tries
    them: the hour itself, then the other half of the day. *)
Definition first_candidate_hour (h : Z) : Z := h.
Definition second_candidate_hour (h : Z) : Z := if h =? 12 then 0 else h + 12.


(** ** Conversation state and the world the handlers run in *)

Inductive Stage := confirming_cancellation | selecting_date | selecting_time.

(** One entry of [userReschedulingState].  A field the program has not
    assigned yet is [None] ([undefined]).  [currentAppointment] is a
    reference to the record in [appointmentData]; the only write through
    it, in [handleTimeSelection], is repeated on the record found by phone
    in [appointmentData], so the entry keeps a copy and that write updates
    both. *)
Record UserState := {
  currentAppointment : Appointment;
  availableDates : option (list Z);
  stage : Stage;
  selectedDate : option Z;
  availableTimeSlots : option (list Z)
}.

(** The texts the dialogue sends, by template and parameters. *)
Inductive Reply :=
| NoAppointmentFound                       (* "We couldn't find any appointments ..." *)
| NoDatesAvailable                         (* "... no available appointment dates at the moment" *)
| DateOptions (current : Appointment) (dates : list Z)
                                           (* the numbered list of dates *)
| RescheduleError                          (* "Sorry, there was an error processing your request. Please try again later." *)
| InvalidSelection                         (* "Invalid selection. Please enter a number ..." *)
| NoSlotsForDate                           (* "... no available time slots for this date" *)
| TimeSlotOptions (date : Z) (slots : list Z)
                                           (* the time slots of the selected date *)
| DateSelectionError                       (* "Sorry, there was an error processing your selection ..." *)
| TimeFormatNotUnderstood (slots : list Z) (* "Sorry, I couldn't understand that time format ..." *)
| NoMatchingSlot (messageContent : string) (slots : list Z)
                                           (* "Sorry, I couldn't find a matching time slot ..." *)
| Rescheduled (oldTime newTime : Z)        (* "Great! Your appointment has been rescheduled ..." *)
| TimeSelectionError                       (* "Sorry, there was an error processing your time selection ..." *)
| CancellationNotFound                     (* "We couldn't find any appointments ... schedule one" *)
| RetentionOffer (current : Appointment)   (* the retention message with the two choices *)
| CancellationRequestError                 (* "Sorry, there was an error processing your request. Please call ..." *)
| Farewell (who : string)                  (* "Your appointment has been cancelled ..." *)
| NotInSystem                              (* "We couldn't find your appointment in our system ..." *)
| CancellationError                        (* "Sorry, there was an error cancelling your appointment ..." *)
| UnsureChoice.                            (* "I'm not sure what you'd like to do ..." *)

(** The work [setTimeout] postpones by five seconds. *)
Inductive Deferred :=
| RunProcessCancellation (phone : string)
| RunHandleRescheduleRequest (phone : string)
| RunReply (phone : string) (r : Reply)
| RunHandleDateSelection (phone messageContent : string)
| RunHandleTimeSelection (phone messageContent : string)
| RunHandleCancellationRequest (phone : string).

Record World := {
  appointmentData : list Appointment;
  userReschedulingState : gmap string UserState;
  seenAppointments : gset string;        (* the phones of seenAppointments.json *)
  outbox : list (string * Reply);        (* replies delivered, oldest first *)
  transport : list bool;                 (* whether the next sends succeed *)
  timers : list Deferred                 (* pending setTimeout callbacks *)
}.

(** What can be thrown: a property read on [undefined], and a rejected
    call of the chat transport. *)
Inductive Exn := TypeError | SendFailed.

Inductive Result (A : Type) :=
| Ok (a : A)
| Throw (e : Exn).
Arguments Ok {A} a.
Arguments Throw {A} e.

(** Computations that read and write the world and may throw. *)
Definition M (A : Type) : Type := World -> Result A * World.

Definition ret {A} (a : A) : M A := fun w => (Ok a, w).

Definition bind {A B} (m : M A) (f : A -> M B) : M B :=
  fun w => match m w with
           | (Ok a, w') => f a w'
           | (Throw e, w') => (Throw e, w')
           end.

Definition throw {A} (e : Exn) : M A := fun w => (Throw e, w).

(** [try { body } catch (err) { handler }] *)
Definition try_catch {A} (body : M A) (handler : Exn -> M A) : M A :=
  fun w => match body w with
           | (Ok a, w') => (Ok a, w')
           | (Throw e, w') => handler e w'
           end.

Definition get : M World := fun w => (Ok w, w).

Definition modify (f : World -> World) : M unit := fun w => (Ok tt, f w).

Notation "'let*' x ':=' m 'in' k" := (bind m (fun x => k))
  (at level 10, x name, m at level 100, k at level 200).
Notation "m ;; k" := (bind m (fun _ => k))
  (at level 100, k at level 200, right associativity).

(** [undefined.field] throws a [TypeError]. *)
Definition defined {A} (o : option A) : M A :=
  match o with
  | Some a => ret a
  | None => throw TypeError
  end.

Definition set_appointmentData (l : list Appointment) (w : World) : World :=
  {| appointmentData := l; userReschedulingState := userReschedulingState w;
     seenAppointments := seenAppointments w; outbox := outbox w;
     transport := transport w; timers := timers w |}.

Definition set_userReschedulingState (m : gmap string UserState) (w : World) : World :=
  {| appointmentData := appointmentData w; userReschedulingState := m;
     seenAppointments := seenAppointments w; outbox := outbox w;
     transport := transport w; timers := timers w |}.

Definition set_seenAppointments (s : gset string) (w : World) : World :=
  {| appointmentData := appointmentData w; userReschedulingState := userReschedulingState w;
     seenAppointments := s; outbox := outbox w;
     transport := transport w; timers := timers w |}.

Definition set_timers (l : list Deferred) (w : World) : World :=
  {| appointmentData := appointmentData w; userReschedulingState := userReschedulingState w;
     seenAppointments := seenAppointments w; outbox := outbox w;
     transport := transport w; timers := l |}.

(** [await message.reply(text)]: the chat transport delivers the text or
    rejects; [transport] lists the outcomes of the coming sends, and a send
    past its end succeeds. *)
Definition reply (to : string) (r : Reply) : M unit :=
  fun w =>
    match transport w with
    | false :: rest =>
        (Throw SendFailed,
         {| appointmentData := appointmentData w; userReschedulingState := userReschedulingState w;
            seenAppointments := seenAppointments w; outbox := outbox w;
            transport := rest; timers := timers w |})
    | _ =>
        (Ok tt,
         {| appointmentData := appointmentData w; userReschedulingState := userReschedulingState w;
            seenAppointments := seenAppointments w; outbox := outbox w ++ [(to, r)];
            transport := tail (transport w); timers := timers w |})
    end.

(** [userReschedulingState[phone] = st] and [delete userReschedulingState[phone]]. *)
Definition set_state (p : string) (st : UserState) : M unit :=
  modify (fun w => set_userReschedulingState (<[p := st]> (userReschedulingState w)) w).

Definition delete_state (p : string) : M unit :=
  modify (fun w => set_userReschedulingState (delete p (userReschedulingState w)) w).

(** [setTimeout(callback, 5000)] *)
Definition setTimeout (d : Deferred) : M unit :=
  modify (fun w => set_timers (timers w ++ [d]) w).

(** [appointmentData.find(appt => appt.phone === phone)] *)
Definition find_appointment (p : string) (l : list Appointment) : option Appointment :=
  List.find (fun appt => String.eqb (phone appt) p) l.

Definition with_time (a : Appointment) (t : Z) : Appointment :=
  {| name := name a; phone := phone a; appointmentTime := t;
     isFromUpload := isFromUpload a; isRescheduled := isRescheduled a;
     isExisting := isExisting a |}.

(** [appointmentData[appointmentData.findIndex(...)].appointmentTime = t],
    nothing when the index is -1. *)
Fixpoint update_time (p : string) (t : Z) (l : list Appointment) : list Appointment :=
  match l with
  | [] => []
  | appt :: rest =>
      if String.eqb (phone appt) p then with_time appt t :: rest
      else appt :: update_time p t rest
  end.

(** [appointmentData.splice(appointmentData.findIndex(...), 1)] *)
Fixpoint remove_first (p : string) (l : list Appointment) : list Appointment :=
  match l with
  | [] => []
  | appt :: rest =>
      if String.eqb (phone appt) p then rest
      else appt :: remove_first p rest
  end.

Definition with_stage (st : UserState) (s : Stage) : UserState :=
  {| currentAppointment := currentAppointment st; availableDates := availableDates st;
     stage := s; selectedDate := selectedDate st; availableTimeSlots := availableTimeSlots st |}.

Definition with_selectedDate (st : UserState) (d : Z) : UserState :=
  {| currentAppointment := currentAppointment st; availableDates := availableDates st;
     stage := stage st; selectedDate := Some d; availableTimeSlots := availableTimeSlots st |}.

Definition with_availableTimeSlots (st : UserState) (l : list Z) : UserState :=
  {| currentAppointment := currentAppointment st; availableDates := availableDates st;
     stage := stage st; selectedDate := selectedDate st; availableTimeSlots := Some l |}.

Definition with_currentAppointment (st : UserState) (a : Appointment) : UserState :=
  {| currentAppointment := a; availableDates := availableDates st;
     stage := stage st; selectedDate := selectedDate st;
     availableTimeSlots := availableTimeSlots st |}.

(** ** The dialogue handlers

    A handler is run as one step, from the world in which its timer fires
    to the world it leaves: what other handlers do during the waits inside
    it (the five-second pause before a reply, the send itself, the request
    to the text service) is not part of a run.  Writing the spreadsheet ([saveAppointmentsToExcel]) and
    asking the text-generation service change no program state and their
    failures are caught where they occur, so they do not appear. *)

Section Handlers.
Variable utcOffset : Z.

(** [handleRescheduleRequest(phone, message)] at the instant [now]. *)
Definition handleRescheduleRequest (now : Z) (p : string) : M unit :=
  try_catch
    (let* w := get in
     match find_appointment p (appointmentData w) with
     | None => reply p NoAppointmentFound
     | Some userAppointment =>
         let dates := getAvailableDates utcOffset now 7 in
         if (List.length dates =? 0)%nat then reply p NoDatesAvailable
         else
           set_state p {| currentAppointment := userAppointment;
                          availableDates := Some dates;
                          stage := selecting_date;
                          selectedDate := None;
                          availableTimeSlots := None |} ;;
           reply p (DateOptions userAppointment dates)
     end)
    (fun _ => reply p RescheduleError).

(** [handleDateSelection(phone, messageContent, message)].  The test
    [isNaN(i) || i < 0 || i >= userState.availableDates.length] reads
    [userState] only when the first two disjuncts are false; past it the
    index is in range, so [availableDates[i]] is an element of the list. *)
Definition handleDateSelection (p messageContent : string) : M unit :=
  try_catch
    (let* w := get in
     let userState := userReschedulingState w !! p in
     let selectedDateIndex := (fun n => n - 1) <$> JS.parseInt (JS.trim messageContent) in
     match selectedDateIndex with
     | None => reply p InvalidSelection
     | Some i =>
         if i <? 0 then reply p InvalidSelection
         else
           let* st := defined userState in
           let* dates := defined (availableDates st) in
           if Z.of_nat (List.length dates) <=? i then reply p InvalidSelection
           else
             let* d := defined (dates !! Z.to_nat i) in
             let st1 := with_stage (with_selectedDate st d) selecting_time in
             set_state p st1 ;;
             let timeSlots := getAvailableTimeSlots utcOffset (appointmentData w) d p in
             if (List.length timeSlots =? 0)%nat then
               reply p NoSlotsForDate ;;
               set_state p (with_stage st1 selecting_date)
             else
               set_state p (with_availableTimeSlots st1 timeSlots) ;;
               reply p (TimeSlotOptions d timeSlots)
     end)
    (fun _ => reply p DateSelectionError ;; delete_state p).

(** [handleTimeSelection(phone, messageContent, message)].  Every path
    reads [userState.availableTimeSlots] before it does anything else. *)
Definition handleTimeSelection (p messageContent : string) : M unit :=
  try_catch
    (let* w := get in
     let userState := userReschedulingState w !! p in
     let inputTime := JS.collapse_spaces (JS.toLowerCase (JS.trim messageContent)) in
     let* st := defined userState in
     let* slots := defined (availableTimeSlots st) in
     match TimeParser.parse inputTime with
     | None => reply p (TimeFormatNotUnderstood slots)
     | Some parsed =>
         match TimeParser.select_time utcOffset parsed slots with
         | None => reply p (NoMatchingSlot messageContent slots)
         | Some selectedTime =>
             let current := currentAppointment st in
             let oldAppointmentTime := appointmentTime current in
             set_state p (with_currentAppointment st (with_time current selectedTime)) ;;
             modify (fun w => set_appointmentData (update_time p selectedTime (appointmentData w)) w) ;;
             reply p (Rescheduled oldAppointmentTime selectedTime) ;;
             delete_state p
         end
     end)
    (fun _ => reply p TimeSelectionError ;; delete_state p).

(** [handleCancellationRequest(phone, message)] *)
Definition handleCancellationRequest (p : string) : M unit :=
  try_catch
    (let* w := get in
     match find_appointment p (appointmentData w) with
     | None => reply p CancellationNotFound
     | Some userAppointment =>
         set_state p {| currentAppointment := userAppointment;
                        availableDates := None;
                        stage := confirming_cancellation;
                        selectedDate := None;
                        availableTimeSlots := None |} ;;
         reply p (RetentionOffer userAppointment)
     end)
    (fun _ => reply p CancellationRequestError).

(** [processCancellation(phone, message)] *)
Definition processCancellation (p : string) : M unit :=
  try_catch
    (let* w := get in
     let* st := defined (userReschedulingState w !! p) in
     let userAppointment := currentAppointment st in
     match find_appointment p (appointmentData w) with
     | Some _ =>
         modify (fun w => set_appointmentData (remove_first p (appointmentData w)) w) ;;
         reply p (Farewell (name userAppointment)) ;;
         delete_state p
     | None => reply p NotInSystem
     end)
    (fun _ => reply p CancellationError ;; delete_state p).

(** An incoming message, as the transport hands it over. *)
Record Message := {
  contact : option string;     (* [None]: [getContact()] throws *)
  body : string;
  hasMedia : bool
}.

(** The ["message"] listener.  It only schedules work. *)
Definition onMessage (message : Message) : M unit :=
  try_catch
    (let* p := defined (contact message) in
     let messageContent := JS.toLowerCase (body message) in
     let* w := get in
     match find_appointment p (appointmentData w) with
     | None => ret tt
     | Some userAppointment =>
         if hasMedia message then ret tt
         else
           let initial :=
             if JS.includes messageContent "cancel" || JS.includes messageContent "cancellation"
             then setTimeout (RunHandleCancellationRequest p)
             else if JS.includes messageContent "reschedule"
             then setTimeout (RunHandleRescheduleRequest p)
             else ret tt in
           match userReschedulingState w !! p with
           | Some userState =>
               match stage userState with
               | confirming_cancellation =>
                   if JS.includes messageContent "confirm cancel"
                      || JS.includes messageContent "confirm"
                      || String.eqb messageContent "cancel"
                      || String.eqb messageContent "yes"
                   then setTimeout (RunProcessCancellation p)
                   else if JS.includes messageContent "reschedule"
                   then setTimeout (RunHandleRescheduleRequest p)
                   else setTimeout (RunReply p UnsureChoice)
               | selecting_date => setTimeout (RunHandleDateSelection p messageContent)
               | selecting_time => setTimeout (RunHandleTimeSelection p messageContent)
               end
           | None => initial
           end
     end)
    (fun _ => ret tt).

(** A timer fires at the instant [now]. *)
Definition run_deferred (now : Z) (d : Deferred) : M unit :=
  match d with
  | RunProcessCancellation p => processCancellation p
  | RunHandleRescheduleRequest p => handleRescheduleRequest now p
  | RunReply p r => reply p r
  | RunHandleDateSelection p c => handleDateSelection p c
  | RunHandleTimeSelection p c => handleTimeSelection p c
  | RunHandleCancellationRequest p => handleCancellationRequest p
  end.
End Handlers.

(** A record without flags, as [loadExistingAppointments] builds it, and a
    world with the given store and dialogue states, nothing sent and no
    timer pending. *)
Definition plain_appointment (n p : string) (t : Z) : Appointment :=
  {| name := n; phone := p; appointmentTime := t;
     isFromUpload := false; isRescheduled := false; isExisting := false |}.

Definition quiet_world (l : list Appointment) (m : gmap string UserState)
           (sends : list bool) : World :=
  {| appointmentData := l; userReschedulingState := m; seenAppointments := ∅;
     outbox := []; transport := sends; timers := [] |}.

(** The dialogue of the examples: one appointment, and its owner choosing
    a time among the offered slots. *)
Definition choosing_time (current : Appointment) (slots : list Z) : World :=
  quiet_world [current]
    {[ phone current := {| currentAppointment := current;
                           availableDates := Some [19786];
                           stage := selecting_time;
                           selectedDate := Some 19786;
                           availableTimeSlots := Some slots |} ]}
    [].

(** The owner of the appointment choosing a date among those offered. *)
Definition choosing_date (current : Appointment) (dates : list Z) : World :=
  quiet_world [current]
    {[ phone current := {| currentAppointment := current;
                           availableDates := Some dates;
                           stage := selecting_date;
                           selectedDate := None;
                           availableTimeSlots := None |} ]}
    [].

(** A phone has a record in a list of appointments, and the property that
    ties the conversation states to the store. *)
Definition has_phone (p : string) (l : list Appointment) : Prop :=
  exists a, In a l /\ phone a = p.

(** Every conversation state belongs to a phone that has an appointment. *)
Definition states_have_appointments (w : World) : Prop :=
  forall p st, userReschedulingState w !! p = Some st -> has_phone p (appointmentData w).

(** The next send is delivered. *)
Definition next_send_ok (w : World) : Prop := hd true (transport w) = true.

(** The world after one delivered reply. *)
Definition delivered (to : string) (r : Reply) (w : World) : World :=
  {| appointmentData := appointmentData w; userReschedulingState := userReschedulingState w;
     seenAppointments := seenAppointments w; outbox := outbox w ++ [(to, r)];
     transport := tail (transport w); timers := timers w |}.

(** ** Import merge and clearing the store *)

Definition mark_rescheduled (a : Appointment) : Appointment :=
  {| name := name a; phone := phone a; appointmentTime := appointmentTime a;
     isFromUpload := isFromUpload a; isRescheduled := true; isExisting := isExisting a |}.

Definition mark_existing (a : Appointment) : Appointment :=
  {| name := name a; phone := phone a; appointmentTime := appointmentTime a;
     isFromUpload := isFromUpload a; isRescheduled := isRescheduled a; isExisting := true |}.

(** The first loop of the merge, over the appointments in memory: one
    iteration on [mergedAppointments] and [processedPhones]. *)
Definition keep_existing (newAppointments : list Appointment)
           (acc : list Appointment * gset string) (existingAppt : Appointment)
  : list Appointment * gset string :=
  let '(mergedAppointments, processedPhones) := acc in
  match find_appointment (phone existingAppt) newAppointments with
  | Some matchingNewAppt =>
      if negb (isSame (appointmentTime existingAppt) (appointmentTime matchingNewAppt))
      then (mergedAppointments ++ [mark_rescheduled existingAppt],
            processedPhones ∪ {[phone existingAppt]})
      else acc
  | None =>
      (mergedAppointments ++ [mark_existing existingAppt],
       processedPhones ∪ {[phone existingAppt]})
  end.

Record MergeState := {
  mergedAppointments : list Appointment;
  processedPhones : gset string;
  newlySeenPhones : gset string;
  trulyNewAppointments : list Appointment
}.

(** The second loop, over the uploaded appointments. *)
Definition add_new (seenPhones : gset string) (acc : MergeState) (newAppt : Appointment)
  : MergeState :=
  if bool_decide (phone newAppt ∈ processedPhones acc) then acc
  else
    let fresh := negb (bool_decide (phone newAppt ∈ seenPhones)) in
    {| mergedAppointments := mergedAppointments acc ++ [newAppt];
       processedPhones := processedPhones acc ∪ {[phone newAppt]};
       newlySeenPhones :=
         if fresh then newlySeenPhones acc ∪ {[phone newAppt]} else newlySeenPhones acc;
       trulyNewAppointments :=
         if fresh then trulyNewAppointments acc ++ [newAppt] else trulyNewAppointments acc |}.

(** The "smart merge" of [app.post("/upload")]. *)
Definition smart_merge (appointmentData newAppointments : list Appointment)
           (seenPhones : gset string) : MergeState :=
  let '(merged, processed) := foldl (keep_existing newAppointments) ([], ∅) appointmentData in
  foldl (add_new seenPhones)
        {| mergedAppointments := merged; processedPhones := processed;
           newlySeenPhones := seenPhones; trulyNewAppointments := [] |}
        newAppointments.

(** [app.post("/upload")] on the rows that passed validation: an empty
    batch is refused and changes nothing. *)
Definition upload (newAppointments : list Appointment) (w : World) : World :=
  match newAppointments with
  | [] => w
  | _ =>
      let r := smart_merge (appointmentData w) newAppointments (seenAppointments w) in
      set_appointmentData (mergedAppointments r) (set_seenAppointments (newlySeenPhones r) w)
  end.

(** [app.post("/clear-appointments")] *)
Definition clear_appointments (w : World) : World := set_appointmentData [] w.

(** One step of the running system: a message arrives, a timer fires (at
    any instant, in any order) and its handler runs to its end, whatever
    the outcome, a sheet is uploaded, or the store is cleared.  A handler
    is taken as one step; in the source it waits before each reply and
    for the text service, and other steps can run during a wait.  Its one
    write to the store ([findIndex] followed by the assignment or by
    [splice]) is made without a wait in between. *)
Inductive step (utcOffset : Z) : World -> World -> Prop :=
| step_message message w :
    step utcOffset w (snd (onMessage message w))
| step_deferred now d w res w' :
    run_deferred utcOffset now d w = (res, w') ->
    step utcOffset w w'
| step_upload batch w :
    step utcOffset w (upload batch w)
| step_clear w :
    step utcOffset w (clear_appointments w).

(** ** Reminder scheduler *)

Section Reminders.
Variable utcOffset : Z.

Definition digit_char (d : Z) : ascii := ascii_of_nat (48 + Z.to_nat d).

(** A two-digit field of [format]. *)
Definition pad2 (n : Z) : string :=
  String (digit_char (n / 10)) (String (digit_char (n mod 10)) EmptyString).

(** [t.format("HH:mm")] *)
Definition format_HHmm (t : Z) : string :=
  pad2 (hour utcOffset t) +:+ ":" +:+ pad2 (minute utcOffset t).

(** [t.format("YYYY-MM-DD HH:mm")], with the date as its day number. *)
Definition format_date_HHmm (t : Z) : Z * string :=
  (localDay utcOffset t, format_HHmm t).

(** [apptTime.startOf('day').diff(now.startOf('day'), 'day')] *)
Definition daysUntilAppointment (now apptTime : Z) : Z :=
  diff_day (startOf_day utcOffset apptTime) (startOf_day utcOffset now).

(** The condition of the countdown reminder. *)
Definition countdown_due (now apptTime : Z) : bool :=
  String.eqb (format_HHmm now) "11:30"
  && (0 <? daysUntilAppointment now apptTime)
  && (daysUntilAppointment now apptTime <=? 7).

(** The condition of the five-hour reminder. *)
Definition same_day_due (now apptTime : Z) : bool :=
  let reminderTime := subtract_hour apptTime 5 in
  (fst (format_date_HHmm now) =? fst (format_date_HHmm reminderTime))
  && String.eqb (snd (format_date_HHmm now)) (snd (format_date_HHmm reminderTime)).

Inductive Reminder :=
| CountdownReminder (to who : string) (daysToGo : Z)
| SameDayReminder (to who : string) (apptTime : Z).

(** One run of the interval callback of [startReminderLoop]: the messages
    handed to the transport, in order.  [connected] is
    [whatsappClient && app.locals.whatsappConnected]. *)
Definition reminder_tick (connected : bool) (now : Z) (appointmentData : list Appointment)
  : list Reminder :=
  flat_map
    (fun appointment =>
       let apptTime := appointmentTime appointment in
       (if countdown_due now apptTime
        then if connected
             then [CountdownReminder (phone appointment) (name appointment)
                                     (daysUntilAppointment now apptTime)]
             else []
        else [])
       ++
       (if same_day_due now apptTime
        then if connected
             then [SameDayReminder (phone appointment) (name appointment) apptTime]
             else []
        else []))
    appointmentData.

Definition is_countdown (r : Reminder) : bool :=
  match r with
  | CountdownReminder _ _ _ => true
  | SameDayReminder _ _ _ => false
  end.
End Reminders.

(** ** Sheets: phone cells, saved times *)

(** [phoneStr.replace(/[^\d]/g, "")] *)
Fixpoint digits_only (s : string) : string :=
  match s with
  | EmptyString => EmptyString
  | String c rest => if is_digit c then String c (digits_only rest) else digits_only rest
  end.

Section Sheets.
Variable utcOffset : Z.

(** The [appointmentTime] cell [saveAppointmentsToExcel] writes,
    [format('YYYY-MM-DD HH:mm')], with the date as its day number. *)
Definition saved_time (t : Z) : Z * string := format_date_HHmm utcOffset t.

(** [dayjs(cell)] on such a cell, as [loadExistingAppointments] and the
    upload read it: the local time with those date, hour and minute
    fields. *)
Definition loaded_time (cell : Z * string) : Z :=
  let '(h, m) := hour_minute (snd cell) in
  local_time utcOffset (fst cell) h m.
End Sheets.

(** ** Times as the dialogue prints them *)

Section Display.
Variable utcOffset : Z.

(** The decimal digits of a number below 100, without padding. *)
Definition decimal (n : Z) : string :=
  if n <? 10 then String (digit_char n) EmptyString else pad2 n.

(** The text of ['h:mm A'] for an hour and a minute: [h] is
    [hour % 12 || 12], [A] is AM before noon and PM from noon. *)
Definition hmmA (h m : Z) : string :=
  decimal (if h mod 12 =? 0 then 12 else h mod 12)
  +:+ ":" +:+ pad2 m
  +:+ (if h <? 12 then " AM" else " PM").

(** [t.format('h:mm A')], the form in which slots are listed. *)
Definition format_hmmA (t : Z) : string := hmmA (hour utcOffset t) (minute utcOffset t).

(** [messageContent.trim().toLowerCase().replace(/\s+/g, ' ')] *)
Definition normalize_time_input (messageContent : string) : string :=
  JS.collapse_spaces (JS.toLowerCase (JS.trim messageContent)).
End Display.

(** ** Status sheet and hook messages *)

Record StatusRecord := {
  status_name : string;
  status_phone : string;
  status : string
}.

(** A row of the status sheet whose cells are strings. *)
Record StatusRow := {
  row_name : string;
  row_phone : string;
  row_status : string
}.

(** Truthiness of a string cell. *)
Definition truthy (s : string) : bool := negb (String.eqb s "").

(** [rawData.filter(row => row.name && row.phone && row.status).map(...)]
    of [app.post("/upload-status")]. *)
Definition status_rows (rawData : list StatusRow) : list StatusRecord :=
  map (fun row => {| status_name := row_name row;
                     status_phone := digits_only (row_phone row);
                     status := JS.toLowerCase (row_status row) |})
      (List.filter (fun row => truthy (row_name row) && truthy (row_phone row)
                               && truthy (row_status row))
                   rawData).

(** The update of [statusSheetData] by [app.post("/upload-status")]:
    an empty sheet is refused; otherwise the entries whose phone is not
    yet known are pushed. *)
Definition upload_status (statusData statusSheetData : list StatusRecord)
  : list StatusRecord :=
  match statusData with
  | [] => statusSheetData
  | _ =>
      let existingPhones : gset string := list_to_set (map status_phone statusSheetData) in
      let newStatusEntries :=
        List.filter (fun item => negb (bool_decide (status_phone item ∈ existingPhones)))
                    statusData in
      statusSheetData ++ newStatusEntries
  end.

(** A hook message scheduled with [setTimeout]. *)
Record HookMessage := {
  delayMs : Z;
  hook_to : string;            (* the chat id, [phone@c.us] *)
  hook_person : string;        (* the person addressed *)
  hook_about : string          (* the name of the new appointment *)
}.

(** [imap f l]: [l.forEach((x, index) => ...)] collecting the results. *)
Fixpoint with_index {A B} (f : Z -> A -> B) (index : Z) (l : list A) : list B :=
  match l with
  | [] => []
  | x :: rest => f index x :: with_index f (index + 1) rest
  end.

(** [sendHookMessagesToNoStatusPeople(newAppointments)]: the timers it
    sets.  [connected] is [whatsappClient && app.locals.whatsappConnected]. *)
Definition sendHookMessagesToNoStatusPeople (connected : bool)
           (statusSheetData : list StatusRecord) (newAppointments : list Appointment)
  : list HookMessage :=
  if (List.length statusSheetData =? 0)%nat || negb connected then []
  else
    let noStatusPeople := List.filter (fun person => String.eqb (status person) "no")
                                      statusSheetData in
    if (List.length noStatusPeople =? 0)%nat then []
    else
      flat_map
        (fun newAppointment =>
           with_index
             (fun index noStatusPerson =>
                {| delayMs := index * 5 * 60 * 1000;
                   hook_to := status_phone noStatusPerson +:+ "@c.us";
                   hook_person := status_name noStatusPerson;
                   hook_about := name newAppointment |})
             0 noStatusPeople)
        newAppointments.

(** The hook messages an upload sets off: those for the appointments the
    merge found truly new, none when there is none. *)
Definition upload_hooks (connected : bool) (statusSheetData : list StatusRecord)
           (newAppointments : list Appointment) (w : World) : list HookMessage :=
  match newAppointments with
  | [] => []
  | _ =>
      let r := smart_merge (appointmentData w) newAppointments (seenAppointments w) in
      if (0 <? List.length (trulyNewAppointments r))%nat
      then sendHookMessagesToNoStatusPeople connected statusSheetData (trulyNewAppointments r)
      else []
  end.

(** ** The merge in closed form *)

(** What the first loop of the merge keeps of one record in memory. *)
Definition kept_record (newAppointments : list Appointment) (existingAppt : Appointment)
  : list Appointment :=
  match find_appointment (phone existingAppt) newAppointments with
  | Some matchingNewAppt =>
      if negb (isSame (appointmentTime existingAppt) (appointmentTime matchingNewAppt))
      then [mark_rescheduled existingAppt]
      else []
  | None => [mark_existing existingAppt]
  end.

(** What the second loop appends, given the phones processed so far. *)
Fixpoint appended_records (processed : gset string) (newAppointments : list Appointment)
  : list Appointment :=
  match newAppointments with
  | [] => []
  | newAppt :: rest =>
      if bool_decide (phone newAppt ∈ processed) then appended_records processed rest
      else newAppt :: appended_records (processed ∪ {[phone newAppt]}) rest
  end.

(** The phone a postponed action belongs to. *)
Definition deferred_phone (d : Deferred) : string :=
  match d with
  | RunProcessCancellation p | RunHandleRescheduleRequest p | RunReply p _
  | RunHandleDateSelection p _ | RunHandleTimeSelection p _
  | RunHandleCancellationRequest p => p
  end.

(** Equality test on parse results. *)
Definition Parsed_eqb (p q : TimeParser.Parsed) : bool :=
  (TimeParser.matchedHour p =? TimeParser.matchedHour q)
  && (TimeParser.matchedMinute p =? TimeParser.matchedMinute q)
  && match TimeParser.matchedPeriod p, TimeParser.matchedPeriod q with
     | None, None => true
     | Some TimeParser.AM, Some TimeParser.AM => true
     | Some TimeParser.PM, Some TimeParser.PM => true
     | _, _ => false
     end
  && Bool.eqb (TimeParser.is24HourFormat p) (TimeParser.is24HourFormat q).

(** What a dialogue step for phone [p] may do to the store and to the
    conversation states: leave them, set or remove the entry of [p]. *)
Inductive touched (p : string) (w w' : World) : Prop :=
| touched_intro :
    (appointmentData w' = appointmentData w
     \/ (exists t, appointmentData w' = update_time p t (appointmentData w))
     \/ appointmentData w' = remove_first p (appointmentData w)) ->
    (userReschedulingState w' = userReschedulingState w
     \/ (exists st, userReschedulingState w' = <[p := st]> (userReschedulingState w))
     \/ userReschedulingState w' = delete p (userReschedulingState w)) ->
    touched p w w'.

(** * Properties *)

(** ** Clock arithmetic *)

Ltac clock_unfold :=
  unfold set_hour, set_minute, set_second, add_minute, add_day, subtract_hour, startOf_day,
    diff_minute, diff_day, local_time in *;
  unfold hour, minute, second, day in *;
  unfold localDay, dayjs_of_date in *;
  unfold localMs, SLOT_MS, TIME_SLOT_DURATION, MS_PER_DAY, MS_PER_HOUR, MS_PER_MINUTE,
    MS_PER_SECOND in *.

Ltac clock := clock_unfold; Z.div_mod_to_equations; lia.

Lemma localDay_dayjs_of_date off d : localDay off (dayjs_of_date off d) = d.
Proof. clock. Qed.

Lemma localDay_add_day off t n : localDay off (add_day t n) = localDay off t + n.
Proof. clock. Qed.

Lemma hour_midnight off d : hour off (dayjs_of_date off d) = 0.
Proof. clock. Qed.

Lemma minute_on_the_hour off d h : minute off (dayjs_of_date off d + h * MS_PER_HOUR) = 0.
Proof. clock. Qed.

Lemma second_on_the_minute off d h m :
  second off (dayjs_of_date off d + h * MS_PER_HOUR + m * MS_PER_MINUTE) = 0.
Proof. clock. Qed.

(** [date.hour(h).minute(m).second(0)] on a local midnight. *)
Lemma at_time off d h m :
  set_second off (set_minute off (set_hour off (dayjs_of_date off d) h) m) 0
  = local_time off d h m.
Proof.
  unfold local_time, set_hour. rewrite hour_midnight, Z.sub_0_r.
  unfold set_minute. rewrite minute_on_the_hour, Z.sub_0_r.
  unfold set_second. rewrite second_on_the_minute. lia.
Qed.

(** ** The slot loop *)

Lemma slot_loop_eq keep e c :
  slot_loop keep e c =
  if Z_lt_dec c e
  then (if keep c then [c] else []) ++ slot_loop keep e (c + SLOT_MS)
  else [].
Proof.
  rewrite slot_loop_equation_1. unfold slot_loop_unfold_clause_1.
  destruct (Z_lt_dec c e); reflexivity.
Qed.

(** Induction along the loop: the distance to [endTime] shrinks. *)
Lemma slot_loop_ind (P : Z -> Prop) (e : Z) :
  (forall c, e <= c -> P c) ->
  (forall c, c < e -> P (c + SLOT_MS) -> P c) ->
  forall c, P c.
Proof.
  intros Hstop Hstep c.
  remember (Z.to_nat (e - c)) as n eqn:Hn.
  revert c Hn. induction (lt_wf n) as [n _ IH]. intros c Hn.
  destruct (Z_lt_dec c e) as [Hlt | Hge]; [| apply Hstop; lia].
  apply Hstep; [exact Hlt |].
  apply (IH (Z.to_nat (e - (c + SLOT_MS)))); [| reflexivity].
  unfold SLOT_MS, TIME_SLOT_DURATION, MS_PER_MINUTE. lia.
Qed.

Ltac loop_induction e c :=
  revert c;
  match goal with
  | |- forall x, @?P x => apply (slot_loop_ind P e)
  end;
  intros c.

Lemma slot_loop_filter keep e c :
  slot_loop keep e c = List.filter keep (generated_slots e c).
Proof.
  unfold generated_slots. loop_induction e c; intros Hc.
  - rewrite !(slot_loop_eq _ e c). destruct (Z_lt_dec c e); [lia | reflexivity].
  - intros IH. rewrite !(slot_loop_eq _ e c). destruct (Z_lt_dec c e); [| lia].
    simpl. rewrite IH. destruct (keep c); reflexivity.
Qed.

Lemma generated_slots_bounds e c s :
  In s (generated_slots e c) -> c <= s < e.
Proof.
  unfold generated_slots. loop_induction e c; intros Hc.
  - rewrite slot_loop_eq. destruct (Z_lt_dec c e); [lia | intros []].
  - intros IH. rewrite slot_loop_eq. destruct (Z_lt_dec c e); [| lia].
    simpl. intros [<- | Hin]; [lia |].
    specialize (IH Hin). unfold SLOT_MS, TIME_SLOT_DURATION, MS_PER_MINUTE in IH. lia.
Qed.

Lemma generated_slots_head e c :
  c < e -> List.hd_error (generated_slots e c) = Some c.
Proof.
  intros Hlt. unfold generated_slots. rewrite slot_loop_eq.
  destruct (Z_lt_dec c e); [reflexivity | lia].
Qed.

(** The [i]-th generated slot is [i] slot durations after the first. *)
Lemma generated_slots_nth e c (i : nat) s :
  generated_slots e c !! i = Some s -> s = c + Z.of_nat i * SLOT_MS.
Proof.
  unfold generated_slots. revert i s. loop_induction e c; intros Hc.
  - intros i s. rewrite slot_loop_eq. destruct (Z_lt_dec c e); [lia | ].
    rewrite lookup_nil. discriminate.
  - intros IH i s. rewrite slot_loop_eq. destruct (Z_lt_dec c e); [| lia].
    simpl. destruct i as [| i]; simpl.
    + intros [= <-]. lia.
    + intros H. apply IH in H. lia.
Qed.

Lemma generated_slots_step e c (i : nat) a b :
  generated_slots e c !! i = Some a ->
  generated_slots e c !! S i = Some b ->
  b = a + SLOT_MS.
Proof.
  intros Ha Hb. apply generated_slots_nth in Ha, Hb. lia.
Qed.

Lemma generated_slots_sorted e c : StronglySorted Z.lt (generated_slots e c).
Proof.
  unfold generated_slots. loop_induction e c; intros Hc.
  - rewrite slot_loop_eq. destruct (Z_lt_dec c e); [lia | constructor].
  - intros IH. rewrite slot_loop_eq. destruct (Z_lt_dec c e); [| lia].
    simpl. constructor; [exact IH |].
    apply List.Forall_forall. intros s Hs. apply generated_slots_bounds in Hs.
    unfold SLOT_MS, TIME_SLOT_DURATION, MS_PER_MINUTE in Hs. lia.
Qed.

Lemma filter_sorted (keep : Z -> bool) l :
  StronglySorted Z.lt l -> StronglySorted Z.lt (List.filter keep l).
Proof.
  induction 1 as [| a l Hs IH Hall]; simpl; [constructor |].
  destruct (keep a); [| exact IH].
  constructor; [exact IH |].
  apply List.Forall_forall. intros s Hs'. apply List.filter_In in Hs' as [Hs' _].
  rewrite List.Forall_forall in Hall. auto.
Qed.

(** ** Availability of a slot *)

Lemma isTimeSlotAvailable_spec off appts slot userPhone :
  isTimeSlotAvailable off appts slot userPhone = true
  <-> forall a, In a appts -> phone a <> userPhone -> ~ conflicts off slot a.
Proof.
  unfold conflicts. induction appts as [| appt rest IH]; simpl.
  - split; [intros _ a [] | reflexivity].
  - destruct (String.eqb_spec (phone appt) userPhone) as [Heq | Hne].
    + rewrite IH. split.
      * intros H a [<- | Hin] Hp; [contradiction | auto].
      * intros H a Hin. apply H. right. exact Hin.
    + destruct (Z.eqb_spec (localDay off slot) (localDay off (appointmentTime appt))) as [Hd | Hd];
        destruct (Z.ltb_spec (Z.abs (slot - appointmentTime appt)) MS_PER_HOUR) as [Hlt | Hge];
        simpl.
      * split; [discriminate |]. intros H. exfalso. apply (H appt); auto.
      * rewrite IH. split.
        -- intros H a [<- | Hin] Hp; [lia | auto].
        -- intros H a Hin. apply H. right. exact Hin.
      * rewrite IH. split.
        -- intros H a [<- | Hin] Hp; [tauto | auto].
        -- intros H a Hin. apply H. right. exact Hin.
      * rewrite IH. split.
        -- intros H a [<- | Hin] Hp; [tauto | auto].
        -- intros H a Hin. apply H. right. exact Hin.
Qed.

Lemma getAvailableTimeSlots_filter off appts d userPhone :
  getAvailableTimeSlots off appts d userPhone
  = List.filter (fun slot => isTimeSlotAvailable off appts slot userPhone)
                (getAvailableTimeSlots off [] d userPhone).
Proof.
  unfold getAvailableTimeSlots.
  destruct (has_business_hours _); simpl; [| reflexivity].
  destruct (BUSINESS_HOURS _) as [[[o |] [c |]] |]; try reflexivity.
  destruct (hour_minute o) as [oh om], (hour_minute c) as [ch cm].
  rewrite !at_time.
  rewrite (slot_loop_filter (fun slot => isTimeSlotAvailable off appts slot userPhone)).
  reflexivity.
Qed.

(** C5. A candidate slot is kept exactly when no appointment of another
    phone lies on the same local calendar date less than one hour away:
    this is what [isTimeSlotAvailable] decides, and what selects the
    returned slots among the generated ones.  Appointments of the excluded
    phone never count, and neither do appointments on another local date,
    such as 23:30 against 00:30 of the next day. *)
Theorem slot_kept_iff_no_conflict off appts slot userPhone :
  (isTimeSlotAvailable off appts slot userPhone = true
   <-> forall a, In a appts -> phone a <> userPhone -> ~ conflicts off slot a)
  /\ (forall d,
        In slot (getAvailableTimeSlots off appts d userPhone)
        <-> In slot (getAvailableTimeSlots off [] d userPhone)
            /\ forall a, In a appts -> phone a <> userPhone -> ~ conflicts off slot a)
  /\ (forall own, phone own = userPhone ->
        isTimeSlotAvailable off (own :: appts) slot userPhone
        = isTimeSlotAvailable off appts slot userPhone)
  /\ (forall a, localDay off (appointmentTime a) <> localDay off slot ->
        isTimeSlotAvailable off (a :: appts) slot userPhone
        = isTimeSlotAvailable off appts slot userPhone)
  /\ (forall d a, appointmentTime a = local_time off d 23 30 ->
        isTimeSlotAvailable off [a] (local_time off (d + 1) 0 30) userPhone = true).
Proof.
  split; [apply isTimeSlotAvailable_spec |].
  split.
  { intros d. rewrite getAvailableTimeSlots_filter, List.filter_In, isTimeSlotAvailable_spec.
    reflexivity. }
  split.
  { intros own Hown. simpl. apply String.eqb_eq in Hown. rewrite Hown. reflexivity. }
  split.
  { intros a Hd. simpl.
    destruct (Z.eqb_spec (localDay off slot) (localDay off (appointmentTime a))); [congruence |].
    simpl. destruct (String.eqb _ _); reflexivity. }
  intros d a Ha. simpl. rewrite Ha.
  replace (localDay off (local_time off (d + 1) 0 30) =? localDay off (local_time off d 23 30))
    with false.
  - simpl. destruct (String.eqb _ _); reflexivity.
  - symmetry. apply Z.eqb_neq. unfold local_time. clock.
Qed.

Lemma slot_kept_iff_no_conflict_witness :
  let other := {| name := "Asha"; phone := "919800000001"; appointmentTime := local_time 330 19786 23 30;
                  isFromUpload := true; isRescheduled := false; isExisting := false |} in
  isTimeSlotAvailable 330 [other] (local_time 330 19787 0 30) "919800000002" = true
  /\ isTimeSlotAvailable 330 [other] (local_time 330 19786 23 0) "919800000002" = false
  /\ isTimeSlotAvailable 330 [other] (local_time 330 19786 23 0) "919800000001" = true.
Proof.
  intros other. split; [| split].
  - apply (proj2 (proj2 (proj2 (proj2
      (slot_kept_iff_no_conflict 330 [] (local_time 330 19787 0 30) "919800000002"))))
      19786 other). reflexivity.
  - vm_compute. reflexivity.
  - rewrite (proj1 (proj2 (proj2
      (slot_kept_iff_no_conflict 330 [] (local_time 330 19786 23 0) "919800000001"))) other);
      reflexivity.
Defined.

(** An appointment at 14:00 removes the 14:00 slot for the other phones and
    no other: the slots at 13:00 and 15:00 are exactly one hour away. *)
Example booked_hour_is_the_slot_removed :
  let booked := plain_appointment "Asha" "919800000001" (local_time 330 19786 14 0) in
  getAvailableTimeSlots 330 [booked] 19786 "919800000002"
  = map (fun h => local_time 330 19786 h 0) [10; 11; 12; 13; 15; 16; 17; 18; 19; 20]
  /\ In (local_time 330 19786 14 0) (getAvailableTimeSlots 330 [booked] 19786 "919800000001").
Proof. split; [vm_compute; reflexivity | vm_compute; tauto]. Qed.

(** ** Candidate slots of a day *)

Lemma day_dayjs_of_date off d : day off (dayjs_of_date off d) = (d + 4) mod 7.
Proof. unfold day. rewrite localDay_dayjs_of_date. reflexivity. Qed.

Lemma has_business_hours_table dow :
  has_business_hours dow = true ->
  BUSINESS_HOURS dow = Some {| open := Some "10:00"%string; close := Some "21:00"%string |}.
Proof.
  unfold has_business_hours, BUSINESS_HOURS.
  destruct dow as [| [[[| |] | [| |] |] | [[| |] | [| |] |] |] |]; simpl; congruence.
Qed.

Lemma getAvailableTimeSlots_open off appts d userPhone :
  has_business_hours (day off (dayjs_of_date off d)) = true ->
  getAvailableTimeSlots off appts d userPhone
  = List.filter (fun slot => isTimeSlotAvailable off appts slot userPhone)
                (generated_slots (local_time off d 21 0) (local_time off d 10 0)).
Proof.
  intros Hopen. unfold getAvailableTimeSlots. rewrite Hopen. simpl.
  rewrite (has_business_hours_table _ Hopen).
  change (hour_minute "10:00") with (10, 0). change (hour_minute "21:00") with (21, 0).
  cbv iota beta. rewrite !at_time. apply slot_loop_filter.
Qed.

(** C6. On a closed weekday [getAvailableTimeSlots] returns no slot.  On an
    open one the slots it generates start at the opening time of the
    table, advance by exactly one slot duration (60 minutes), stay strictly
    before the closing time and are in chronological order; what it
    returns are the generated slots that pass the availability test, in
    the same order, and all of them when nothing is booked. *)
Theorem candidate_slots_generated off appts d userPhone :
  let dow := day off (dayjs_of_date off d) in
  (has_business_hours dow = false -> getAvailableTimeSlots off appts d userPhone = [])
  /\ (has_business_hours dow = true ->
      exists o c generated,
        BUSINESS_HOURS dow = Some {| open := Some o; close := Some c |}
        /\ let openTime := local_time off d (fst (hour_minute o)) (snd (hour_minute o)) in
           let closeTime := local_time off d (fst (hour_minute c)) (snd (hour_minute c)) in
           getAvailableTimeSlots off [] d userPhone = generated
           /\ getAvailableTimeSlots off appts d userPhone
              = List.filter (fun slot => isTimeSlotAvailable off appts slot userPhone) generated
           /\ List.hd_error generated = Some openTime
           /\ (forall (i : nat) a b,
                 generated !! i = Some a -> generated !! S i = Some b ->
                 b = add_minute a TIME_SLOT_DURATION)
           /\ (forall s, In s generated -> openTime <= s < closeTime)
           /\ StronglySorted Z.lt generated
           /\ StronglySorted Z.lt (getAvailableTimeSlots off appts d userPhone)).
Proof.
  intros dow. split.
  - intros Hclosed. unfold getAvailableTimeSlots. fold dow. rewrite Hclosed. reflexivity.
  - intros Hopen.
    exists "10:00"%string, "21:00"%string,
      (generated_slots (local_time off d 21 0) (local_time off d 10 0)).
    split; [apply has_business_hours_table; exact Hopen |].
    change (hour_minute "10:00") with (10, 0). change (hour_minute "21:00") with (21, 0).
    cbv zeta. simpl fst. simpl snd.
    split.
    { rewrite getAvailableTimeSlots_open by exact Hopen.
      apply List.forallb_filter_id, List.forallb_forall. reflexivity. }
    split; [apply getAvailableTimeSlots_open; exact Hopen |].
    split.
    { apply generated_slots_head. unfold local_time. clock. }
    split.
    { intros i a b Ha Hb. apply (generated_slots_step _ _ _ _ _ Ha Hb). }
    split; [intros s; apply generated_slots_bounds |].
    split; [apply generated_slots_sorted |].
    rewrite getAvailableTimeSlots_open by exact Hopen.
    apply filter_sorted, generated_slots_sorted.
Qed.

Lemma candidate_slots_generated_witness :
  getAvailableTimeSlots 330 [] 19786 "919800000002"
  = map (fun h => local_time 330 19786 h 0) [10; 11; 12; 13; 14; 15; 16; 17; 18; 19; 20]
  /\ getAvailableTimeSlots 330 [] 19785 "919800000002" = [].
Proof.
  split.
  - destruct (proj2 (candidate_slots_generated 330 [] 19786 "919800000002") eq_refl)
      as (o & c & generated & _ & Hgen & _).
    rewrite Hgen. rewrite <- Hgen. vm_compute. reflexivity.
  - apply (proj1 (candidate_slots_generated 330 [] 19785 "919800000002")). reflexivity.
Defined.

(** ** Candidate dates *)

Lemma getAvailableDates_acc off now acc l :
  foldl (fun availableDates i =>
           let date := add_day now (Z.of_nat i) in
           let dayOfWeek := day off date in
           if has_business_hours dayOfWeek
           then availableDates ++ [localDay off date]
           else availableDates) acc l
  = acc ++ List.filter (fun d => has_business_hours ((d + 4) mod 7))
                       (map (fun i => localDay off now + Z.of_nat i) l).
Proof.
  revert acc. induction l as [| i l IH]; intros acc; simpl.
  - rewrite app_nil_r. reflexivity.
  - rewrite IH. unfold day. rewrite localDay_add_day.
    destruct (has_business_hours _); [rewrite <- app_assoc |]; reflexivity.
Qed.

Lemma getAvailableDates_filter off now n :
  getAvailableDates off now n
  = List.filter (fun d => has_business_hours ((d + 4) mod 7))
                (map (fun i => localDay off now + Z.of_nat i) (seq 1 n)).
Proof. unfold getAvailableDates. apply getAvailableDates_acc. Qed.

Lemma days_ahead_sorted today start n :
  StronglySorted Z.lt (map (fun i => today + Z.of_nat i) (seq start n)).
Proof.
  revert start. induction n as [| n IH]; intros start; simpl; constructor.
  - apply IH.
  - apply List.Forall_forall. intros d Hd. apply List.in_map_iff in Hd as (i & <- & Hi).
    apply List.in_seq in Hi. lia.
Qed.

(** C7. [getAvailableDates now n] walks the [n] calendar days that follow
    today in order and keeps exactly those whose weekday has opening hours
    in the table: it returns at most [n] dates, all among those [n] days,
    none on a closed weekday, in chronological order.  When today is a
    Saturday, a horizon of 7 gives the six days from Monday to the next
    Saturday and leaves out the Sunday in between. *)
Theorem candidate_dates_walk off now (n : nat) :
  let today := localDay off now in
  getAvailableDates off now n
  = List.filter (fun d => has_business_hours (day off (dayjs_of_date off d)))
                (map (fun i => today + Z.of_nat i) (seq 1 n))
  /\ (List.length (getAvailableDates off now n) <= n)%nat
  /\ (forall d, In d (getAvailableDates off now n) ->
        has_business_hours (day off (dayjs_of_date off d)) = true
        /\ today + 1 <= d <= today + Z.of_nat n)
  /\ StronglySorted Z.lt (getAvailableDates off now n)
  /\ (day off now = 6 ->
      getAvailableDates off now 7
      = [today + 2; today + 3; today + 4; today + 5; today + 6; today + 7]
      /\ List.length (getAvailableDates off now 7) = 6%nat
      /\ ~ In (today + 1) (getAvailableDates off now 7)
      /\ has_business_hours (day off (dayjs_of_date off (today + 1))) = false).
Proof.
  intros today.
  assert (Hfilter : getAvailableDates off now n
                    = List.filter (fun d => has_business_hours (day off (dayjs_of_date off d)))
                                  (map (fun i => today + Z.of_nat i) (seq 1 n))).
  { rewrite getAvailableDates_filter. apply List.filter_ext. intros d.
    rewrite day_dayjs_of_date. reflexivity. }
  split; [exact Hfilter |].
  split.
  { rewrite Hfilter. etransitivity; [apply List.filter_length_le |].
    rewrite length_map, length_seq. lia. }
  split.
  { intros d. rewrite Hfilter, List.filter_In, List.in_map_iff.
    intros [(i & <- & Hi) Hopen]. apply List.in_seq in Hi. split; [exact Hopen | lia]. }
  split.
  { rewrite Hfilter. apply filter_sorted, days_ahead_sorted. }
  intros Hsat.
  assert (Hmod : (today + 4) mod 7 = 6) by exact Hsat.
  assert (Hlist : getAvailableDates off now 7
                  = [today + 2; today + 3; today + 4; today + 5; today + 6; today + 7]).
  { rewrite getAvailableDates_filter. fold today.
    change (map (fun i => today + Z.of_nat i) (seq 1 7))
      with [today + 1; today + 2; today + 3; today + 4; today + 5; today + 6; today + 7].
    cbn [List.filter].
    replace ((today + 1 + 4) mod 7) with 0 by (Z.div_mod_to_equations; lia).
    replace ((today + 2 + 4) mod 7) with 1 by (Z.div_mod_to_equations; lia).
    replace ((today + 3 + 4) mod 7) with 2 by (Z.div_mod_to_equations; lia).
    replace ((today + 4 + 4) mod 7) with 3 by (Z.div_mod_to_equations; lia).
    replace ((today + 5 + 4) mod 7) with 4 by (Z.div_mod_to_equations; lia).
    replace ((today + 6 + 4) mod 7) with 5 by (Z.div_mod_to_equations; lia).
    replace ((today + 7 + 4) mod 7) with 6 by (Z.div_mod_to_equations; lia).
    reflexivity. }
  split; [exact Hlist |].
  split; [rewrite Hlist; reflexivity |].
  split.
  { rewrite Hlist. simpl. lia. }
  rewrite day_dayjs_of_date.
  replace ((today + 1 + 4) mod 7) with 0 by (Z.div_mod_to_equations; lia).
  reflexivity.
Qed.

Lemma candidate_dates_walk_witness :
  getAvailableDates 330 (local_time 330 19784 9 15) 7
  = [19786; 19787; 19788; 19789; 19790; 19791].
Proof.
  destruct (candidate_dates_walk 330 (local_time 330 19784 9 15) 7)
    as (_ & _ & _ & _ & Hsat).
  destruct (Hsat eq_refl) as (Hlist & _). rewrite Hlist. reflexivity.
Defined.

(** ** The countdown reminder *)

Lemma hour_range off t : 0 <= hour off t < 24.
Proof. clock. Qed.

Lemma minute_range off t : 0 <= minute off t < 60.
Proof. clock. Qed.

Lemma localMs_local_time off d h m :
  localMs off (local_time off d h m) = d * MS_PER_DAY + (h * MS_PER_HOUR + m * MS_PER_MINUTE).
Proof. unfold localMs, local_time, dayjs_of_date. lia. Qed.

Lemma localDay_local_time off d h m :
  0 <= h < 24 -> 0 <= m < 60 -> localDay off (local_time off d h m) = d.
Proof.
  intros Hh Hm. unfold localDay. rewrite localMs_local_time.
  unfold MS_PER_DAY, MS_PER_HOUR, MS_PER_MINUTE.
  rewrite Z.div_add_l by lia. rewrite Z.div_small by lia. lia.
Qed.

Lemma hour_local_time off d h m :
  0 <= h < 24 -> 0 <= m < 60 -> hour off (local_time off d h m) = h.
Proof.
  intros Hh Hm. unfold hour. rewrite localMs_local_time.
  unfold MS_PER_DAY, MS_PER_HOUR, MS_PER_MINUTE.
  rewrite Z.add_comm, Z_mod_plus_full, Z.mod_small by lia.
  rewrite Z.div_add_l by lia. rewrite Z.div_small by lia. lia.
Qed.

Lemma minute_local_time off d h m :
  0 <= h < 24 -> 0 <= m < 60 -> minute off (local_time off d h m) = m.
Proof.
  intros Hh Hm. unfold minute. rewrite localMs_local_time.
  unfold MS_PER_DAY, MS_PER_HOUR, MS_PER_MINUTE.
  replace (d * 86400000 + (h * 3600000 + m * 60000))
    with (m * 60000 + (d * 24 + h) * 3600000) by lia.
  rewrite Z_mod_plus_full, Z.mod_small by lia.
  apply Z.div_mul. lia.
Qed.

Lemma add_minute_local_time off d h m n :
  add_minute (local_time off d h m) n = local_time off d h (m + n).
Proof. unfold add_minute, local_time. lia. Qed.

(** The two-digit fields determine the number they print. *)
Lemma Number_digits_pad2 n : 0 <= n < 60 -> Number_digits 0 (pad2 n) = n.
Proof.
  intros Hn. rewrite <- (Z2Nat.id n) by lia.
  assert (Hn' : (Z.to_nat n < 60)%nat) by lia.
  generalize dependent (Z.to_nat n). clear. intros a Ha.
  do 60 (destruct a as [| a]; [reflexivity |]). lia.
Qed.

Lemma pad2_inj n k : 0 <= n < 60 -> 0 <= k < 60 -> pad2 n = pad2 k -> n = k.
Proof.
  intros Hn Hk Heq.
  rewrite <- (Number_digits_pad2 n Hn), <- (Number_digits_pad2 k Hk), Heq. reflexivity.
Qed.

Lemma format_HHmm_eq off t h m :
  0 <= h < 24 -> 0 <= m < 60 ->
  String.eqb (format_HHmm off t) (pad2 h +:+ ":" +:+ pad2 m) = true
  <-> hour off t = h /\ minute off t = m.
Proof.
  intros Hh Hm. rewrite String.eqb_eq. unfold format_HHmm. split.
  - unfold pad2 at 1 3. simpl. intros H.
    pose proof (hour_range off t). pose proof (minute_range off t).
    split; apply pad2_inj; try lia; unfold pad2; injection H; congruence.
  - intros [-> ->]. reflexivity.
Qed.

Lemma startOf_day_eq off t :
  startOf_day off t = dayjs_of_date off (localDay off t).
Proof. clock. Qed.

Lemma daysUntilAppointment_eq off now apptTime :
  daysUntilAppointment off now apptTime = localDay off apptTime - localDay off now.
Proof.
  unfold daysUntilAppointment, diff_day. rewrite !startOf_day_eq. unfold dayjs_of_date.
  replace (localDay off apptTime * MS_PER_DAY - off * MS_PER_MINUTE
           - (localDay off now * MS_PER_DAY - off * MS_PER_MINUTE))
    with ((localDay off apptTime - localDay off now) * MS_PER_DAY) by lia.
  apply Z.quot_mul. unfold MS_PER_DAY. lia.
Qed.

Lemma countdown_due_spec off now apptTime :
  countdown_due off now apptTime = true
  <-> hour off now = 11 /\ minute off now = 30
      /\ 1 <= localDay off apptTime - localDay off now <= 7.
Proof.
  unfold countdown_due. rewrite !andb_true_iff.
  change "11:30"%string with (pad2 11 +:+ ":" +:+ pad2 30).
  rewrite format_HHmm_eq by lia.
  rewrite daysUntilAppointment_eq, Z.ltb_lt, Z.leb_le. intuition lia.
Qed.

Lemma reminder_tick_cons off connected now a l :
  reminder_tick off connected now (a :: l)
  = ((if countdown_due off now (appointmentTime a)
      then if connected
           then [CountdownReminder (phone a) (name a)
                                   (daysUntilAppointment off now (appointmentTime a))]
           else []
      else [])
     ++ (if same_day_due off now (appointmentTime a)
         then if connected then [SameDayReminder (phone a) (name a) (appointmentTime a)] else []
         else []))
    ++ reminder_tick off connected now l.
Proof. reflexivity. Qed.

(** C8. On a tick at the instant [now], the countdown condition holds for
    an appointment exactly when the local time of day is 11:30 and the
    appointment's local calendar date is 1 to 7 days after today's; the
    connected scheduler sends the countdown message of an appointment of
    the store exactly then, and sends none when disconnected.  At 11:30
    with the appointment three days ahead one countdown message goes out;
    at 11:31 none does. *)
Theorem countdown_fires_iff off now appts a :
  (countdown_due off now (appointmentTime a) = true
   <-> hour off now = 11 /\ minute off now = 30
       /\ 1 <= localDay off (appointmentTime a) - localDay off now <= 7)
  /\ (In a appts ->
      (In (CountdownReminder (phone a) (name a)
                             (localDay off (appointmentTime a) - localDay off now))
          (reminder_tick off true now appts)
       <-> hour off now = 11 /\ minute off now = 30
           /\ 1 <= localDay off (appointmentTime a) - localDay off now <= 7))
  /\ reminder_tick off false now appts = []
  /\ (forall d h m,
        now = local_time off d 11 30 ->
        appointmentTime a = local_time off (d + 3) h m ->
        0 <= h < 24 -> 0 <= m < 60 ->
        List.filter is_countdown (reminder_tick off true now [a])
        = [CountdownReminder (phone a) (name a) 3]
        /\ List.filter is_countdown (reminder_tick off true (add_minute now 1) [a]) = []).
Proof.
  split; [apply countdown_due_spec |].
  split.
  { intros Hin. split.
    - unfold reminder_tick. rewrite List.in_flat_map. intros (a' & _ & Ha').
      apply List.in_app_or in Ha' as [Ha' | Ha'].
      + destruct (countdown_due off now (appointmentTime a')) eqn:Hdue; [| destruct Ha'].
        destruct Ha' as [Ha' | []]. injection Ha' as _ _ Hdays.
        apply countdown_due_spec in Hdue. rewrite daysUntilAppointment_eq in Hdays. lia.
      + destruct (same_day_due off now (appointmentTime a')); [| destruct Ha'].
        destruct Ha' as [Ha' | []]. discriminate.
    - intros Hdue. apply countdown_due_spec in Hdue.
      unfold reminder_tick. rewrite List.in_flat_map. exists a. split; [exact Hin |].
      apply List.in_or_app. left. rewrite Hdue, daysUntilAppointment_eq. left. reflexivity. }
  split.
  { induction appts as [| x l IH]; [reflexivity |].
    rewrite reminder_tick_cons, IH.
    destruct (countdown_due _ _ _), (same_day_due _ _ _); reflexivity. }
  intros d h m Hnow Ha Hh Hm.
  assert (Hdays : localDay off (appointmentTime a) - localDay off now = 3).
  { rewrite Hnow, Ha, !localDay_local_time by lia. lia. }
  split.
  - assert (Hdue : countdown_due off now (appointmentTime a) = true).
    { apply countdown_due_spec. rewrite Hdays. rewrite Hnow.
      rewrite hour_local_time, minute_local_time by lia. lia. }
    rewrite reminder_tick_cons, Hdue, daysUntilAppointment_eq, Hdays.
    destruct (same_day_due _ _ _); reflexivity.
  - assert (Hdue : countdown_due off (add_minute now 1) (appointmentTime a) = false).
    { apply not_true_is_false. rewrite countdown_due_spec. intros (_ & Hmin & _).
      rewrite Hnow, add_minute_local_time, minute_local_time in Hmin by lia. lia. }
    rewrite reminder_tick_cons, Hdue.
    destruct (same_day_due _ _ _); reflexivity.
Qed.

Lemma countdown_fires_iff_witness :
  let a := {| name := "Asha"; phone := "919800000001";
              appointmentTime := local_time 330 19789 14 0;
              isFromUpload := true; isRescheduled := false; isExisting := false |} in
  let now := local_time 330 19786 11 30 in
  List.filter is_countdown (reminder_tick 330 true now [a])
  = [CountdownReminder (phone a) (name a) 3]
  /\ List.filter is_countdown (reminder_tick 330 true (add_minute now 1) [a]) = [].
Proof.
  intros a now.
  apply (proj2 (proj2 (proj2 (countdown_fires_iff 330 now [a] a))) 19786 14 0);
    [reflexivity | reflexivity | lia | lia].
Defined.

(** ** Resolving a bare hour against the offered slots *)

Import TimeParser.



Lemma find_none_iff {A} (f : A -> bool) l :
  List.find f l = None <-> forall x, In x l -> f x = false.
Proof.
  split; [apply List.find_none |].
  induction l as [| a l IH]; intros H; simpl; [reflexivity |].
  rewrite (H a) by (left; reflexivity). apply IH. intros x Hx. apply H. right. exact Hx.
Qed.

Lemma shows_test off h m slot :
  (hour off slot =? h) && (minute off slot =? m) = true <-> shows off h m slot.
Proof. unfold shows. rewrite andb_true_iff, !Z.eqb_eq. reflexivity. Qed.

Lemma local_time_next_slot off d h :
  local_time off d h 0 + SLOT_MS = local_time off d (h + 1) 0.
Proof. unfold local_time, SLOT_MS, TIME_SLOT_DURATION, MS_PER_HOUR, MS_PER_MINUTE. lia. Qed.

Lemma local_time_lt off d h k : h < k -> local_time off d h 0 < local_time off d k 0.
Proof. unfold local_time, MS_PER_HOUR, MS_PER_MINUTE. lia. Qed.

(** The slots of an open day, before the availability test: the eleven
    full hours from 10:00 to 20:00. *)
Lemma generated_slots_of_day off d :
  generated_slots (local_time off d 21 0) (local_time off d 10 0)
  = map (fun h => local_time off d h 0) [10; 11; 12; 13; 14; 15; 16; 17; 18; 19; 20].
Proof.
  unfold generated_slots.
  do 11 (rewrite slot_loop_eq;
         destruct (Z_lt_dec _ _) as [_ | Hge];
         [| exfalso; apply Hge; apply local_time_lt; lia];
         rewrite local_time_next_slot;
         match goal with
         | |- context [local_time _ _ (?h + 1) 0] =>
             let v := eval compute in (h + 1) in change (h + 1) with v
         end).
  rewrite slot_loop_eq. destruct (Z_lt_dec _ _) as [Hlt | _]; [lia |]. reflexivity.
Qed.

Lemma offered_slot_form off appts d userPhone s :
  In s (getAvailableTimeSlots off appts d userPhone) ->
  exists h, 10 <= h <= 20 /\ s = local_time off d h 0
            /\ isTimeSlotAvailable off appts s userPhone = true.
Proof.
  intros Hs.
  destruct (has_business_hours (day off (dayjs_of_date off d))) eqn:Hopen.
  - rewrite (getAvailableTimeSlots_open off appts d userPhone Hopen),
      generated_slots_of_day in Hs.
    apply List.filter_In in Hs as [Hs Hfree].
    apply List.in_map_iff in Hs as (h & <- & Hh). exists h.
    split; [simpl in Hh; lia |]. auto.
  - unfold getAvailableTimeSlots in Hs. rewrite Hopen in Hs. destruct Hs.
Qed.


Lemma slot_at_none off slots h m :
  slot_at off slots h m = None <-> forall s, In s slots -> ~ shows off h m s.
Proof.
  unfold slot_at. rewrite find_none_iff. split; intros H s Hs.
  - rewrite <- shows_test, (H s Hs). discriminate.
  - apply not_true_is_false. rewrite shows_test. auto.
Qed.

Lemma candidateHours_bare h :
  1 <= h <= 12 -> candidateHours h = [first_candidate_hour h; second_candidate_hour h].
Proof.
  intros Hh. unfold candidateHours, first_candidate_hour, second_candidate_hour.
  destruct (Z.leb_spec 1 h); [| lia].
  destruct (Z.leb_spec h 11); simpl.
  - destruct (Z.eqb_spec h 12); [lia | reflexivity].
  - destruct (Z.eqb_spec h 12); [subst; reflexivity | lia].
Qed.






(** On a list that is not one the dialogue offers, the order of the
    candidates can decide against the order of the list: with the slots
    18:00 and 06:00 in that order, the input "6" selects 06:00. *)
Example candidate_order_on_other_lists :
  let t18 := local_time 330 19786 18 0 in
  let t06 := local_time 330 19786 6 0 in
  let slots := [t18; t06] in
  exists p,
    parse "6" = Some p
    /\ exact_match_list_order 330 (candidateHours (matchedHour p)) slots (matchedMinute p)
       = Some t18
    /\ exact_match 330 p slots = Some t06
    /\ forall appts d userPhone, getAvailableTimeSlots 330 appts d userPhone <> slots.
Proof.
  intros t18 t06 slots.
  exists {| matchedHour := 6; matchedMinute := 0; matchedPeriod := None;
            is24HourFormat := false |}.
  split; [reflexivity |]. split; [reflexivity |]. split; [reflexivity |].
  intros appts d userPhone Heq.
  destruct (offered_slot_form 330 appts d userPhone t06) as (h & Hh & Hform & _).
  { rewrite Heq. right. left. reflexivity. }
  assert (Hhour : hour 330 t06 = h) by (rewrite Hform; apply hour_local_time; lia).
  vm_compute in Hhour. lia.
Qed.

(** ** Import merge *)

Lemma find_appointment_some p l a :
  find_appointment p l = Some a -> In a l /\ phone a = p.
Proof.
  unfold find_appointment. intros H. apply List.find_some in H as [Hin Hp].
  split; [exact Hin | apply String.eqb_eq; exact Hp].
Qed.

Lemma find_appointment_none p l :
  find_appointment p l = None <-> ~ has_phone p l.
Proof.
  unfold find_appointment, has_phone. rewrite find_none_iff. split.
  - intros H (a & Ha & Hp). specialize (H a Ha). apply String.eqb_eq in Hp. congruence.
  - intros H a Ha. apply not_true_is_false. rewrite String.eqb_eq. intros Hp. apply H. eauto.
Qed.

(** What the first loop has produced: the merged records are the stored
    records it kept, marked, and [processedPhones] holds their phones. *)
Lemma keep_existing_fold batch stored acc_m acc_p :
  (forall r, In r (foldl (keep_existing batch) (acc_m, acc_p) stored).1 <-> In r acc_m \/
       exists e, In e stored /\
         ((exists n, find_appointment (phone e) batch = Some n
                     /\ appointmentTime e <> appointmentTime n /\ r = mark_rescheduled e)
          \/ (find_appointment (phone e) batch = None /\ r = mark_existing e)))
  /\ (forall q, q ∈ (foldl (keep_existing batch) (acc_m, acc_p) stored).2 <-> q ∈ acc_p \/
       exists e, In e stored /\ phone e = q /\
         ((exists n, find_appointment (phone e) batch = Some n
                     /\ appointmentTime e <> appointmentTime n)
          \/ find_appointment (phone e) batch = None)).
Proof.
  revert acc_m acc_p. induction stored as [| e stored IH]; intros acc_m acc_p; simpl.
  - split; [intros r | intros q]; split; auto; intros [H | (e & [] & _)]; exact H.
  - destruct (find_appointment (phone e) batch) as [n |] eqn:Hfind.
    + unfold isSame. destruct (Z.eqb_spec (appointmentTime e) (appointmentTime n)) as [Heq | Hne];
        simpl negb; cbv iota.
      * destruct (IH acc_m acc_p) as [IHm IHp]. split.
        -- intros r. rewrite IHm. split.
           ++ intros [H | (e' & He' & H)]; [left; exact H | right; exists e'; auto].
           ++ intros [H | (e' & [<- | He'] & H)]; [left; exact H | | right; exists e'; auto].
              destruct H as [(n' & Hn' & Hne & _) | [Hnone _]]; congruence.
        -- intros q. rewrite IHp. split.
           ++ intros [H | (e' & He' & H)]; [left; exact H | right; exists e'; auto].
           ++ intros [H | (e' & [<- | He'] & H)]; [left; exact H | | right; exists e'; auto].
              destruct H as (_ & [(n' & Hn' & Hne) | Hnone]); congruence.
      * destruct (IH (acc_m ++ [mark_rescheduled e]) (acc_p ∪ {[phone e]})) as [IHm IHp]. split.
        -- intros r. rewrite IHm, List.in_app_iff. simpl. split.
           ++ intros [[H | [<- | []]] | (e' & He' & H)];
                [left; exact H | right; exists e | right; exists e']; eauto 10.
           ++ intros [H | (e' & [<- | He'] & H)]; [auto | | right; exists e'; auto].
              destruct H as [(n' & Hn' & _ & ->) | [Hnone _]]; [auto | congruence].
        -- intros q. rewrite IHp, elem_of_union, elem_of_singleton. split.
           ++ intros [[H | ->] | (e' & He' & H)];
                [left; exact H | right; exists e | right; exists e']; eauto 10.
           ++ intros [H | (e' & [<- | He'] & H)]; [auto | | right; exists e'; auto].
              destruct H as (<- & _). auto.
    + destruct (IH (acc_m ++ [mark_existing e]) (acc_p ∪ {[phone e]})) as [IHm IHp]. split.
      * intros r. rewrite IHm, List.in_app_iff. simpl. split.
        -- intros [[H | [<- | []]] | (e' & He' & H)];
             [left; exact H | right; exists e | right; exists e']; eauto 10.
        -- intros [H | (e' & [<- | He'] & H)]; [auto | | right; exists e'; auto].
           destruct H as [(n' & Hn' & _) | [_ ->]]; [congruence | auto].
      * intros q. rewrite IHp, elem_of_union, elem_of_singleton. split.
        -- intros [[H | ->] | (e' & He' & H)];
             [left; exact H | right; exists e | right; exists e']; eauto 10.
        -- intros [H | (e' & [<- | He'] & H)]; [auto | | right; exists e'; auto].
           destruct H as (<- & _). auto.
Qed.

(** The second loop only appends uploaded records whose phone had not been
    processed, and never drops what was merged before. *)
Lemma add_new_fold seen batch st :
  let res := foldl (add_new seen) st batch in
  (forall r, In r (mergedAppointments st) -> In r (mergedAppointments res))
  /\ (forall q, q ∈ processedPhones st -> q ∈ processedPhones res)
  /\ (forall r, In r (mergedAppointments res) ->
        In r (mergedAppointments st) \/ (In r batch /\ phone r ∉ processedPhones st))
  /\ (forall n, In n batch -> phone n ∈ processedPhones res).
Proof.
  revert st. induction batch as [| n batch IH]; intros st; simpl.
  - repeat split; auto. intros n [].
  - destruct (IH (add_new seen st n)) as (IHkeep & IHproc & IHnew & IHall).
    assert (Hstep_m : forall r, In r (mergedAppointments st) ->
                                In r (mergedAppointments (add_new seen st n))).
    { intros r Hr. unfold add_new. case_bool_decide; [exact Hr |]. simpl.
      apply List.in_or_app. left. exact Hr. }
    assert (Hstep_p : forall q, q ∈ processedPhones st ->
                                q ∈ processedPhones (add_new seen st n)).
    { intros q Hq. unfold add_new. case_bool_decide; [exact Hq |]. simpl.
      apply elem_of_union. left. exact Hq. }
    assert (Hstep_n : phone n ∈ processedPhones (add_new seen st n)).
    { unfold add_new. case_bool_decide; [assumption |]. simpl.
      apply elem_of_union. right. apply elem_of_singleton. reflexivity. }
    split; [auto |]. split; [auto |]. split.
    + intros r Hr. apply IHnew in Hr as [Hr | [Hr Hp]].
      * unfold add_new in Hr. case_bool_decide as Hproc; [left; exact Hr |].
        simpl in Hr. apply List.in_app_or in Hr as [Hr | [<- | []]]; [left; exact Hr |].
        right. split; [left; reflexivity | exact Hproc].
      * right. split; [right; exact Hr |]. intros Hq. apply Hp, Hstep_p, Hq.
    + intros n' [<- | Hn']; [apply IHproc, Hstep_n | apply IHall, Hn'].
Qed.

Lemma mark_rescheduled_time e : appointmentTime (mark_rescheduled e) = appointmentTime e.
Proof. reflexivity. Qed.

Lemma mark_rescheduled_phone e : phone (mark_rescheduled e) = phone e.
Proof. reflexivity. Qed.

(** C2. When a phone is both in memory and in the uploaded batch and the
    stored time differs from the uploaded one, the merge keeps the stored
    record (marked as rescheduled) and adds no uploaded record of that
    phone: every merged record of the phone is a stored record with its
    stored time.  With one record per phone in memory, the merged store
    has the stored time for that phone. *)
Theorem merge_keeps_rescheduled stored batch seen e n :
  In e stored ->
  find_appointment (phone e) batch = Some n ->
  appointmentTime e <> appointmentTime n ->
  let merged := mergedAppointments (smart_merge stored batch seen) in
  In (mark_rescheduled e) merged
  /\ (forall r, In r merged -> phone r = phone e ->
        exists e', In e' stored /\ phone e' = phone e /\ r = mark_rescheduled e')
  /\ (NoDup (map phone stored) ->
      forall r, In r merged -> phone r = phone e -> appointmentTime r = appointmentTime e).
Proof.
  intros He Hfind Hne merged. subst merged. unfold smart_merge.
  pose proof (keep_existing_fold batch stored [] ∅) as Hfirst.
  destruct (foldl (keep_existing batch) ([], ∅) stored) as [m1 p1] eqn:Hfold.
  simpl in Hfirst. destruct Hfirst as [Hm1 Hp1].
  set (st := {| mergedAppointments := m1; processedPhones := p1;
                newlySeenPhones := seen; trulyNewAppointments := [] |}).
  pose proof (add_new_fold seen batch st) as Hsecond. cbv zeta in Hsecond.
  destruct Hsecond as (Hkeep & _ & Hnew & _).
  assert (Hin1 : In (mark_rescheduled e) m1).
  { apply Hm1. right. exists e. split; [exact He |]. left. exists n. auto. }
  assert (Hproc : phone e ∈ p1).
  { apply Hp1. right. exists e. split; [exact He |]. split; [reflexivity |]. left. eauto. }
  assert (Hstored : forall r, In r (mergedAppointments (foldl (add_new seen) st batch)) ->
                    phone r = phone e ->
                    exists e', In e' stored /\ phone e' = phone e /\ r = mark_rescheduled e').
  { intros r Hr Hphone. apply Hnew in Hr as [Hr | [_ Hfresh]].
    - apply Hm1 in Hr as [[] | (e' & He' & [(n' & _ & _ & ->) | [Hnone ->]])].
      + exists e'. auto.
      + simpl in Hphone. rewrite Hphone, Hfind in Hnone. discriminate.
    - simpl in Hfresh. rewrite Hphone in Hfresh. contradiction. }
  split; [apply Hkeep; exact Hin1 |].
  split; [exact Hstored |].
  intros Hnodup r Hr Hphone.
  destruct (Hstored r Hr Hphone) as (e' & He' & Hp' & ->).
  rewrite mark_rescheduled_time. f_equal.
  clear -He He' Hp' Hnodup. induction stored as [| x l IH]; [destruct He |].
  simpl in Hnodup. apply NoDup_cons in Hnodup as [Hx Hl].
  destruct He as [<- | He], He' as [<- | He']; auto.
  - exfalso. apply Hx. rewrite <- Hp'. apply list_elem_of_In, List.in_map. exact He'.
  - exfalso. apply Hx. rewrite Hp'. apply list_elem_of_In, List.in_map. exact He.
Qed.

Lemma merge_keeps_rescheduled_witness :
  let t_old := local_time 0 19732 14 0 in
  let t_new := local_time 0 19734 15 0 in
  let kept := plain_appointment "Asha" "919800000001" t_new in
  let uploaded := {| name := "Asha"; phone := "919800000001"; appointmentTime := t_old;
                     isFromUpload := true; isRescheduled := false; isExisting := false |} in
  In (mark_rescheduled kept) (mergedAppointments (smart_merge [kept] [uploaded] ∅)).
Proof.
  intros t_old t_new kept uploaded.
  refine (proj1 (merge_keeps_rescheduled [kept] [uploaded] ∅ kept uploaded _ _ _)).
  - left. reflexivity.
  - reflexivity.
  - vm_compute. discriminate.
Defined.

(** The round trip of the example: stored 2024-01-10T14:00Z, rescheduled in
    the dialogue to 2024-01-12T15:00Z, then an upload that still has
    2024-01-10T14:00Z; the appointment stays at the new time. *)
Example reschedule_then_upload_round_trip :
  let t_old := local_time 0 19732 14 0 in
  let t_new := local_time 0 19734 15 0 in
  let before := choosing_time (plain_appointment "Asha" "919800000001" t_old)
                              [local_time 0 19734 14 0; t_new] in
  let rescheduled := snd (handleTimeSelection 0 "919800000001" "3pm" before) in
  let batch := [{| name := "Asha"; phone := "919800000001"; appointmentTime := t_old;
                   isFromUpload := true; isRescheduled := false; isExisting := false |}] in
  map appointmentTime (appointmentData rescheduled) = [t_new]
  /\ map appointmentTime (appointmentData (upload batch rescheduled)) = [t_new].
Proof. split; vm_compute; reflexivity. Qed.

(** ** Incoming messages *)

(** C9. A message whose sender has no appointment in the store, or that
    carries media, is ignored: the listener returns without scheduling
    anything, so no reply is sent and neither the store nor any
    conversation state changes. *)
Theorem unknown_or_media_ignored message w :
  (exists p, contact message = Some p /\ find_appointment p (appointmentData w) = None)
  \/ hasMedia message = true ->
  onMessage message w = (Ok tt, w)
  /\ outbox (snd (onMessage message w)) = outbox w
  /\ timers (snd (onMessage message w)) = timers w
  /\ appointmentData (snd (onMessage message w)) = appointmentData w
  /\ userReschedulingState (snd (onMessage message w)) = userReschedulingState w.
Proof.
  intros H.
  assert (Hrun : onMessage message w = (Ok tt, w)).
  { unfold onMessage, try_catch, bind, defined, get, ret, throw.
    destruct H as [(p & Hc & Hnone) | Hmedia].
    - rewrite Hc, Hnone. reflexivity.
    - destruct (contact message) as [p |]; [| reflexivity].
      destruct (find_appointment p (appointmentData w)); [| reflexivity].
      rewrite Hmedia. reflexivity. }
  rewrite Hrun. auto.
Qed.

Lemma unknown_or_media_ignored_witness :
  let w := quiet_world [plain_appointment "Asha" "919800000001" (local_time 330 19786 14 0)]
                       ∅ [] in
  onMessage {| contact := Some "919800000009"; body := "reschedule"; hasMedia := false |} w
  = (Ok tt, w)
  /\ onMessage {| contact := Some "919800000001"; body := "reschedule"; hasMedia := true |} w
     = (Ok tt, w).
Proof.
  intros w. split.
  - apply unknown_or_media_ignored. left. exists "919800000009"%string. split; reflexivity.
  - apply unknown_or_media_ignored. right. reflexivity.
Defined.

(** ** Selecting a date *)

Lemma digit_facts c :
  is_digit c = true ->
  (forall s, space_len (String c s) = O)
  /\ JS.digit_in_radix 10 c = Some (digit_value c)
  /\ 0 <= digit_value c <= 9
  /\ Ascii.eqb (JS.lower_char c) "x" = false.
Proof.
  destruct c as [[] [] [] [] [] [] [] []]; vm_compute is_digit; try discriminate; intros _.
  all: split; [intros [| b [| c s]]; reflexivity | vm_compute; intuition congruence].
Qed.

Lemma non_digit_facts c : is_digit c = false -> JS.digit_in_radix 10 c = None.
Proof.
  destruct c as [[] [] [] [] [] [] [] []]; vm_compute; congruence.
Qed.

Lemma append_nil_l (s : string) : EmptyString +:+ s = s.
Proof. reflexivity. Qed.

Lemma append_cons c (s t : string) : String c s +:+ t = String c (s +:+ t).
Proof. reflexivity. Qed.

Lemma read_digits_prefix ds rest acc :
  all_digits ds = true -> starts_with_digit rest = false ->
  JS.read_digits 10 (Some acc) (ds +:+ rest) = Some (Number_digits acc ds).
Proof.
  revert acc. induction ds as [| c ds IH]; intros acc Hds Hrest.
  - rewrite append_nil_l. destruct rest as [| c rest]; [reflexivity |].
    cbn [starts_with_digit] in Hrest. cbn [JS.read_digits].
    rewrite (non_digit_facts c Hrest). reflexivity.
  - simpl in Hds. apply andb_true_iff in Hds as [Hc Hds].
    destruct (digit_facts c Hc) as (_ & Hv & _).
    rewrite append_cons. cbn [JS.read_digits Number_digits]. rewrite Hv. cbn [default].
    apply IH; assumption.
Qed.

Lemma Number_digits_mono ds acc : all_digits ds = true -> 0 <= acc -> acc <= Number_digits acc ds.
Proof.
  revert acc. induction ds as [| c ds IH]; intros acc Hds Hacc; simpl; [lia |].
  simpl in Hds. apply andb_true_iff in Hds as [Hc Hds].
  destruct (digit_facts c Hc) as (_ & _ & Hv & _).
  etransitivity; [| apply IH; [exact Hds | lia]]. lia.
Qed.

(** [parseInt] of a string that starts with a digit and is not a [0x]
    literal reads the leading decimal digits. *)
Lemma parseInt_digit_start c s :
  is_digit c = true ->
  JS.parseInt (String c s)
  = match c, s with
    | "0"%char, String x rest =>
        if Ascii.eqb (JS.lower_char x) "x"
        then match JS.read_digits 16 None rest with Some v => Some (1 * v) | None => None end
        else match JS.read_digits 10 None (String c s) with
             | Some v => Some (1 * v) | None => None end
    | _, _ => match JS.read_digits 10 None (String c s) with
              | Some v => Some (1 * v) | None => None end
    end.
Proof.
  intros Hc. destruct (digit_facts c Hc) as (Hspace & _).
  unfold JS.parseInt, JS.trimStart. cbn [JS.drop_spaces]. rewrite Hspace. clear Hspace.
  destruct c as [[] [] [] [] [] [] [] []]; vm_compute in Hc; try discriminate; clear Hc;
    try reflexivity.
  destruct s as [| x rest]; [reflexivity |].
  destruct (Ascii.eqb (JS.lower_char x) "x"); reflexivity.
Qed.

Lemma parseInt_leading_digits ds rest :
  ds <> EmptyString -> all_digits ds = true -> starts_with_digit rest = false ->
  1 <= Number_digits 0 ds ->
  JS.parseInt (ds +:+ rest) = Some (Number_digits 0 ds).
Proof.
  intros Hne Hds Hrest Hk. destruct ds as [| c ds]; [congruence |]. clear Hne.
  pose proof Hds as Hall. simpl in Hds. apply andb_true_iff in Hds as [Hc Hds].
  assert (Hdec : JS.read_digits 10 None (String c ds +:+ rest)
                 = Some (Number_digits 0 (String c ds))).
  { destruct (digit_facts c Hc) as (_ & Hv & _).
    rewrite append_cons. cbn [JS.read_digits Number_digits]. rewrite Hv. cbn [default].
    apply read_digits_prefix; assumption. }
  rewrite append_cons in *. rewrite parseInt_digit_start by exact Hc.
  assert (Hten : match JS.read_digits 10 None (String c (ds +:+ rest)) with
                 | Some v => Some (1 * v) | None => None end
                 = Some (Number_digits 0 (String c ds))).
  { rewrite Hdec. f_equal. lia. }
  destruct (Ascii.eqb_spec c "0") as [-> | Hc0].
  - destruct ds as [| c' ds].
    + simpl in Hk. vm_compute in Hk. exfalso. apply Hk. reflexivity.
    + rewrite append_cons in *. simpl in Hds. apply andb_true_iff in Hds as [Hc' _].
      destruct (digit_facts c' Hc') as (_ & _ & _ & Hx). rewrite Hx. exact Hten.
  - destruct c as [[] [] [] [] [] [] [] []]; try exact Hten. congruence.
Qed.

Lemma reply_ok to r w : next_send_ok w -> reply to r w = (Ok tt, delivered to r w).
Proof.
  unfold next_send_ok, reply, delivered. destruct (transport w) as [| [] rest]; simpl;
    intros H; try reflexivity. discriminate.
Qed.

Lemma reply_failed to r w rest :
  transport w = false :: rest ->
  reply to r w
  = (Throw SendFailed,
     {| appointmentData := appointmentData w; userReschedulingState := userReschedulingState w;
        seenAppointments := seenAppointments w; outbox := outbox w;
        transport := rest; timers := timers w |}).
Proof. unfold reply. intros ->. reflexivity. Qed.

Ltac run_handler :=
  unfold try_catch, bind, defined, set_state, delete_state, setTimeout, modify, get, throw, ret.

(** The selection of [handleDateSelection] for an index in range. *)
Lemma handleDateSelection_in_range off p messageContent w st dates k :
  userReschedulingState w !! p = Some st ->
  availableDates st = Some dates ->
  next_send_ok w ->
  JS.parseInt (JS.trim messageContent) = Some k ->
  1 <= k <= Z.of_nat (List.length dates) ->
  exists d w' st',
    dates !! Z.to_nat (k - 1) = Some d
    /\ handleDateSelection off p messageContent w = (Ok tt, w')
    /\ userReschedulingState w' !! p = Some st'
    /\ selectedDate st' = Some d
    /\ appointmentData w' = appointmentData w
    /\ let timeSlots := getAvailableTimeSlots off (appointmentData w) d p in
       match timeSlots with
       | [] => stage st' = selecting_date
               /\ outbox w' = outbox w ++ [(p, NoSlotsForDate)]
       | _ => stage st' = selecting_time
              /\ availableTimeSlots st' = Some timeSlots
              /\ outbox w' = outbox w ++ [(p, TimeSlotOptions d timeSlots)]
       end.
Proof.
  intros Hst Hdates Hsend Hparse Hk.
  destruct (dates !! Z.to_nat (k - 1)) as [d |] eqn:Hd.
  2: { apply lookup_ge_None in Hd. lia. }
  unfold handleDateSelection. run_handler. rewrite Hparse. cbn [fmap option_fmap option_map].
  destruct (Z.ltb_spec (k - 1) 0) as [Hneg | _]; [lia |].
  rewrite Hst. cbn beta iota. rewrite Hdates. cbn beta iota.
  destruct (Z.leb_spec (Z.of_nat (List.length dates)) (k - 1)) as [Hbig | _]; [lia |].
  rewrite Hd. cbn beta iota.
  destruct (getAvailableTimeSlots off (appointmentData w) d p) as [| slot slots] eqn:Hslots.
  - cbn [List.length Nat.eqb]. rewrite reply_ok by exact Hsend.
    eexists d, _, _. split; [reflexivity |]. split; [reflexivity |].
    cbn. rewrite lookup_insert_eq. split; [reflexivity |]. cbn. rewrite Hslots. auto.
  - cbn [List.length Nat.eqb]. rewrite reply_ok by exact Hsend.
    eexists d, _, _. split; [reflexivity |]. split; [reflexivity |].
    cbn. rewrite lookup_insert_eq. split; [reflexivity |]. cbn. rewrite Hslots. auto.
Qed.

Lemma handleDateSelection_rejected off p messageContent w :
  next_send_ok w ->
  JS.parseInt (JS.trim messageContent) = None
  \/ (exists k, JS.parseInt (JS.trim messageContent) = Some k /\ k < 1)
  \/ (exists k st dates,
        JS.parseInt (JS.trim messageContent) = Some k
        /\ userReschedulingState w !! p = Some st /\ availableDates st = Some dates
        /\ Z.of_nat (List.length dates) < k) ->
  handleDateSelection off p messageContent w = (Ok tt, delivered p InvalidSelection w).
Proof.
  intros Hsend H. unfold handleDateSelection. run_handler.
  destruct H as [Hnan | [(k & Hparse & Hk) | (k & st & dates & Hparse & Hst & Hdates & Hk)]].
  - rewrite Hnan. cbn [fmap option_fmap option_map]. rewrite reply_ok by exact Hsend. reflexivity.
  - rewrite Hparse. cbn [fmap option_fmap option_map].
    destruct (Z.ltb_spec (k - 1) 0); [| lia]. rewrite reply_ok by exact Hsend. reflexivity.
  - rewrite Hparse. cbn [fmap option_fmap option_map].
    destruct (Z.ltb_spec (k - 1) 0); [rewrite reply_ok by exact Hsend; reflexivity |].
    rewrite Hst. cbn beta iota. rewrite Hdates. cbn beta iota.
    destruct (Z.leb_spec (Z.of_nat (List.length dates)) (k - 1)); [| lia].
    rewrite reply_ok by exact Hsend. reflexivity.
Qed.

(** C10. In [handleDateSelection] the reply is read with [parseInt]: when
    the trimmed text begins with decimal digits that form a number [k]
    between 1 and the number of offered dates, the [k]-th offered date
    becomes the selected date whatever follows the digits (the dialogue
    moves on to the time slots of that date, or stays at the dates when the
    date has no free slot).  The selection is refused, with the state left
    as it was and the request for a number repeated, exactly when
    [parseInt] of the trimmed text is [NaN] or lies outside that range. *)
Theorem date_selection_integer_prefix off p messageContent w st dates :
  userReschedulingState w !! p = Some st ->
  availableDates st = Some dates ->
  next_send_ok w ->
  (forall ds rest,
     JS.trim messageContent = ds +:+ rest ->
     ds <> EmptyString -> all_digits ds = true -> starts_with_digit rest = false ->
     1 <= Number_digits 0 ds <= Z.of_nat (List.length dates) ->
     exists d w' st',
       dates !! Z.to_nat (Number_digits 0 ds - 1) = Some d
       /\ handleDateSelection off p messageContent w = (Ok tt, w')
       /\ userReschedulingState w' !! p = Some st'
       /\ selectedDate st' = Some d
       /\ appointmentData w' = appointmentData w
       /\ match getAvailableTimeSlots off (appointmentData w) d p with
          | [] => stage st' = selecting_date
                  /\ outbox w' = outbox w ++ [(p, NoSlotsForDate)]
          | timeSlots => stage st' = selecting_time
                         /\ availableTimeSlots st' = Some timeSlots
                         /\ outbox w' = outbox w ++ [(p, TimeSlotOptions d timeSlots)]
          end)
  /\ (handleDateSelection off p messageContent w = (Ok tt, delivered p InvalidSelection w)
      <-> JS.parseInt (JS.trim messageContent) = None
          \/ exists k, JS.parseInt (JS.trim messageContent) = Some k
                       /\ (k < 1 \/ Z.of_nat (List.length dates) < k)).
Proof.
  intros Hst Hdates Hsend. split.
  - intros ds rest Htrim Hne Hds Hrest Hk.
    assert (Hparse : JS.parseInt (JS.trim messageContent) = Some (Number_digits 0 ds)).
    { rewrite Htrim. apply parseInt_leading_digits; [assumption .. | lia]. }
    destruct (handleDateSelection_in_range off p messageContent w st dates _
                Hst Hdates Hsend Hparse Hk) as (d & w' & st' & Hd & Hrun & Hst' & Hsel & Happ & Hrest').
    exists d, w', st'. cbv zeta in Hrest'.
    repeat (split; [assumption |]).
    destruct (getAvailableTimeSlots off (appointmentData w) d p); exact Hrest'.
  - split.
    + intros Hrun. destruct (JS.parseInt (JS.trim messageContent)) as [k |] eqn:Hparse;
        [| left; reflexivity].
      right. exists k. split; [reflexivity |].
      destruct (Z_lt_dec k 1) as [| Hlow]; [left; assumption |].
      destruct (Z_lt_dec (Z.of_nat (List.length dates)) k) as [| Hhigh]; [right; assumption |].
      exfalso.
      destruct (handleDateSelection_in_range off p messageContent w st dates k
                  Hst Hdates Hsend Hparse ltac:(lia))
        as (d & w' & st' & _ & Hrun' & _ & _ & _ & Hout).
      rewrite Hrun in Hrun'. injection Hrun' as <-. cbv zeta in Hout. cbn [delivered outbox] in Hout.
      destruct (getAvailableTimeSlots off (appointmentData w) d p);
        [destruct Hout as [_ Hout] | destruct Hout as (_ & _ & Hout)];
        apply app_inv_head in Hout; discriminate.
    + intros [Hnan | (k & Hparse & [Hlow | Hhigh])];
        apply handleDateSelection_rejected; try exact Hsend.
      * left. exact Hnan.
      * right. left. exists k. auto.
      * right. right. exists k, st, dates. auto.
Qed.

Lemma date_selection_integer_prefix_witness :
  let current := plain_appointment "Asha" "919800000001" (local_time 330 19784 14 0) in
  let w := choosing_date current [19786; 19787; 19788] in
  exists w' st',
    handleDateSelection 330 "919800000001" " 2abc " w = (Ok tt, w')
    /\ userReschedulingState w' !! "919800000001" = Some st'
    /\ selectedDate st' = Some 19787
    /\ stage st' = selecting_time.
Proof.
  intros current w.
  destruct (proj1 (date_selection_integer_prefix 330 "919800000001" " 2abc " w
                     {| currentAppointment := current;
                        availableDates := Some [19786; 19787; 19788];
                        stage := selecting_date;
                        selectedDate := None;
                        availableTimeSlots := None |}
                     [19786; 19787; 19788] eq_refl eq_refl eq_refl)
                  "2"%string "abc"%string eq_refl ltac:(discriminate) eq_refl eq_refl
                  ltac:(vm_compute; split; discriminate))
    as (d & w' & st' & Hd & Hrun & Hst' & Hsel & _ & Hslots).
  exists w', st'. injection Hd as <-.
  split; [exact Hrun |]. split; [exact Hst' |]. split; [exact Hsel |].
  change (getAvailableTimeSlots 330 (appointmentData w) 19787 "919800000001")
    with (map (fun h => local_time 330 19787 h 0) [10; 11; 12; 13; 14; 15; 16; 17; 18; 19; 20])
    in Hslots.
  exact (proj1 Hslots).
Defined.

(** [parseInt] also reads a hexadecimal literal: "0x2" selects the second
    date although its leading decimal digit is 0. *)
Example hex_literal_selects_date :
  let current := plain_appointment "Asha" "919800000001" (local_time 330 19784 14 0) in
  let w := choosing_date current [19786; 19787; 19788] in
  JS.parseInt (JS.trim "0x2") = Some 2
  /\ selectedDate <$> (userReschedulingState
                         (snd (handleDateSelection 330 "919800000001" "0x2" w))
                       !! "919800000001")
     = Some (Some 19787).
Proof. split; reflexivity. Qed.

(** White space outside ASCII is white space for [trim] and [parseInt]: a
    no-break space (U+00A0) before the digit and an ideographic space
    (U+3000) after it are dropped, and the second date is selected. *)
Example no_break_space_selects_date :
  let current := plain_appointment "Asha" "919800000001" (local_time 330 19784 14 0) in
  let w := choosing_date current [19786; 19787; 19788] in
  let text := bytes [194; 160] +:+ "2" +:+ bytes [227; 128; 128] in
  JS.trim text = "2"%string
  /\ JS.parseInt (bytes [194; 160] +:+ "2") = Some 2
  /\ selectedDate <$> (userReschedulingState
                         (snd (handleDateSelection 330 "919800000001" text w))
                       !! "919800000001")
     = Some (Some 19787).
Proof. repeat split. Qed.

(** ** Conversation states and the store *)

Lemma states_have_appointments_transfer w w' :
  states_have_appointments w ->
  (forall q, has_phone q (appointmentData w) -> has_phone q (appointmentData w')) ->
  (forall q, is_Some (userReschedulingState w' !! q) ->
             is_Some (userReschedulingState w !! q) \/ has_phone q (appointmentData w')) ->
  states_have_appointments w'.
Proof.
  intros Hinv Hdata Hstate q st Hq.
  destruct (Hstate q) as [[st0 Hst0] | Hp]; [eauto | | exact Hp].
  apply Hdata. exact (Hinv q st0 Hst0).
Qed.

Lemma has_phone_update_time q p t l : has_phone q (update_time p t l) <-> has_phone q l.
Proof.
  unfold has_phone. induction l as [| a l IH]; simpl; [reflexivity |].
  destruct (String.eqb (phone a) p).
  - split; intros (x & [Hx | Hx] & Hq).
    + subst x. exists a. simpl in *. auto.
    + exists x. simpl. auto.
    + subst x. exists (with_time a t). simpl. auto.
    + exists x. simpl. auto.
  - split; intros (x & [Hx | Hx] & Hq).
    + exists x. simpl. auto.
    + destruct (proj1 IH) as (y & Hy & Hq'); [eauto |]. exists y. simpl. auto.
    + exists x. simpl. auto.
    + destruct (proj2 IH) as (y & Hy & Hq'); [eauto |]. exists y. simpl. auto.
Qed.

Lemma has_phone_remove_first q p l :
  q <> p -> has_phone q l -> has_phone q (remove_first p l).
Proof.
  unfold has_phone. intros Hne. induction l as [| a l IH]; simpl; [auto |].
  intros (x & [Hx | Hx] & Hq).
  - subst x. destruct (String.eqb_spec (phone a) p); [congruence |]. exists a. simpl. auto.
  - destruct (String.eqb (phone a) p); [eauto |].
    destruct IH as (y & Hy & Hq'); [eauto |]. exists y. simpl. auto.
Qed.

Lemma find_appointment_has_phone p l a : find_appointment p l = Some a -> has_phone p l.
Proof. intros H. apply find_appointment_some in H as [Hin Hp]. exists a. auto. Qed.

Ltac world_simpl :=
  cbn [appointmentData userReschedulingState seenAppointments outbox transport timers
       set_appointmentData set_userReschedulingState set_seenAppointments set_timers
       delivered fst snd] in *.

Lemma reply_world to r w res w' :
  reply to r w = (res, w') ->
  appointmentData w' = appointmentData w
  /\ userReschedulingState w' = userReschedulingState w.
Proof.
  unfold reply. destruct (transport w) as [| [] rest]; intros [= <- <-]; auto.
Qed.

(** Running a handler to the end of one of its paths. *)
Ltac split_paths :=
  repeat match goal with
         | H : context [reply ?to ?r ?w] |- _ =>
             let res := fresh "res" in
             let w' := fresh "w" in
             let Hr := fresh "Hreply" in
             destruct (reply to r w) as [res w'] eqn:Hr;
             apply reply_world in Hr as [? ?]; destruct res
         | H : context [match ?x with _ => _ end] |- _ =>
             destruct x eqn:?
         end;
  simplify_eq; world_simpl.

Ltac same_store :=
  intros ? ?; world_simpl;
  repeat match goal with
         | H : appointmentData _ = _ |- _ => rewrite H in *; clear H
         end;
  try (apply has_phone_update_time); assumption.

Ltac same_states p :=
  let q := fresh "q" in
  let Hq := fresh "Hq" in
  intros q Hq; world_simpl;
  repeat match goal with
         | H : userReschedulingState _ = _ |- _ => rewrite H in *; clear H
         | H : appointmentData _ = _ |- _ => rewrite H in *; clear H
         end;
  world_simpl;
  repeat match goal with
         | H : is_Some (<[_:=_]> _ !! _) |- _ =>
             apply lookup_insert_is_Some in H as [<- | [? H]]
         | H : is_Some (delete _ _ !! _) |- _ =>
             apply lookup_delete_is_Some in H as [? H]
         end;
  first [ left; eauto; fail
        | right; try (apply has_phone_update_time);
          eauto using find_appointment_has_phone; fail ].

Lemma handleRescheduleRequest_preserves off now p w res w' :
  handleRescheduleRequest off now p w = (res, w') ->
  states_have_appointments w -> states_have_appointments w'.
Proof.
  unfold handleRescheduleRequest. run_handler. intros Hrun Hinv.
  split_paths.
  all: eapply states_have_appointments_transfer; [exact Hinv | same_store | same_states p].
Qed.

Lemma handleCancellationRequest_preserves p w res w' :
  handleCancellationRequest p w = (res, w') ->
  states_have_appointments w -> states_have_appointments w'.
Proof.
  unfold handleCancellationRequest. run_handler. intros Hrun Hinv.
  split_paths.
  all: eapply states_have_appointments_transfer; [exact Hinv | same_store | same_states p].
Qed.

Lemma handleDateSelection_preserves off p messageContent w res w' :
  handleDateSelection off p messageContent w = (res, w') ->
  states_have_appointments w -> states_have_appointments w'.
Proof.
  unfold handleDateSelection. run_handler. intros Hrun Hinv.
  split_paths.
  all: eapply states_have_appointments_transfer; [exact Hinv | same_store | same_states p].
Qed.

Lemma handleTimeSelection_preserves off p messageContent w res w' :
  handleTimeSelection off p messageContent w = (res, w') ->
  states_have_appointments w -> states_have_appointments w'.
Proof.
  unfold handleTimeSelection. run_handler. intros Hrun Hinv.
  split_paths.
  all: eapply states_have_appointments_transfer; [exact Hinv | same_store | same_states p].
Qed.

Lemma states_have_appointments_shrink w w' :
  states_have_appointments w ->
  (forall q, is_Some (userReschedulingState w' !! q) ->
             is_Some (userReschedulingState w !! q)
             /\ (has_phone q (appointmentData w) -> has_phone q (appointmentData w'))) ->
  states_have_appointments w'.
Proof.
  intros Hinv Hstep q st Hq. destruct (Hstep q) as [[st0 Hst0] Hdata]; [eauto |].
  apply Hdata. exact (Hinv q st0 Hst0).
Qed.

(** A cancellation that completes, on whichever path, leaves no state for
    the phone whose appointment it removed. *)
Lemma processCancellation_preserves p w w' :
  processCancellation p w = (Ok tt, w') ->
  states_have_appointments w -> states_have_appointments w'.
Proof.
  unfold processCancellation. run_handler. intros Hrun Hinv.
  split_paths.
  all: eapply states_have_appointments_shrink; [exact Hinv |].
  all: intros q Hq; world_simpl;
    repeat match goal with
           | H : userReschedulingState _ = _ |- _ => rewrite H in *; clear H
           | H : appointmentData _ = _ |- _ => rewrite H in *; clear H
           end;
    world_simpl;
    try (apply lookup_delete_is_Some in Hq as [Hne Hq]);
    (split; [exact Hq |]); try (intros Hp; exact Hp);
    apply has_phone_remove_first; congruence.
Qed.

Lemma onMessage_world message w res w' :
  onMessage message w = (res, w') ->
  appointmentData w' = appointmentData w
  /\ userReschedulingState w' = userReschedulingState w
  /\ outbox w' = outbox w.
Proof.
  unfold onMessage. run_handler. intros Hrun.
  repeat match goal with
         | H : context [match ?x with _ => _ end] |- _ => destruct x eqn:?
         end;
    simplify_eq; auto.
Qed.

Lemma run_deferred_preserves off now d w res w' :
  run_deferred off now d w = (res, w') ->
  res = Ok tt \/ (forall p, d <> RunProcessCancellation p) ->
  states_have_appointments w -> states_have_appointments w'.
Proof.
  intros Hrun Hok Hinv. destruct d as [p | p | p r | p c | p c | p]; simpl in Hrun.
  - destruct Hok as [-> | Hne]; [| exfalso; apply (Hne p); reflexivity].
    exact (processCancellation_preserves p w w' Hrun Hinv).
  - exact (handleRescheduleRequest_preserves off now p w res w' Hrun Hinv).
  - apply reply_world in Hrun as [Hd Hs]. intros q st. rewrite Hd, Hs. apply Hinv.
  - exact (handleDateSelection_preserves off p c w res w' Hrun Hinv).
  - exact (handleTimeSelection_preserves off p c w res w' Hrun Hinv).
  - exact (handleCancellationRequest_preserves p w res w' Hrun Hinv).
Qed.

(** The merge keeps every phone of the store. *)
Lemma add_new_fold_phones seen batch st :
  (forall q, q ∈ processedPhones st -> has_phone q (mergedAppointments st)) ->
  forall q, q ∈ processedPhones (foldl (add_new seen) st batch) ->
            has_phone q (mergedAppointments (foldl (add_new seen) st batch)).
Proof.
  revert st. induction batch as [| n batch IH]; intros st Hst; simpl; [exact Hst |].
  apply IH. intros q. unfold add_new. case_bool_decide as Hproc; [apply Hst |].
  simpl. rewrite elem_of_union, elem_of_singleton. intros [Hq | ->].
  - destruct (Hst q Hq) as (a & Ha & Hp). exists a. split; [| exact Hp].
    apply List.in_or_app. left. exact Ha.
  - exists n. split; [| reflexivity]. apply List.in_or_app. right. left. reflexivity.
Qed.

Lemma smart_merge_keeps_phones stored batch seen q :
  has_phone q stored -> has_phone q (mergedAppointments (smart_merge stored batch seen)).
Proof.
  intros (e & He & Hq). unfold smart_merge.
  pose proof (keep_existing_fold batch stored [] ∅) as [Hm1 Hp1].
  destruct (foldl (keep_existing batch) ([], ∅) stored) as [m1 p1] eqn:Hfold.
  simpl in Hm1, Hp1.
  set (st := {| mergedAppointments := m1; processedPhones := p1;
                newlySeenPhones := seen; trulyNewAppointments := [] |}).
  pose proof (add_new_fold seen batch st) as (Hkeep & _ & _ & Hall). cbv zeta in Hkeep, Hall.
  assert (Hst : forall q, q ∈ processedPhones st -> has_phone q (mergedAppointments st)).
  { intros q' Hq'. simpl in *. apply Hp1 in Hq' as [Hq' | (e' & He' & <- & Hcase)].
    - apply elem_of_empty in Hq'. destruct Hq'.
    - destruct Hcase as [(n & Hn & Hne) | Hnone].
      + exists (mark_rescheduled e'). split; [| reflexivity]. apply Hm1. right. exists e'.
        split; [exact He' |]. left. exists n. auto.
      + exists (mark_existing e'). split; [| reflexivity]. apply Hm1. right. exists e'.
        split; [exact He' |]. right. auto. }
  destruct (find_appointment q batch) as [n |] eqn:Hfind.
  - apply find_appointment_some in Hfind as [Hn Hpn].
    apply (add_new_fold_phones seen batch st Hst). rewrite <- Hpn. apply Hall. exact Hn.
  - exists (mark_existing e). split; [| exact Hq]. apply Hkeep. simpl. apply Hm1. right.
    exists e. split; [exact He |]. right. rewrite Hq. auto.
Qed.

Lemma upload_preserves batch w :
  states_have_appointments w -> states_have_appointments (upload batch w).
Proof.
  intros Hinv. unfold upload. destruct batch as [| n batch]; [exact Hinv |].
  intros q st Hq. world_simpl. apply smart_merge_keeps_phones. exact (Hinv q st Hq).
Qed.

Lemma choosing_date_states current dates :
  states_have_appointments (choosing_date current dates).
Proof.
  intros q st Hq. unfold choosing_date, quiet_world in *.
  cbn [userReschedulingState appointmentData] in *.
  apply lookup_singleton_Some in Hq as [<- _].
  exists current. split; [left |]; reflexivity.
Qed.

(** A cancellation that completes after it found the record has removed
    it and deleted the conversation state of the phone. *)
Lemma processCancellation_deletes_state p w w' st a :
  userReschedulingState w !! p = Some st ->
  find_appointment p (appointmentData w) = Some a ->
  processCancellation p w = (Ok tt, w') ->
  appointmentData w' = remove_first p (appointmentData w)
  /\ userReschedulingState w' !! p = None.
Proof.
  intros Hst Hfind. unfold processCancellation. run_handler. rewrite Hst, Hfind.
  cbn beta iota. intros Hrun.
  split_paths; world_simpl;
    repeat match goal with
           | H : userReschedulingState _ = _ |- _ => rewrite H in *; clear H
           | H : appointmentData _ = _ |- _ => rewrite H in *; clear H
           end;
    world_simpl; try discriminate.
  all: split; [reflexivity | apply lookup_delete_eq].
Qed.

(** C4.  Clearing the store breaks the invariant.  [/clear-appointments]
    empties [appointmentData] and leaves [userReschedulingState] as it
    is, so every phone that was in a dialogue keeps its conversation
    state without having an appointment.  The entry is still acted on: a
    time reply of that phone that resolves to one of the slots kept in
    the entry is answered with the confirmation of a rescheduling, while
    the store stays empty.  The other two operations that replace or
    remove records keep the invariant: the merge of an upload, and a
    cancellation that completes, which deletes the state of the phone
    whose record it removed. *)
Theorem clear_keeps_conversation_states off w p st :
  userReschedulingState w !! p = Some st ->
  let cleared := clear_appointments w in
  appointmentData cleared = []
  /\ userReschedulingState cleared = userReschedulingState w
  /\ ~ has_phone p (appointmentData cleared)
  /\ ~ states_have_appointments cleared
  /\ (forall messageContent slots parsed s,
        availableTimeSlots st = Some slots ->
        TimeParser.parse (normalize_time_input messageContent) = Some parsed ->
        TimeParser.select_time off parsed slots = Some s ->
        next_send_ok w ->
        exists w',
          handleTimeSelection off p messageContent cleared = (Ok tt, w')
          /\ appointmentData w' = []
          /\ outbox w'
             = outbox w ++ [(p, Rescheduled (appointmentTime (currentAppointment st)) s)])
  /\ (states_have_appointments w ->
      (forall batch, states_have_appointments (upload batch w))
      /\ (forall q w', processCancellation q w = (Ok tt, w') -> states_have_appointments w')
      /\ (forall a w', find_appointment p (appointmentData w) = Some a ->
                       processCancellation p w = (Ok tt, w') ->
                       appointmentData w' = remove_first p (appointmentData w)
                       /\ userReschedulingState w' !! p = None)).
Proof.
  intros Hst cleared.
  split; [reflexivity |]. split; [reflexivity |].
  assert (Hnone : ~ has_phone p (appointmentData cleared)) by (intros (a & [] & _)).
  split; [exact Hnone |].
  split; [intros Hinv; exact (Hnone (Hinv p st Hst)) |].
  split.
  - intros messageContent slots parsed s Hslots Hparse Hsel Hsend.
    unfold handleTimeSelection. run_handler. subst cleared. world_simpl.
    unfold clear_appointments at 1. world_simpl.
    rewrite Hst. cbn beta iota. rewrite Hslots. cbn beta iota.
    change (JS.collapse_spaces (JS.toLowerCase (JS.trim messageContent)))
      with (normalize_time_input messageContent).
    rewrite Hparse, Hsel. cbn beta iota.
    rewrite reply_ok by exact Hsend.
    eexists. split; [reflexivity |]. world_simpl. split; reflexivity.
  - intros Hinv. split; [intros batch; apply upload_preserves; exact Hinv |].
    split; [intros q w' Hrun; exact (processCancellation_preserves q w w' Hrun Hinv) |].
    intros a w'. apply (processCancellation_deletes_state p w w' st a Hst).
Qed.

Lemma clear_keeps_conversation_states_witness :
  let current := plain_appointment "Asha" "919800000001" (local_time 330 19784 14 0) in
  let slots := [local_time 330 19786 15 0; local_time 330 19786 16 0] in
  let w := choosing_time current slots in
  states_have_appointments w
  /\ ~ states_have_appointments (clear_appointments w)
  /\ exists w',
       handleTimeSelection 330 "919800000001" "4 pm" (clear_appointments w) = (Ok tt, w')
       /\ appointmentData w' = []
       /\ outbox w' = [("919800000001",
                        Rescheduled (local_time 330 19784 14 0) (local_time 330 19786 16 0))].
Proof.
  intros current slots w.
  destruct (clear_keeps_conversation_states 330 w "919800000001"
              {| currentAppointment := current; availableDates := Some [19786];
                 stage := selecting_time; selectedDate := Some 19786;
                 availableTimeSlots := Some slots |} eq_refl)
    as (_ & _ & _ & Hbroken & Hused & _).
  split; [| split; [exact Hbroken |]].
  - intros q st Hq. unfold w, choosing_time, quiet_world in *.
    cbn [userReschedulingState appointmentData] in *.
    apply lookup_singleton_Some in Hq as [<- _].
    exists current. split; [left |]; reflexivity.
  - destruct (Hused "4 pm"%string slots
                {| TimeParser.matchedHour := 4; TimeParser.matchedMinute := 0;
                   TimeParser.matchedPeriod := Some TimeParser.PM;
                   TimeParser.is24HourFormat := false |}
                (local_time 330 19786 16 0) eq_refl eq_refl eq_refl eq_refl)
      as (w' & Hrun & Hdata & Hout).
    exists w'. split; [exact Hrun |]. split; [exact Hdata | exact Hout].
Defined.

(** A cancellation whose farewell and whose apology are both rejected by
    the transport does not complete: the exception leaves the handler after
    the appointment was removed and before the state is deleted. *)
Example cancellation_double_fault :
  let current := plain_appointment "Asha" "919800000001" (local_time 330 19784 14 0) in
  let w := quiet_world [current]
             {[ "919800000001"%string :=
                  {| currentAppointment := current; availableDates := None;
                     stage := confirming_cancellation; selectedDate := None;
                     availableTimeSlots := None |} ]}
             [false; false] in
  fst (processCancellation "919800000001" w) = Throw SendFailed
  /\ appointmentData (snd (processCancellation "919800000001" w)) = []
  /\ is_Some (userReschedulingState (snd (processCancellation "919800000001" w))
              !! "919800000001").
Proof. repeat split. eexists. reflexivity. Qed.

(** ** Faults inside a stage *)

Lemma reply_outbox to r w res w' :
  reply to r w = (res, w') ->
  userReschedulingState w' = userReschedulingState w
  /\ outbox w' = outbox w ++ match res with Ok _ => [(to, r)] | Throw _ => [] end.
Proof.
  unfold reply. destruct (transport w) as [| [] rest]; intros [= <- <-]; simpl;
    rewrite ?app_nil_r; auto.
Qed.

(** Symbolic execution of a handler along one path at a time: the next
    thing evaluated is the scrutinee at the head of the term. *)
Ltac head_scrutinee t :=
  lazymatch t with
  | match ?x with _ => _ end => head_scrutinee x
  | ?f ?a =>
      lazymatch f with
      | match ?x with _ => _ end => head_scrutinee x
      | _ => t
      end
  | _ => t
  end.

Ltac exec_step H :=
  cbn beta iota in H;
  lazymatch type of H with
  | ?lhs = _ =>
      let s := head_scrutinee lhs in
      lazymatch s with
      | reply ?to ?r ?w =>
          let res := fresh "res" in
          let w' := fresh "w" in
          let Hr := fresh "Hreply" in
          destruct (reply to r w) as [res w'] eqn:Hr;
          apply reply_outbox in Hr as [? ?]; destruct res
      | (_, _) => fail
      | _ => destruct s eqn:?
      end
  end.

Ltac exec H := repeat exec_step H; simplify_eq; world_simpl.

(** What is left of the run when its only message was the apology. *)
Ltac only_message Hout :=
  world_simpl; revert Hout;
  repeat match goal with
         | H : userReschedulingState ?x = _ |- _ => is_var x; try rewrite H in *; clear H
         | H : outbox ?x = _ |- _ => is_var x; try rewrite H in *; clear H
         end;
  world_simpl; intros Hout; rewrite <- ?app_assoc, ?app_nil_r in Hout;
  first [ apply lookup_delete_eq
        | apply app_inv_head in Hout; discriminate
        | rewrite <- (app_nil_r (outbox _)) in Hout at 1; apply app_inv_head in Hout;
          discriminate ].

(** In the stages that select a date, select a time or confirm a
    cancellation, a run whose one message is the apology of the handler
    has deleted the conversation state of the phone. *)
Lemma stage_fault_clears_state off p messageContent w res w' :
  (handleDateSelection off p messageContent w = (res, w') ->
   outbox w' = outbox w ++ [(p, DateSelectionError)] ->
   userReschedulingState w' !! p = None)
  /\ (handleTimeSelection off p messageContent w = (res, w') ->
      outbox w' = outbox w ++ [(p, TimeSelectionError)] ->
      userReschedulingState w' !! p = None)
  /\ (processCancellation p w = (res, w') ->
      outbox w' = outbox w ++ [(p, CancellationError)] ->
      userReschedulingState w' !! p = None).
Proof.
  split; [| split].
  - unfold handleDateSelection. run_handler. intros Hrun Hout.
    exec Hrun; only_message Hout.
  - unfold handleTimeSelection. run_handler. intros Hrun Hout.
    exec Hrun; only_message Hout.
  - unfold processCancellation. run_handler. intros Hrun Hout.
    exec Hrun; only_message Hout.
Qed.

(** C3 at the input where it fails.  A phone with an appointment asks to
    reschedule (from no stage or from the cancellation confirmation); the
    transport rejects the list of dates and delivers the apology.  The
    handler ends normally and the conversation state of the phone is still
    there, at the date selection: the [catch] of [handleRescheduleRequest]
    does not delete it. *)
Theorem reschedule_fault_keeps_state off now p w a rest :
  find_appointment p (appointmentData w) = Some a ->
  getAvailableDates off now 7 <> [] ->
  transport w = false :: rest ->
  hd true rest = true ->
  exists w' st',
    handleRescheduleRequest off now p w = (Ok tt, w')
    /\ outbox w' = outbox w ++ [(p, RescheduleError)]
    /\ userReschedulingState w' !! p = Some st'
    /\ stage st' = selecting_date.
Proof.
  intros Hfind Hdates Hsend Hnext.
  unfold handleRescheduleRequest. run_handler. rewrite Hfind.
  destruct (getAvailableDates off now 7) as [| d dates] eqn:Hd; [congruence |].
  cbn [List.length Nat.eqb].
  erewrite reply_failed by (world_simpl; exact Hsend). cbn beta iota.
  rewrite reply_ok by (unfold next_send_ok; world_simpl; exact Hnext).
  eexists _, _. split; [reflexivity |]. world_simpl.
  split; [reflexivity |]. rewrite lookup_insert_eq. split; reflexivity.
Qed.

Lemma reschedule_fault_keeps_state_witness :
  let current := plain_appointment "Asha" "919800000001" (local_time 330 19784 14 0) in
  let w := quiet_world [current]
             {[ "919800000001"%string :=
                  {| currentAppointment := current; availableDates := None;
                     stage := confirming_cancellation; selectedDate := None;
                     availableTimeSlots := None |} ]}
             [false] in
  exists w' st',
    handleRescheduleRequest 330 (local_time 330 19784 9 15) "919800000001" w = (Ok tt, w')
    /\ outbox w' = [("919800000001"%string, RescheduleError)]
    /\ userReschedulingState w' !! "919800000001" = Some st'
    /\ stage st' = selecting_date.
Proof.
  intros current w.
  apply (reschedule_fault_keeps_state 330 (local_time 330 19784 9 15) "919800000001" w
           current []); try reflexivity.
  vm_compute. discriminate.
Defined.

(** * Further properties *)

(** ** The dates and slots on offer *)

Lemma has_business_hours_weekday v :
  0 <= v < 7 -> has_business_hours v = negb (v =? 0).
Proof.
  intros Hv. assert (v = 0 \/ v = 1 \/ v = 2 \/ v = 3 \/ v = 4 \/ v = 5 \/ v = 6) as H by lia.
  destruct H as [-> | [-> | [-> | [-> | [-> | [-> | ->]]]]]]; reflexivity.
Qed.

Lemma getAvailableDates_seven off now :
  let today := localDay off now in
  getAvailableDates off now 7
  = List.filter (fun d => negb ((d + 4) mod 7 =? 0))
                [today + 1; today + 2; today + 3; today + 4; today + 5; today + 6; today + 7]
  /\ List.length (getAvailableDates off now 7) = 6%nat
  /\ getAvailableDates off now 7 <> [].
Proof.
  intros today.
  assert (Hlist : getAvailableDates off now 7
                  = List.filter (fun d => negb ((d + 4) mod 7 =? 0))
                      [today + 1; today + 2; today + 3; today + 4; today + 5; today + 6;
                       today + 7]).
  { rewrite getAvailableDates_filter. fold today.
    change (map (fun i => today + Z.of_nat i) (seq 1 7))
      with [today + 1; today + 2; today + 3; today + 4; today + 5; today + 6; today + 7].
    apply List.filter_ext. intros d. apply has_business_hours_weekday.
    apply Z.mod_pos_bound. lia. }
  assert (Hlen : List.length (getAvailableDates off now 7) = 6%nat).
  { rewrite Hlist. cbn [List.filter].
    assert (Hv : 0 <= (today + 4) mod 7 < 7) by (apply Z.mod_pos_bound; lia).
    assert (Hcase : (today + 4) mod 7 = 0 \/ (today + 4) mod 7 = 1 \/ (today + 4) mod 7 = 2
                    \/ (today + 4) mod 7 = 3 \/ (today + 4) mod 7 = 4
                    \/ (today + 4) mod 7 = 5 \/ (today + 4) mod 7 = 6) by lia.
    clear Hlist Hv.
    replace ((today + 1 + 4) mod 7) with (((today + 4) mod 7 + 1) mod 7)
      by (Z.div_mod_to_equations; lia).
    replace ((today + 2 + 4) mod 7) with (((today + 4) mod 7 + 2) mod 7)
      by (Z.div_mod_to_equations; lia).
    replace ((today + 3 + 4) mod 7) with (((today + 4) mod 7 + 3) mod 7)
      by (Z.div_mod_to_equations; lia).
    replace ((today + 4 + 4) mod 7) with (((today + 4) mod 7 + 4) mod 7)
      by (Z.div_mod_to_equations; lia).
    replace ((today + 5 + 4) mod 7) with (((today + 4) mod 7 + 5) mod 7)
      by (Z.div_mod_to_equations; lia).
    replace ((today + 6 + 4) mod 7) with (((today + 4) mod 7 + 6) mod 7)
      by (Z.div_mod_to_equations; lia).
    replace ((today + 7 + 4) mod 7) with (((today + 4) mod 7 + 7) mod 7)
      by (Z.div_mod_to_equations; lia).
    destruct Hcase as [H | [H | [H | [H | [H | [H | H]]]]]].
    all: rewrite H; reflexivity. }
  split; [exact Hlist |]. split; [exact Hlen |].
  intros Hnil. rewrite Hnil in Hlen. discriminate.
Qed.

(** X1.  With the hours of the table, the seven days after any day hold one
    Sunday, so [getAvailableDates(7)] always offers six dates: the days
    from tomorrow to a week from today, without the Sunday.  A day is
    offered exactly when it is one of these seven and not a Sunday. *)
Theorem seven_days_offer_six_dates off now :
  let today := localDay off now in
  getAvailableDates off now 7
  = List.filter (fun d => negb ((d + 4) mod 7 =? 0))
                [today + 1; today + 2; today + 3; today + 4; today + 5; today + 6; today + 7]
  /\ List.length (getAvailableDates off now 7) = 6%nat
  /\ getAvailableDates off now 7 <> []
  /\ (forall d, In d (getAvailableDates off now 7)
                <-> today < d <= today + 7 /\ day off (dayjs_of_date off d) <> 0).
Proof.
  intros today. destruct (getAvailableDates_seven off now) as (Hlist & Hlen & Hne).
  fold today in Hlist. split; [exact Hlist |]. split; [exact Hlen |]. split; [exact Hne |].
  intros d. rewrite Hlist, List.filter_In, negb_true_iff, Z.eqb_neq, day_dayjs_of_date.
  cbn [In]. split.
  - intros [Hd Hday]. split; [lia | exact Hday].
  - intros [Hd Hday]. split; [lia | exact Hday].
Qed.

Lemma seven_days_offer_six_dates_witness :
  getAvailableDates 330 (local_time 330 19784 9 15) 7
  = [19786; 19787; 19788; 19789; 19790; 19791].
Proof.
  destruct (seven_days_offer_six_dates 330 (local_time 330 19784 9 15)) as (Hlist & _).
  rewrite Hlist. reflexivity.
Defined.

(** X2.  Every slot [getAvailableTimeSlots] offers for a date lies on that
    local date at a full hour from 10:00 to 20:00; the list is the
    sub-list of these eleven hours that passes the availability test, so
    it has at most eleven slots, and all eleven when nothing is booked. *)
Theorem offered_slots_are_business_hours off appts d userPhone :
  (forall s, In s (getAvailableTimeSlots off appts d userPhone) ->
             localDay off s = d /\ minute off s = 0 /\ second off s = 0
             /\ 10 <= hour off s <= 20
             /\ has_business_hours (day off (dayjs_of_date off d)) = true)
  /\ (List.length (getAvailableTimeSlots off appts d userPhone) <= 11)%nat
  /\ (has_business_hours (day off (dayjs_of_date off d)) = true ->
      getAvailableTimeSlots off appts d userPhone
      = List.filter (fun slot => isTimeSlotAvailable off appts slot userPhone)
          (map (fun h => local_time off d h 0) [10; 11; 12; 13; 14; 15; 16; 17; 18; 19; 20])).
Proof.
  destruct (has_business_hours (day off (dayjs_of_date off d))) eqn:Hopen.
  - pose proof (getAvailableTimeSlots_open off appts d userPhone Hopen) as Hslots.
    rewrite generated_slots_of_day in Hslots.
    split; [| split; [| intros _; exact Hslots]].
    + intros s Hs. rewrite Hslots in Hs. apply List.filter_In in Hs as [Hs _].
      apply List.in_map_iff in Hs as (h & <- & Hh).
      assert (10 <= h <= 20) by (simpl in Hh; lia).
      rewrite localDay_local_time, minute_local_time, hour_local_time by lia.
      repeat split; try lia. unfold second. rewrite localMs_local_time.
      unfold MS_PER_DAY, MS_PER_HOUR, MS_PER_MINUTE, MS_PER_SECOND.
      replace (d * 86400000 + (h * 3600000 + 0 * 60000)) with ((d * 1440 + h * 60) * 60000) by lia.
      rewrite Z.mod_mul by lia. reflexivity.
    + rewrite Hslots. etransitivity; [apply List.filter_length_le |]. reflexivity.
  - assert (Hnone : getAvailableTimeSlots off appts d userPhone = []).
    { unfold getAvailableTimeSlots. rewrite Hopen. reflexivity. }
    rewrite Hnone. split; [intros s [] |]. split; [simpl; lia | discriminate].
Qed.

Lemma offered_slots_are_business_hours_witness :
  let booked := [plain_appointment "Ravi" "919800000002" (local_time 330 19786 15 0)] in
  getAvailableTimeSlots 330 booked 19786 "919800000001"
  = map (fun h => local_time 330 19786 h 0) [10; 11; 12; 13; 14; 16; 17; 18; 19; 20]
  /\ getAvailableTimeSlots 330 booked 19785 "919800000001" = [].
Proof.
  intros booked.
  destruct (offered_slots_are_business_hours 330 booked 19786 "919800000001")
    as (_ & _ & Hopen).
  destruct (offered_slots_are_business_hours 330 booked 19785 "919800000001")
    as (Hclosed & _ & _).
  split; [rewrite Hopen; reflexivity |].
  destruct (getAvailableTimeSlots 330 booked 19785 "919800000001") as [| s l]; [reflexivity |].
  destruct (Hclosed s) as (_ & _ & _ & _ & Hday); [left; reflexivity | discriminate Hday].
Defined.

(** ** Asking to reschedule or to cancel *)

(** X3.  [handleRescheduleRequest], when the replies are delivered: a phone
    without appointment is told so and gets no conversation state; a phone
    with one enters the date selection with the six dates on offer and a
    fresh state (no date or slots left from an earlier dialogue), and its
    appointment is untouched.  The reply that there are no dates is never
    sent. *)
Theorem reschedule_request_opens_date_selection off now p w :
  next_send_ok w ->
  (find_appointment p (appointmentData w) = None ->
   handleRescheduleRequest off now p w = (Ok tt, delivered p NoAppointmentFound w))
  /\ (forall a, find_appointment p (appointmentData w) = Some a ->
      let dates := getAvailableDates off now 7 in
      List.length dates = 6%nat
      /\ handleRescheduleRequest off now p w
         = (Ok tt,
            delivered p (DateOptions a dates)
              (set_userReschedulingState
                 (<[p := {| currentAppointment := a; availableDates := Some dates;
                            stage := selecting_date; selectedDate := None;
                            availableTimeSlots := None |}]> (userReschedulingState w)) w)))
  /\ (forall res w', handleRescheduleRequest off now p w = (res, w') ->
      appointmentData w' = appointmentData w
      /\ ~ In (p, NoDatesAvailable) (skipn (List.length (outbox w)) (outbox w'))).
Proof.
  intros Hsend.
  destruct (getAvailableDates_seven off now) as (_ & Hlen & Hne).
  split; [| split].
  - intros Hnone. unfold handleRescheduleRequest. run_handler. rewrite Hnone.
    rewrite reply_ok by exact Hsend. reflexivity.
  - intros a Hfind dates. split; [exact Hlen |].
    unfold handleRescheduleRequest. run_handler. rewrite Hfind. cbv zeta.
    rewrite Hlen. cbn [Nat.eqb]. rewrite reply_ok by exact Hsend. reflexivity.
  - intros res w'. unfold handleRescheduleRequest. run_handler. cbv zeta.
    destruct (find_appointment p (appointmentData w)) as [a |]; cbn beta iota.
    + rewrite Hlen. cbn [Nat.eqb]. rewrite reply_ok by exact Hsend. intros [= <- <-]. world_simpl.
      split; [reflexivity |]. rewrite drop_app_length. intros [H | []]. discriminate.
    + rewrite reply_ok by exact Hsend. intros [= <- <-]. world_simpl.
      split; [reflexivity |]. rewrite drop_app_length. intros [H | []]. discriminate.
Qed.

Lemma reschedule_request_opens_date_selection_witness :
  let current := plain_appointment "Asha" "919800000001" (local_time 330 19784 14 0) in
  let w := quiet_world [current] ∅ [] in
  exists w',
    handleRescheduleRequest 330 (local_time 330 19784 9 15) "919800000001" w = (Ok tt, w')
    /\ (stage <$> userReschedulingState w' !! "919800000001") = Some selecting_date
    /\ (availableDates <$> userReschedulingState w' !! "919800000001")
       = Some (Some [19786; 19787; 19788; 19789; 19790; 19791]).
Proof.
  intros current w.
  destruct (proj1 (proj2 (reschedule_request_opens_date_selection
                            330 (local_time 330 19784 9 15) "919800000001" w eq_refl))
                  current eq_refl) as [_ Hrun].
  eexists. split; [exact Hrun |]. split; reflexivity.
Defined.

(** ** Resolving a typed time *)

Lemma slot_at_offered off slots h m s :
  slot_at off slots h m = Some s -> In s slots /\ shows off h m s.
Proof.
  unfold slot_at. intros H. apply List.find_some in H as [Hin Hs].
  split; [exact Hin | apply shows_test; exact Hs].
Qed.

Lemma first_candidate_offered off hours slots m s :
  first_candidate off hours slots m = Some s ->
  In s slots /\ exists h, In h hours /\ shows off h m s.
Proof.
  induction hours as [| h hours IH]; simpl; [discriminate |].
  destruct (slot_at off slots h m) as [s' |] eqn:Hat.
  - intros [= <-]. apply slot_at_offered in Hat as [Hin Hs]. split; [exact Hin |].
    exists h. auto.
  - intros H. destruct (IH H) as (Hin & h' & Hh' & Hs). split; [exact Hin |].
    exists h'. auto.
Qed.

Lemma minute_plus_hours off t k : minute off (t + k * MS_PER_HOUR) = minute off t.
Proof.
  unfold minute, localMs. replace (t + k * MS_PER_HOUR + off * MS_PER_MINUTE)
    with (t + off * MS_PER_MINUTE + k * MS_PER_HOUR) by lia.
  rewrite Z_mod_plus_full. reflexivity.
Qed.

(** The distance the fuzzy step measures between a slot and the slot's day
    at the hour and minute asked for: the difference of the two times of
    day in minutes. *)
Lemma fuzzy_distance off s h m :
  diff_minute s (set_minute off (set_hour off s h) m)
  = (hour off s - h) * 60 + (minute off s - m).
Proof.
  unfold set_minute, set_hour. rewrite minute_plus_hours. unfold diff_minute.
  replace (s - (s + (h - hour off s) * MS_PER_HOUR + (m - minute off s) * MS_PER_MINUTE))
    with (((hour off s - h) * 60 + (minute off s - m)) * MS_PER_MINUTE)
    by (unfold MS_PER_HOUR, MS_PER_MINUTE; lia).
  apply Z.quot_mul. unfold MS_PER_MINUTE. lia.
Qed.

(** The hours the exact step looks for are among those the fuzzy step
    tries. *)
Lemma exact_match_hour off p slots s :
  exact_match off p slots = Some s ->
  In s slots /\ exists h, In h (possibleHours p) /\ shows off h (matchedMinute p) s.
Proof.
  unfold exact_match, possibleHours.
  destruct (is24HourFormat p) eqn:H24.
  - intros H. apply slot_at_offered in H as [Hin Hs]. split; [exact Hin |].
    exists (matchedHour p). split; [left; reflexivity | exact Hs].
  - cbn [orb]. destruct (matchedPeriod p) as [[|] |].
    + intros H. apply slot_at_offered in H as [Hin Hs]. split; [exact Hin |].
      eexists. split; [| exact Hs].
      destruct (Z.ltb_spec 12 (matchedHour p)); [left; destruct (Z.eqb_spec (matchedHour p) 12); [lia | reflexivity] |].
      destruct (Z.eqb_spec (matchedHour p) 12); left; reflexivity.
    + intros H. apply slot_at_offered in H as [Hin Hs]. split; [exact Hin |].
      eexists. split; [| exact Hs].
      destruct (Z.ltb_spec 12 (matchedHour p)).
      * destruct (Z.ltb_spec (matchedHour p) 12); [lia |]. left. reflexivity.
      * destruct (Z.ltb_spec (matchedHour p) 12); [left; reflexivity |].
        destruct (Z.eqb_spec (matchedHour p) 12); [| lia]. left. lia.
    + intros H. apply first_candidate_offered in H as (Hin & h & Hh & Hs).
      split; [exact Hin |]. exists h. split; [| exact Hs].
      unfold candidateHours in Hh.
      destruct (Z.leb_spec 1 (matchedHour p)), (Z.leb_spec (matchedHour p) 11),
        (Z.eqb_spec (matchedHour p) 12), (Z.ltb_spec 12 (matchedHour p));
        cbn [andb] in Hh; simpl in Hh; try lia; try tauto.
      all: destruct Hh as [<- | [<- | []]] || destruct Hh as [<- | []]; simpl; auto.
Qed.

Lemma select_time_near off p slots s :
  select_time off p slots = Some s ->
  In s slots
  /\ exists h, In h (possibleHours p)
                /\ Z.abs ((hour off s - h) * 60 + (minute off s - matchedMinute p)) <= 15.
Proof.
  intros Hsel.
  unfold select_time in Hsel. destruct (exact_match off p slots) as [s' |] eqn:Hexact.
  - injection Hsel as <-. apply exact_match_hour in Hexact as (Hin & h & Hh & Hhour & Hmin).
    split; [exact Hin |]. exists h. split; [exact Hh |]. lia.
  - unfold fuzzy_match in Hsel. apply List.find_some in Hsel as [Hin Hex].
    split; [exact Hin |]. apply List.existsb_exists in Hex as (h & Hh & Hd).
    exists h. split; [exact Hh |]. rewrite fuzzy_distance in Hd. unfold tolerance in Hd. lia.
Qed.

(** X4.  Whatever [handleTimeSelection] resolves a parsed input to is one of
    the slots offered, and its local time of day is within fifteen minutes
    of the minute asked for at one of the hours the input can mean.  With slots on the full hour and
    a minute below 60, this is the hour asked for when the minute is at
    most 15, the next hour when it is at least 45, and nothing in
    between. *)
Theorem selected_slot_is_offered_and_near off p slots s :
  select_time off p slots = Some s ->
  In s slots
  /\ (exists h, In h (possibleHours p)
                /\ Z.abs ((hour off s - h) * 60 + (minute off s - matchedMinute p)) <= 15)
  /\ (minute off s = 0 -> 0 <= matchedMinute p < 60 ->
      exists h, In h (possibleHours p)
                /\ ((matchedMinute p <= 15 /\ hour off s = h)
                    \/ (45 <= matchedMinute p /\ hour off s = h + 1))).
Proof.
  intros Hsel.
  pose proof (select_time_near off p slots s Hsel) as Hnear.
  destruct Hnear as (Hin & h & Hh & Hd).
  split; [exact Hin |]. split; [eauto |].
  intros Hzero Hm. exists h. split; [exact Hh |]. lia.
Qed.

Lemma selected_slot_is_offered_and_near_witness :
  let slots := map (fun h => local_time 330 19786 h 0) [10; 11; 14; 15] in
  let p := {| matchedHour := 2; matchedMinute := 50; matchedPeriod := Some PM;
              is24HourFormat := false |} in
  parse "2:50pm" = Some p
  /\ select_time 330 p slots = Some (local_time 330 19786 15 0)
  /\ In (local_time 330 19786 15 0) slots.
Proof.
  intros slots p. split; [reflexivity |]. split; [reflexivity |].
  apply (selected_slot_is_offered_and_near 330 p slots). reflexivity.
Defined.

(** Checking a property of hours and minutes on all of them. *)
Lemma forall_below (P : Z -> bool) (n : nat) :
  forallb P (map Z.of_nat (seq 0 n)) = true ->
  forall z, 0 <= z < Z.of_nat n -> P z = true.
Proof.
  intros Hall z Hz. rewrite List.forallb_forall in Hall. apply Hall.
  apply List.in_map_iff. exists (Z.to_nat z). split; [lia |]. apply List.in_seq. lia.
Qed.

Lemma forall_hour_minute (P : Z -> Z -> bool) :
  forallb (fun h => forallb (P h) (map Z.of_nat (seq 0 60))) (map Z.of_nat (seq 0 24)) = true ->
  forall h m, 0 <= h < 24 -> 0 <= m < 60 -> P h m = true.
Proof.
  intros Hall h m Hh Hm.
  apply (forall_below (P h) 60); [| exact Hm].
  apply (forall_below (fun h => forallb (P h) (map Z.of_nat (seq 0 60))) 24 Hall h Hh).
Qed.

Lemma Parsed_eqb_eq p q : Parsed_eqb p q = true -> p = q.
Proof.
  destruct p as [h m [[|] |] b], q as [h' m' [[|] |] b']; unfold Parsed_eqb; simpl;
    rewrite ?andb_true_iff, ?Z.eqb_eq; try (intros; intuition discriminate).
  all: intros [[[-> ->] _] Hb]; apply Bool.eqb_prop in Hb as ->; reflexivity.
Qed.

(** What the parser makes of a time printed as ['h:mm A']. *)
Lemma parse_hmmA h m :
  0 <= h < 24 -> 0 <= m < 60 ->
  parse (normalize_time_input (hmmA h m))
  = Some {| matchedHour := if h mod 12 =? 0 then 12 else h mod 12;
            matchedMinute := m;
            matchedPeriod := Some (if h <? 12 then AM else PM);
            is24HourFormat := false |}.
Proof.
  intros Hh Hm.
  pose (check := fun h m =>
    match parse (normalize_time_input (hmmA h m)) with
    | Some p => Parsed_eqb p {| matchedHour := if h mod 12 =? 0 then 12 else h mod 12;
                                matchedMinute := m;
                                matchedPeriod := Some (if h <? 12 then AM else PM);
                                is24HourFormat := false |}
    | None => false
    end).
  assert (Hcheck : check h m = true).
  { apply forall_hour_minute; [| exact Hh | exact Hm]. vm_compute. reflexivity. }
  unfold check in Hcheck. destruct (parse _) as [p |]; [| discriminate].
  apply Parsed_eqb_eq in Hcheck. rewrite Hcheck. reflexivity.
Qed.

(** What the parser makes of a time printed as ['HH:mm']. *)
Lemma parse_HHmm h m :
  0 <= h < 24 -> 0 <= m < 60 ->
  parse (normalize_time_input (pad2 h +:+ ":" +:+ pad2 m))
  = Some {| matchedHour := h; matchedMinute := m; matchedPeriod := None;
            is24HourFormat := 12 <? h |}.
Proof.
  intros Hh Hm.
  pose (check := fun h m =>
    match parse (normalize_time_input (pad2 h +:+ ":" +:+ pad2 m)) with
    | Some p => Parsed_eqb p {| matchedHour := h; matchedMinute := m; matchedPeriod := None;
                                is24HourFormat := 12 <? h |}
    | None => false
    end).
  assert (Hcheck : check h m = true).
  { apply forall_hour_minute; [| exact Hh | exact Hm]. vm_compute. reflexivity. }
  unfold check in Hcheck. destruct (parse _) as [p |]; [| discriminate].
  apply Parsed_eqb_eq in Hcheck. rewrite Hcheck. reflexivity.
Qed.

Lemma slot_at_present off slots s :
  In s slots -> exists s', slot_at off slots (hour off s) (minute off s) = Some s'.
Proof.
  intros Hin. destruct (slot_at off slots (hour off s) (minute off s)) as [s' |] eqn:Hat;
    [eauto |].
  exfalso. apply (proj1 (slot_at_none off slots _ _) Hat s Hin). split; reflexivity.
Qed.

Lemma slot_at_unique off slots s :
  In s slots ->
  (forall s', In s' slots -> shows off (hour off s) (minute off s) s' -> s' = s) ->
  slot_at off slots (hour off s) (minute off s) = Some s.
Proof.
  intros Hin Huniq. destruct (slot_at_present off slots s Hin) as [s' Hat].
  rewrite Hat. f_equal. apply slot_at_offered in Hat as [Hin' Hs']. auto.
Qed.

Lemma select_time_listed off slots s :
  In s slots ->
  select_time off
            {| matchedHour := if hour off s mod 12 =? 0 then 12 else hour off s mod 12;
               matchedMinute := minute off s;
               matchedPeriod := Some (if hour off s <? 12 then AM else PM);
               is24HourFormat := false |} slots
          = slot_at off slots (hour off s) (minute off s).
Proof.
  intros Hin. pose proof (hour_range off s) as Hh.
  destruct (slot_at_present off slots s Hin) as [s' Hat].
  unfold select_time, exact_match. cbn [is24HourFormat matchedPeriod matchedHour matchedMinute].
  assert (Hhour : (match (if hour off s <? 12 then AM else PM) with
                   | PM => if (if hour off s mod 12 =? 0 then 12 else hour off s mod 12) <? 12
                           then (if hour off s mod 12 =? 0 then 12 else hour off s mod 12) + 12
                           else (if hour off s mod 12 =? 0 then 12 else hour off s mod 12)
                   | AM => if (if hour off s mod 12 =? 0 then 12 else hour off s mod 12) =? 12
                           then 0
                           else (if hour off s mod 12 =? 0 then 12 else hour off s mod 12)
                   end) = hour off s).
  { destruct (Z.ltb_spec (hour off s) 12), (Z.eqb_spec (hour off s mod 12) 0);
      repeat match goal with
             | |- context [?a <? ?b] => destruct (Z.ltb_spec a b)
             | |- context [?a =? ?b] => destruct (Z.eqb_spec a b)
             end; Z.div_mod_to_equations; lia. }
  rewrite Hhour, Hat. reflexivity.
Qed.

(** X5.  A reply that repeats a slot as the dialogue listed it (['h:mm A'])
    is understood, and it
    resolves to the first offered slot with that local hour and minute, by
    the exact step: to that very slot when no other offered slot shows the
    same time of day. *)
Theorem listed_time_selects_its_slot off slots s :
  In s slots ->
  exists p,
    parse (normalize_time_input (format_hmmA off s)) = Some p
    /\ select_time off p slots = slot_at off slots (hour off s) (minute off s)
    /\ (exists s', select_time off p slots = Some s'
                   /\ In s' slots /\ shows off (hour off s) (minute off s) s')
    /\ ((forall s', In s' slots -> shows off (hour off s) (minute off s) s' -> s' = s) ->
        select_time off p slots = Some s).
Proof.
  intros Hin.
  pose proof (hour_range off s) as Hh. pose proof (minute_range off s) as Hm.
  eexists. split; [unfold format_hmmA; apply parse_hmmA; assumption |].
  pose proof (select_time_listed off slots s Hin) as Hsel.
  split; [exact Hsel |]. split.
  - destruct (slot_at_present off slots s Hin) as [s' Hat]. exists s'.
    rewrite Hsel. split; [exact Hat |]. exact (slot_at_offered off slots _ _ s' Hat).
  - intros Huniq. rewrite Hsel. apply slot_at_unique; assumption.
Qed.

Lemma listed_time_selects_its_slot_witness :
  let slots := map (fun h => local_time 330 19786 h 0) [10; 11; 12; 13; 15] in
  format_hmmA 330 (local_time 330 19786 12 0) = "12:00 PM"%string
  /\ exists p, parse (normalize_time_input "12:00 PM") = Some p
               /\ select_time 330 p slots = Some (local_time 330 19786 12 0).
Proof.
  intros slots. split; [reflexivity |].
  destruct (listed_time_selects_its_slot 330 slots (local_time 330 19786 12 0))
    as (p & Hp & Hsel & _).
  - simpl. tauto.
  - exists p. split; [exact Hp |]. rewrite Hsel. reflexivity.
Defined.

(** X6.  A reply in 24-hour form ['HH:mm'] giving the local time of an offered
    slot, from 01:00 on, resolves by the exact step to the first offered
    slot with that hour and minute; for the hours up to 12 the hour as
    typed is tried before the afternoon reading. *)
Theorem canonical_time_selects_its_slot off slots s :
  In s slots -> 1 <= hour off s ->
  exists p,
    parse (normalize_time_input (format_HHmm off s)) = Some p
    /\ exact_match off p slots = slot_at off slots (hour off s) (minute off s)
    /\ select_time off p slots = slot_at off slots (hour off s) (minute off s)
    /\ ((forall s', In s' slots -> shows off (hour off s) (minute off s) s' -> s' = s) ->
        select_time off p slots = Some s).
Proof.
  intros Hin Hone.
  pose proof (hour_range off s) as Hh. pose proof (minute_range off s) as Hm.
  eexists. split; [unfold format_HHmm; apply parse_HHmm; assumption |].
  destruct (slot_at_present off slots s Hin) as [s' Hat].
  assert (Hexact : exact_match off
            {| matchedHour := hour off s; matchedMinute := minute off s;
               matchedPeriod := None; is24HourFormat := 12 <? hour off s |} slots
          = slot_at off slots (hour off s) (minute off s)).
  { unfold exact_match. cbn [is24HourFormat matchedPeriod matchedHour matchedMinute].
    destruct (Z.ltb_spec 12 (hour off s)); [reflexivity |].
    rewrite candidateHours_bare by lia. cbn [first_candidate].
    unfold first_candidate_hour. rewrite Hat. reflexivity. }
  split; [exact Hexact |].
  assert (Hsel : select_time off
            {| matchedHour := hour off s; matchedMinute := minute off s;
               matchedPeriod := None; is24HourFormat := 12 <? hour off s |} slots
          = slot_at off slots (hour off s) (minute off s)).
  { unfold select_time. rewrite Hexact, Hat. reflexivity. }
  split; [exact Hsel |].
  intros Huniq. rewrite Hsel. apply slot_at_unique; assumption.
Qed.

Lemma canonical_time_selects_its_slot_witness :
  let slots := map (fun h => local_time 330 19786 h 0) [10; 11; 14; 15] in
  format_HHmm 330 (local_time 330 19786 14 0) = "14:00"%string
  /\ exists p, parse (normalize_time_input "14:00") = Some p
               /\ exact_match 330 p slots = Some (local_time 330 19786 14 0).
Proof.
  intros slots. split; [reflexivity |].
  destruct (canonical_time_selects_its_slot 330 slots (local_time 330 19786 14 0))
    as (p & Hp & Hexact & _).
  - simpl. tauto.
  - vm_compute. discriminate.
  - exists p. split; [exact Hp |]. rewrite Hexact. reflexivity.
Defined.

(** ** Committing or refusing a time *)

Lemma update_time_phones p t l : map phone (update_time p t l) = map phone l.
Proof.
  induction l as [| a l IH]; simpl; [reflexivity |].
  destruct (String.eqb (phone a) p); simpl; [reflexivity | rewrite IH; reflexivity].
Qed.

Lemma find_appointment_update_time_same p t l :
  find_appointment p (update_time p t l)
  = (fun a => with_time a t) <$> find_appointment p l.
Proof.
  unfold find_appointment. induction l as [| a l IH]; simpl; [reflexivity |].
  destruct (String.eqb (phone a) p) eqn:Hp; simpl; rewrite Hp; [reflexivity | exact IH].
Qed.

Lemma find_appointment_update_time_other p q t l :
  q <> p -> find_appointment q (update_time p t l) = find_appointment q l.
Proof.
  intros Hne. unfold find_appointment. induction l as [| a l IH]; simpl; [reflexivity |].
  destruct (String.eqb_spec (phone a) p) as [Hp | Hp]; simpl.
  - destruct (String.eqb_spec (phone a) q); [congruence | reflexivity].
  - destruct (String.eqb (phone a) q); [reflexivity | exact IH].
Qed.

(** X7.  A time that resolves to an offered slot is committed: the first record
    of the phone in the store gets the slot as its time and nothing else in
    the store changes (same phones in the same order, the records of other
    phones as they were), the conversation state of the phone is deleted
    and those of other phones are kept, and one confirmation naming the old
    and the new time is sent. *)
Theorem time_selection_commits off p messageContent w st slots parsed s :
  userReschedulingState w !! p = Some st ->
  availableTimeSlots st = Some slots ->
  parse (normalize_time_input messageContent) = Some parsed ->
  select_time off parsed slots = Some s ->
  next_send_ok w ->
  exists w',
    handleTimeSelection off p messageContent w = (Ok tt, w')
    /\ appointmentData w' = update_time p s (appointmentData w)
    /\ map phone (appointmentData w') = map phone (appointmentData w)
    /\ find_appointment p (appointmentData w')
       = (fun a => with_time a s) <$> find_appointment p (appointmentData w)
    /\ (forall q, q <> p ->
          find_appointment q (appointmentData w') = find_appointment q (appointmentData w))
    /\ userReschedulingState w' = delete p (userReschedulingState w)
    /\ outbox w' = outbox w ++ [(p, Rescheduled (appointmentTime (currentAppointment st)) s)]
    /\ In s slots.
Proof.
  intros Hst Hslots Hparse Hsel Hsend.
  unfold handleTimeSelection. run_handler. rewrite Hst. cbn beta iota. rewrite Hslots.
  cbn beta iota. change (JS.collapse_spaces (JS.toLowerCase (JS.trim messageContent)))
    with (normalize_time_input messageContent).
  rewrite Hparse, Hsel. cbn beta iota.
  rewrite reply_ok by exact Hsend.
  eexists. split; [reflexivity |]. world_simpl.
  split; [reflexivity |]. split; [apply update_time_phones |].
  split; [apply find_appointment_update_time_same |].
  split; [intros q Hq; apply find_appointment_update_time_other; exact Hq |].
  split; [apply delete_insert_eq |]. split; [reflexivity |].
  exact (proj1 (select_time_near off parsed slots s Hsel)).
Qed.

Lemma time_selection_commits_witness :
  let current := plain_appointment "Asha" "919800000001" (local_time 330 19784 14 0) in
  let slots := map (fun h => local_time 330 19786 h 0) [10; 11; 14; 15] in
  exists w',
    handleTimeSelection 330 "919800000001" " 3 PM " (choosing_time current slots) = (Ok tt, w')
    /\ map appointmentTime (appointmentData w') = [local_time 330 19786 15 0]
    /\ userReschedulingState w' !! "919800000001" = None.
Proof.
  intros current slots.
  destruct (time_selection_commits 330 "919800000001" " 3 PM " (choosing_time current slots)
              {| currentAppointment := current; availableDates := Some [19786];
                 stage := selecting_time; selectedDate := Some 19786;
                 availableTimeSlots := Some slots |}
              slots
              {| matchedHour := 3; matchedMinute := 0; matchedPeriod := Some PM;
                 is24HourFormat := false |}
              (local_time 330 19786 15 0) eq_refl eq_refl eq_refl eq_refl eq_refl)
    as (w' & Hrun & Hdata & _ & _ & _ & Hstate & _).
  exists w'. split; [exact Hrun |]. rewrite Hdata, Hstate. split; reflexivity.
Defined.

(** X8.  A time that cannot be read, or that matches no offered slot, is
    refused with the list of offered slots: nothing but that one reply
    happens, so the appointment, the offered slots and the stage of the
    phone stay as they were. *)
Theorem time_selection_refused off p messageContent w st slots :
  userReschedulingState w !! p = Some st ->
  availableTimeSlots st = Some slots ->
  next_send_ok w ->
  (parse (normalize_time_input messageContent) = None ->
   handleTimeSelection off p messageContent w
   = (Ok tt, delivered p (TimeFormatNotUnderstood slots) w))
  /\ (forall parsed,
        parse (normalize_time_input messageContent) = Some parsed ->
        select_time off parsed slots = None ->
        handleTimeSelection off p messageContent w
        = (Ok tt, delivered p (NoMatchingSlot messageContent slots) w))
  /\ (forall r, appointmentData (delivered p r w) = appointmentData w
                /\ userReschedulingState (delivered p r w) !! p = Some st).
Proof.
  intros Hst Hslots Hsend. split; [| split].
  - intros Hparse. unfold handleTimeSelection. run_handler. rewrite Hst. cbn beta iota.
    rewrite Hslots. cbn beta iota.
    change (JS.collapse_spaces (JS.toLowerCase (JS.trim messageContent)))
      with (normalize_time_input messageContent).
    rewrite Hparse. rewrite reply_ok by exact Hsend. reflexivity.
  - intros parsed Hparse Hsel. unfold handleTimeSelection. run_handler. rewrite Hst.
    cbn beta iota. rewrite Hslots. cbn beta iota.
    change (JS.collapse_spaces (JS.toLowerCase (JS.trim messageContent)))
      with (normalize_time_input messageContent).
    rewrite Hparse, Hsel. rewrite reply_ok by exact Hsend. reflexivity.
  - intros r. split; [reflexivity | exact Hst].
Qed.

Lemma time_selection_refused_witness :
  let current := plain_appointment "Asha" "919800000001" (local_time 330 19784 14 0) in
  let slots := map (fun h => local_time 330 19786 h 0) [10; 11; 14; 15] in
  let w := choosing_time current slots in
  handleTimeSelection 330 "919800000001" "half past two" w
  = (Ok tt, delivered "919800000001" (TimeFormatNotUnderstood slots) w)
  /\ handleTimeSelection 330 "919800000001" "2:30pm" w
     = (Ok tt, delivered "919800000001" (NoMatchingSlot "2:30pm" slots) w).
Proof.
  intros current slots w.
  destruct (time_selection_refused 330 "919800000001" "half past two" w
              {| currentAppointment := current; availableDates := Some [19786];
                 stage := selecting_time; selectedDate := Some 19786;
                 availableTimeSlots := Some slots |} slots eq_refl eq_refl eq_refl)
    as (Hunread & _ & _).
  destruct (time_selection_refused 330 "919800000001" "2:30pm" w
              {| currentAppointment := current; availableDates := Some [19786];
                 stage := selecting_time; selectedDate := Some 19786;
                 availableTimeSlots := Some slots |} slots eq_refl eq_refl eq_refl)
    as (_ & Hnomatch & _).
  split; [apply Hunread; reflexivity |].
  apply (Hnomatch {| matchedHour := 2; matchedMinute := 30; matchedPeriod := Some PM;
                     is24HourFormat := false |}); reflexivity.
Defined.

(** White space outside ASCII in a time: with a no-break space (U+00A0)
    before it, "pm" is still read, so "10 pm" asks for 22:00 and is
    refused when only 10:00 is offered; with a narrow no-break space
    (U+202F), "2:00 pm" is read and 14:00 is committed. *)
Example white_space_before_meridiem :
  let current := plain_appointment "Asha" "919800000001" (local_time 330 19784 14 0) in
  let ten := "10" +:+ bytes [194; 160] +:+ "pm" in
  let two := "2:00" +:+ bytes [226; 128; 175] +:+ "PM" in
  let morning := [local_time 330 19786 10 0] in
  let afternoon := [local_time 330 19786 14 0] in
  parse (normalize_time_input ten)
  = Some {| matchedHour := 10; matchedMinute := 0; matchedPeriod := Some PM;
            is24HourFormat := false |}
  /\ handleTimeSelection 330 "919800000001" ten (choosing_time current morning)
     = (Ok tt, delivered "919800000001" (NoMatchingSlot ten morning)
                 (choosing_time current morning))
  /\ parse (normalize_time_input two)
     = Some {| matchedHour := 2; matchedMinute := 0; matchedPeriod := Some PM;
               is24HourFormat := false |}
  /\ map appointmentTime
         (appointmentData (snd (handleTimeSelection 330 "919800000001" two
                                                    (choosing_time current afternoon))))
     = [local_time 330 19786 14 0].
Proof. repeat split. Qed.

(** X9.  A reply that arrives when the phone has no conversation state any
    more, or a state in which no slots (or dates) were offered, makes the
    handler throw on [undefined]: it answers with its apology and leaves no
    state for the phone; the store is untouched.  A date reply that
    [parseInt] reads as [NaN] or below 1 is refused before the state is
    read. *)
Theorem reply_without_state_is_apologised off p messageContent w :
  next_send_ok w ->
  (userReschedulingState w !! p = None
   \/ (exists st, userReschedulingState w !! p = Some st /\ availableTimeSlots st = None) ->
   handleTimeSelection off p messageContent w
   = (Ok tt, set_userReschedulingState (delete p (userReschedulingState w))
               (delivered p TimeSelectionError w)))
  /\ (forall k, JS.parseInt (JS.trim messageContent) = Some k -> 1 <= k ->
      userReschedulingState w !! p = None
      \/ (exists st, userReschedulingState w !! p = Some st /\ availableDates st = None) ->
      handleDateSelection off p messageContent w
      = (Ok tt, set_userReschedulingState (delete p (userReschedulingState w))
                  (delivered p DateSelectionError w)))
  /\ (JS.parseInt (JS.trim messageContent) = None
      \/ (exists k, JS.parseInt (JS.trim messageContent) = Some k /\ k < 1) ->
      handleDateSelection off p messageContent w = (Ok tt, delivered p InvalidSelection w)).
Proof.
  intros Hsend. split; [| split].
  - intros [Hnone | (st & Hst & Hslots)]; unfold handleTimeSelection; run_handler.
    + rewrite Hnone. cbn beta iota. rewrite reply_ok by exact Hsend. reflexivity.
    + rewrite Hst. cbn beta iota. rewrite Hslots. cbn beta iota.
      rewrite reply_ok by exact Hsend. reflexivity.
  - intros k Hparse Hk [Hnone | (st & Hst & Hdates)]; unfold handleDateSelection; run_handler;
      rewrite Hparse; cbn [fmap option_fmap option_map];
      (destruct (Z.ltb_spec (k - 1) 0); [lia |]).
    + rewrite Hnone. cbn beta iota. rewrite reply_ok by exact Hsend. reflexivity.
    + rewrite Hst. cbn beta iota. rewrite Hdates. cbn beta iota.
      rewrite reply_ok by exact Hsend. reflexivity.
  - intros H. apply handleDateSelection_rejected; [exact Hsend |].
    destruct H as [H | H]; [left | right; left]; exact H.
Qed.

Lemma reply_without_state_is_apologised_witness :
  let w := quiet_world [plain_appointment "Asha" "919800000001" (local_time 330 19784 14 0)]
                       ∅ [] in
  handleTimeSelection 330 "919800000001" "3pm" w
  = (Ok tt, set_userReschedulingState (delete "919800000001" ∅)
              (delivered "919800000001" TimeSelectionError w))
  /\ handleDateSelection 330 "919800000001" "abc" w
     = (Ok tt, delivered "919800000001" InvalidSelection w).
Proof.
  intros w.
  destruct (reply_without_state_is_apologised 330 "919800000001" "3pm" w eq_refl)
    as (Htime & _ & _).
  destruct (reply_without_state_is_apologised 330 "919800000001" "abc" w eq_refl)
    as (_ & _ & Hdate).
  split; [apply Htime; left; reflexivity | apply Hdate; left; reflexivity].
Defined.

(** ** Cancelling *)

(** X10.  [handleCancellationRequest] never removes anything: with or without a
    delivered reply the store is as before.  When the replies are
    delivered, a phone without appointment is told so and gets no state,
    and a phone with one is put in the stage that waits for the
    confirmation, with a fresh state. *)
Theorem cancellation_request_waits_for_confirmation p w :
  (forall res w', handleCancellationRequest p w = (res, w') ->
                  appointmentData w' = appointmentData w)
  /\ (next_send_ok w -> find_appointment p (appointmentData w) = None ->
      handleCancellationRequest p w = (Ok tt, delivered p CancellationNotFound w))
  /\ (forall a, next_send_ok w -> find_appointment p (appointmentData w) = Some a ->
      handleCancellationRequest p w
      = (Ok tt,
         delivered p (RetentionOffer a)
           (set_userReschedulingState
              (<[p := {| currentAppointment := a; availableDates := None;
                         stage := confirming_cancellation; selectedDate := None;
                         availableTimeSlots := None |}]> (userReschedulingState w)) w))).
Proof.
  split; [| split].
  - intros res w'. unfold handleCancellationRequest. run_handler. intros Hrun.
    split_paths; congruence.
  - intros Hsend Hnone. unfold handleCancellationRequest. run_handler. rewrite Hnone.
    rewrite reply_ok by exact Hsend. reflexivity.
  - intros a Hsend Hfind. unfold handleCancellationRequest. run_handler. rewrite Hfind.
    rewrite reply_ok by exact Hsend. reflexivity.
Qed.

Lemma cancellation_request_waits_for_confirmation_witness :
  let current := plain_appointment "Asha" "919800000001" (local_time 330 19786 14 0) in
  let w := quiet_world [current] ∅ [] in
  exists w',
    handleCancellationRequest "919800000001" w = (Ok tt, w')
    /\ appointmentData w' = [current]
    /\ (stage <$> userReschedulingState w' !! "919800000001") = Some confirming_cancellation
    /\ outbox w' = [("919800000001", RetentionOffer current)].
Proof.
  intros current w.
  destruct (cancellation_request_waits_for_confirmation "919800000001" w) as (_ & _ & Hoffer).
  eexists. split; [apply (Hoffer current); reflexivity |].
  split; [reflexivity |]. split; reflexivity.
Defined.

Lemma find_appointment_remove_first_other p q l :
  q <> p -> find_appointment q (remove_first p l) = find_appointment q l.
Proof.
  intros Hne. unfold find_appointment. induction l as [| a l IH]; simpl; [reflexivity |].
  destruct (String.eqb_spec (phone a) p) as [Hp | Hp]; simpl.
  - destruct (String.eqb_spec (phone a) q); [congruence | reflexivity].
  - destruct (String.eqb (phone a) q); [reflexivity | exact IH].
Qed.

Lemma remove_first_length p l a :
  find_appointment p l = Some a -> S (List.length (remove_first p l)) = List.length l.
Proof.
  unfold find_appointment. induction l as [| x l IH]; simpl; [discriminate |].
  destruct (String.eqb (phone x) p); [reflexivity |]. intros H. simpl. rewrite IH; auto.
Qed.

Lemma remove_first_unique p l :
  NoDup (map phone l) -> find_appointment p (remove_first p l) = None.
Proof.
  intros Hnodup. apply find_appointment_none. intros (a & Ha & Hp).
  induction l as [| x l IH]; simpl in *; [destruct Ha |].
  apply NoDup_cons in Hnodup as [Hx Hl].
  destruct (String.eqb_spec (phone x) p) as [Hxp | Hxp].
  - apply Hx. rewrite Hxp, <- Hp. apply list_elem_of_In, List.in_map. exact Ha.
  - destruct Ha as [<- | Ha]; [congruence | auto].
Qed.

(** X11.  A confirmed cancellation whose farewell is delivered removes the first
    record of the phone from the store and nothing else (one record fewer,
    the records of other phones as they were; no record of the phone left
    when it had only one), deletes the conversation state of the phone and
    sends the farewell in the name kept in that state.  When the store has
    no record of the phone the handler only says so, and the state stays. *)
Theorem confirmed_cancellation_removes_appointment p w st :
  userReschedulingState w !! p = Some st ->
  next_send_ok w ->
  (forall a, find_appointment p (appointmentData w) = Some a ->
     exists w',
       processCancellation p w = (Ok tt, w')
       /\ appointmentData w' = remove_first p (appointmentData w)
       /\ S (List.length (appointmentData w')) = List.length (appointmentData w)
       /\ (forall q, q <> p ->
             find_appointment q (appointmentData w') = find_appointment q (appointmentData w))
       /\ (NoDup (map phone (appointmentData w)) ->
           find_appointment p (appointmentData w') = None)
       /\ userReschedulingState w' = delete p (userReschedulingState w)
       /\ outbox w' = outbox w ++ [(p, Farewell (name (currentAppointment st)))])
  /\ (find_appointment p (appointmentData w) = None ->
      processCancellation p w = (Ok tt, delivered p NotInSystem w)).
Proof.
  intros Hst Hsend. split.
  - intros a Hfind. unfold processCancellation. run_handler. rewrite Hst. cbn beta iota.
    rewrite Hfind. rewrite reply_ok by exact Hsend.
    eexists. split; [reflexivity |]. world_simpl.
    split; [reflexivity |]. split; [exact (remove_first_length p _ a Hfind) |].
    split; [intros q Hq; apply find_appointment_remove_first_other; exact Hq |].
    split; [apply remove_first_unique |]. split; reflexivity.
  - intros Hnone. unfold processCancellation. run_handler. rewrite Hst. cbn beta iota.
    rewrite Hnone. rewrite reply_ok by exact Hsend. reflexivity.
Qed.

Lemma confirmed_cancellation_removes_appointment_witness :
  let asha := plain_appointment "Asha" "919800000001" (local_time 330 19784 14 0) in
  let ravi := plain_appointment "Ravi" "919800000002" (local_time 330 19786 11 0) in
  let st := {| currentAppointment := asha; availableDates := None;
               stage := confirming_cancellation; selectedDate := None;
               availableTimeSlots := None |} in
  let w := quiet_world [ravi; asha] {[ "919800000001"%string := st ]} [] in
  exists w',
    processCancellation "919800000001" w = (Ok tt, w')
    /\ appointmentData w' = [ravi]
    /\ userReschedulingState w' = ∅
    /\ outbox w' = [("919800000001"%string, Farewell "Asha")].
Proof.
  intros asha ravi st w.
  destruct (proj1 (confirmed_cancellation_removes_appointment "919800000001" w st
                     eq_refl eq_refl) asha eq_refl)
    as (w' & Hrun & Hdata & _ & _ & _ & Hstate & Hout).
  exists w'. split; [exact Hrun |]. rewrite Hdata, Hstate, Hout.
  split; [reflexivity |]. split; [| reflexivity].
  apply delete_singleton_eq.
Defined.

(** ** Routing an incoming message *)

Lemma lower_char_idempotent c : JS.lower_char (JS.lower_char c) = JS.lower_char c.
Proof. destruct c as [[] [] [] [] [] [] [] []]; reflexivity. Qed.

Lemma toLowerCase_idempotent s : JS.toLowerCase (JS.toLowerCase s) = JS.toLowerCase s.
Proof.
  induction s as [| c s IH]; simpl; [reflexivity |].
  rewrite lower_char_idempotent, IH. reflexivity.
Qed.

(** X12.  The listener itself changes nothing and sends nothing: all it does is
    set at most one timer, for an action of the sender, and it never
    throws.  It reads the text without regard to letter case. *)
Theorem listener_only_schedules message w :
  (exists sched,
     onMessage message w = (Ok tt, set_timers (timers w ++ sched) w)
     /\ (List.length sched <= 1)%nat
     /\ forall d, In d sched -> contact message = Some (deferred_phone d))
  /\ onMessage {| contact := contact message; body := JS.toLowerCase (body message);
                  hasMedia := hasMedia message |} w
     = onMessage message w.
Proof.
  split.
  - assert (Hsame : set_timers (timers w ++ []) w = w).
    { rewrite app_nil_r. destruct w; reflexivity. }
    unfold onMessage. run_handler.
    destruct (contact message) as [p |]; cbn beta iota;
      [| exists []; rewrite Hsame; simpl; split; [reflexivity | split; [lia | tauto]]].
    destruct (find_appointment p (appointmentData w)); cbn beta iota;
      [| exists []; rewrite Hsame; simpl; split; [reflexivity | split; [lia | tauto]]].
    destruct (hasMedia message);
      [exists []; rewrite Hsame; simpl; split; [reflexivity | split; [lia | tauto]] |].
    destruct (userReschedulingState w !! p) as [st |].
    + destruct (stage st).
      * destruct (_ || _ || _ || _); [| destruct (JS.includes _ "reschedule")];
          eexists [_]; (split; [reflexivity |]); (split; [simpl; lia |]);
          intros d [<- | []]; reflexivity.
      * eexists [_]; (split; [reflexivity |]); (split; [simpl; lia |]);
          intros d [<- | []]; reflexivity.
      * eexists [_]; (split; [reflexivity |]); (split; [simpl; lia |]);
          intros d [<- | []]; reflexivity.
    + destruct (_ || _); [| destruct (JS.includes _ "reschedule")].
      * eexists [_]; (split; [reflexivity |]); (split; [simpl; lia |]);
          intros d [<- | []]; reflexivity.
      * eexists [_]; (split; [reflexivity |]); (split; [simpl; lia |]);
          intros d [<- | []]; reflexivity.
      * exists []. rewrite Hsame. simpl. split; [reflexivity | split; [lia | tauto]].
  - unfold onMessage. cbn [contact body hasMedia]. rewrite toLowerCase_idempotent. reflexivity.
Qed.

Lemma listener_only_schedules_witness :
  let current := plain_appointment "Asha" "919800000001" (local_time 330 19786 14 0) in
  let w := quiet_world [current] ∅ [] in
  onMessage {| contact := Some "919800000001"; body := "Please RESCHEDULE me";
               hasMedia := false |} w
  = onMessage {| contact := Some "919800000001"; body := "please reschedule me";
                 hasMedia := false |} w.
Proof.
  intros current w.
  destruct (listener_only_schedules
              {| contact := Some "919800000001"; body := "Please RESCHEDULE me";
                 hasMedia := false |} w) as [_ Hcase].
  symmetry. exact Hcase.
Defined.

(** X13.  While a phone is selecting a date or a time, every text it sends goes
    to that selection, whatever it says: "cancel" or "reschedule" are not
    read as commands there.  While it is asked to confirm a cancellation,
    a text containing "confirm" confirms, even one that also contains
    "reschedule".  A phone in no stage is heard only when its text contains
    "cancel" or "reschedule", "cancel" winning when both occur. *)
Theorem stage_decides_before_keywords p message w a :
  contact message = Some p ->
  find_appointment p (appointmentData w) = Some a ->
  hasMedia message = false ->
  let text := JS.toLowerCase (body message) in
  let scheduled d := onMessage message w = (Ok tt, set_timers (timers w ++ [d]) w) in
  (forall st, userReschedulingState w !! p = Some st -> stage st = selecting_date ->
              scheduled (RunHandleDateSelection p text))
  /\ (forall st, userReschedulingState w !! p = Some st -> stage st = selecting_time ->
                 scheduled (RunHandleTimeSelection p text))
  /\ (forall st, userReschedulingState w !! p = Some st ->
                 stage st = confirming_cancellation ->
                 JS.includes text "confirm" = true ->
                 scheduled (RunProcessCancellation p))
  /\ (userReschedulingState w !! p = None -> JS.includes text "cancel" = true ->
      scheduled (RunHandleCancellationRequest p))
  /\ (userReschedulingState w !! p = None ->
      JS.includes text "cancel" = false -> JS.includes text "reschedule" = false ->
      onMessage message w = (Ok tt, w)).
Proof.
  intros Hc Hfind Hmedia text scheduled. subst scheduled. cbv beta.
  repeat split.
  - intros st Hst Hstage. unfold onMessage. run_handler.
    rewrite Hc. cbn beta iota. rewrite Hfind, Hmedia, Hst, Hstage. reflexivity.
  - intros st Hst Hstage. unfold onMessage. run_handler.
    rewrite Hc. cbn beta iota. rewrite Hfind, Hmedia, Hst, Hstage. reflexivity.
  - intros st Hst Hstage Hconfirm. unfold onMessage. run_handler.
    rewrite Hc. cbn beta iota. rewrite Hfind, Hmedia, Hst, Hstage. fold text.
    rewrite Hconfirm, orb_true_r. reflexivity.
  - intros Hnone Hcancel. unfold onMessage. run_handler.
    rewrite Hc. cbn beta iota. rewrite Hfind, Hmedia, Hnone. fold text.
    rewrite Hcancel. reflexivity.
  - intros Hnone Hcancel Hresched. unfold onMessage. run_handler.
    rewrite Hc. cbn beta iota. rewrite Hfind, Hmedia, Hnone. fold text.
    rewrite Hcancel, Hresched.
    assert (Hcanc : JS.includes text "cancellation" = false).
    { destruct (JS.includes text "cancellation") eqn:H; [| reflexivity].
      exfalso. clear -H Hcancel. induction text as [| c t IH]; [discriminate |].
      cbn [JS.includes] in H, Hcancel.
      apply orb_true_iff in H as [H | H]; apply orb_false_iff in Hcancel as [Hs Hr].
      - assert (JS.startsWith "cancel" (String c t) = true); [| congruence].
        clear -H. cbn [JS.startsWith] in *.
        repeat match goal with
               | H : context [match ?t with EmptyString => _ | String _ _ => _ end] |- _ =>
                   destruct t; [discriminate H |]
               | H : (_ && _)%bool = true |- _ => apply andb_true_iff in H as [? H]
               end.
        repeat match goal with
               | |- context [match ?t with EmptyString => _ | String _ _ => _ end] =>
                   destruct t
               end; repeat (apply andb_true_iff; split); auto.
      - destruct t; [discriminate |]. auto. }
    rewrite Hcanc. reflexivity.
Qed.

Lemma stage_decides_before_keywords_witness :
  let current := plain_appointment "Asha" "919800000001" (local_time 330 19786 14 0) in
  let w := choosing_date current [19786; 19787] in
  onMessage {| contact := Some "919800000001"; body := "Cancel it"; hasMedia := false |} w
  = (Ok tt, set_timers [RunHandleDateSelection "919800000001" "cancel it"] w).
Proof.
  intros current w.
  destruct (stage_decides_before_keywords "919800000001"
              {| contact := Some "919800000001"; body := "Cancel it"; hasMedia := false |}
              w current eq_refl eq_refl eq_refl) as (Hdate & _).
  exact (Hdate {| currentAppointment := current; availableDates := Some [19786; 19787];
                  stage := selecting_date; selectedDate := None;
                  availableTimeSlots := None |} eq_refl eq_refl).
Defined.

(** ** The merge, record by record *)

Lemma keep_existing_step batch acc_m acc_p e :
  keep_existing batch (acc_m, acc_p) e
  = (acc_m ++ kept_record batch e,
     acc_p ∪ list_to_set (map phone (kept_record batch e))).
Proof.
  unfold keep_existing, kept_record.
  destruct (find_appointment (phone e) batch) as [n |].
  - destruct (negb (isSame (appointmentTime e) (appointmentTime n))).
    + cbn [map list_to_set]. rewrite (right_id_L ∅ (∪)). reflexivity.
    + cbn [map list_to_set]. rewrite app_nil_r, (right_id_L ∅ (∪)). reflexivity.
  - cbn [map list_to_set]. rewrite (right_id_L ∅ (∪)). reflexivity.
Qed.

Lemma keep_existing_closed batch stored acc_m acc_p :
  foldl (keep_existing batch) (acc_m, acc_p) stored
  = (acc_m ++ flat_map (kept_record batch) stored,
     acc_p ∪ list_to_set (map phone (flat_map (kept_record batch) stored))).
Proof.
  revert acc_m acc_p. induction stored as [| e stored IH]; intros acc_m acc_p.
  - simpl. rewrite app_nil_r, (right_id_L ∅ (∪)). reflexivity.
  - cbn [foldl flat_map]. rewrite keep_existing_step, IH.
    rewrite map_app, list_to_set_app_L, <- app_assoc, (assoc_L (∪)). reflexivity.
Qed.

Lemma add_new_closed seen batch st :
  mergedAppointments (foldl (add_new seen) st batch)
  = mergedAppointments st ++ appended_records (processedPhones st) batch
  /\ trulyNewAppointments (foldl (add_new seen) st batch)
     = trulyNewAppointments st
       ++ List.filter (fun n => negb (bool_decide (phone n ∈ seen)))
                      (appended_records (processedPhones st) batch)
  /\ newlySeenPhones (foldl (add_new seen) st batch)
     = newlySeenPhones st
       ∪ list_to_set (map phone
           (List.filter (fun n => negb (bool_decide (phone n ∈ seen)))
                        (appended_records (processedPhones st) batch))).
Proof.
  revert st. induction batch as [| n batch IH]; intros st.
  - simpl. rewrite !app_nil_r, (right_id_L ∅ (∪)). auto.
  - cbn [foldl appended_records]. destruct (IH (add_new seen st n)) as (IHm & IHt & IHs).
    rewrite IHm, IHt, IHs. unfold add_new.
    destruct (bool_decide (phone n ∈ processedPhones st)); [auto |].
    cbn [mergedAppointments processedPhones trulyNewAppointments newlySeenPhones List.filter].
    destruct (negb (bool_decide (phone n ∈ seen))).
    + cbn [map list_to_set]. rewrite <- !app_assoc, <- (assoc_L (∪)). auto.
    + rewrite <- !app_assoc. auto.
Qed.

(** The merged list: the records kept from memory, in their order, then
    the uploaded records of phones not kept, in their order. *)
Lemma smart_merge_closed stored batch seen :
  let kept := flat_map (kept_record batch) stored in
  let added := appended_records (list_to_set (map phone kept)) batch in
  mergedAppointments (smart_merge stored batch seen) = kept ++ added
  /\ trulyNewAppointments (smart_merge stored batch seen)
     = List.filter (fun n => negb (bool_decide (phone n ∈ seen))) added
  /\ newlySeenPhones (smart_merge stored batch seen)
     = seen ∪ list_to_set (map phone
                (List.filter (fun n => negb (bool_decide (phone n ∈ seen))) added)).
Proof.
  intros kept added. unfold smart_merge. rewrite keep_existing_closed.
  cbn [app]. rewrite (left_id_L ∅ (∪)).
  destruct (add_new_closed seen batch
              {| mergedAppointments := kept;
                 processedPhones := list_to_set (map phone kept);
                 newlySeenPhones := seen; trulyNewAppointments := [] |})
    as (Hm & Ht & Hs).
  fold kept. rewrite Hm, Ht, Hs. auto.
Qed.

Lemma kept_record_cases batch e r :
  In r (kept_record batch e) ->
  phone r = phone e /\ appointmentTime r = appointmentTime e /\ name r = name e
  /\ ((exists n, find_appointment (phone e) batch = Some n
                 /\ appointmentTime e <> appointmentTime n /\ r = mark_rescheduled e)
      \/ (find_appointment (phone e) batch = None /\ r = mark_existing e)).
Proof.
  unfold kept_record. destruct (find_appointment (phone e) batch) as [n |].
  - unfold isSame. destruct (Z.eqb_spec (appointmentTime e) (appointmentTime n)); simpl;
      [intros [] |]. intros [<- | []]. repeat split. left. eauto.
  - intros [<- | []]. repeat split. right. auto.
Qed.

Lemma appended_records_first processed batch n :
  In n (appended_records processed batch) ->
  In n batch /\ (phone n ∉ processed) /\ find_appointment (phone n) batch = Some n.
Proof.
  revert processed. induction batch as [| x batch IH]; intros processed; simpl; [intros [] |].
  case_bool_decide as Hx.
  - intros Hn. destruct (IH _ Hn) as (Hin & Hp & Hfind). split; [auto |]. split; [exact Hp |].
    unfold find_appointment in *. simpl.
    destruct (String.eqb_spec (phone x) (phone n)); [congruence | exact Hfind].
  - intros [<- | Hn].
    + split; [auto |]. split; [exact Hx |]. unfold find_appointment. simpl.
      rewrite String.eqb_refl. reflexivity.
    + destruct (IH _ Hn) as (Hin & Hp & Hfind). split; [auto |].
      rewrite elem_of_union, elem_of_singleton in Hp.
      split; [tauto |]. unfold find_appointment in *. simpl.
      destruct (String.eqb_spec (phone x) (phone n)); [exfalso; apply Hp; auto | exact Hfind].
Qed.

Lemma appended_records_covers processed batch n :
  In n batch -> phone n ∈ processed \/ has_phone (phone n) (appended_records processed batch).
Proof.
  revert processed. induction batch as [| x batch IH]; intros processed; simpl; [intros [] |].
  intros [<- | Hn].
  - case_bool_decide as Hx; [left; exact Hx |]. right. exists x. simpl. auto.
  - case_bool_decide as Hx.
    + destruct (IH processed Hn) as [H | (a & Ha & Hp)]; [left; exact H |].
      right. exists a. auto.
    + destruct (IH (processed ∪ {[phone x]}) Hn) as [H | (a & Ha & Hp)].
      * apply elem_of_union in H as [H | H]; [left; exact H |].
        apply elem_of_singleton in H. right. exists x. simpl. auto.
      * right. exists a. simpl. auto.
Qed.

Lemma appended_records_nodup processed batch :
  NoDup (map phone (appended_records processed batch)).
Proof.
  revert processed. induction batch as [| x batch IH]; intros processed; simpl;
    [constructor |].
  case_bool_decide as Hx; [apply IH |]. simpl. apply NoDup_cons. split; [| apply IH].
  intros Hin. apply list_elem_of_In, List.in_map_iff in Hin as (a & Hp & Ha).
  apply appended_records_first in Ha as (_ & Hnot & _). apply Hnot.
  rewrite Hp. apply elem_of_union. right. apply elem_of_singleton. reflexivity.
Qed.

Lemma kept_records_phones batch stored q :
  q ∈ (list_to_set (map phone (flat_map (kept_record batch) stored)) : gset string)
  <-> has_phone q (flat_map (kept_record batch) stored).
Proof.
  rewrite elem_of_list_to_set, list_elem_of_In, List.in_map_iff. unfold has_phone.
  split; intros (a & H1 & H2); exists a; auto.
Qed.

Lemma kept_records_nodup batch stored :
  NoDup (map phone stored) -> NoDup (map phone (flat_map (kept_record batch) stored)).
Proof.
  induction stored as [| e stored IH]; simpl; [constructor |].
  intros Hnodup. apply NoDup_cons in Hnodup as [He Hl]. rewrite map_app.
  apply NoDup_app. split; [| split; [| apply IH; exact Hl]].
  - unfold kept_record. destruct (find_appointment _ _);
      [destruct (negb _) |]; simpl; repeat constructor; intros H; inversion H.
  - intros q Hq Hq'. apply He.
    apply list_elem_of_In, List.in_map_iff in Hq as (r & Hq & Hr).
    apply kept_record_cases in Hr as (Hp & _).
    apply list_elem_of_In, List.in_map_iff in Hq' as (r' & Hp' & Hr').
    apply List.in_flat_map in Hr' as (e' & He' & Hr').
    apply kept_record_cases in Hr' as (Hp'' & _).
    apply list_elem_of_In, List.in_map_iff. exists e'. split; [congruence | exact He'].
Qed.

Lemma find_appointment_app p l1 l2 :
  find_appointment p (l1 ++ l2)
  = match find_appointment p l1 with
    | Some a => Some a
    | None => find_appointment p l2
    end.
Proof.
  unfold find_appointment. induction l1 as [| a l1 IH]; simpl; [reflexivity |].
  destruct (String.eqb (phone a) p); [reflexivity | exact IH].
Qed.

Lemma find_appointment_nodup l a :
  NoDup (map phone l) -> In a l -> find_appointment (phone a) l = Some a.
Proof.
  unfold find_appointment. induction l as [| x l IH]; simpl; [intros _ [] |].
  intros Hnodup Ha. apply NoDup_cons in Hnodup as [Hx Hl].
  destruct Ha as [-> | Ha]; [rewrite String.eqb_refl; reflexivity |].
  destruct (String.eqb_spec (phone x) (phone a)) as [Hp | Hp]; [| auto].
  exfalso. apply Hx. rewrite Hp. apply list_elem_of_In, List.in_map. exact Ha.
Qed.

Lemma kept_records_of_phone batch stored r :
  In r (flat_map (kept_record batch) stored) ->
  exists e, In e stored /\ phone e = phone r /\ In r (kept_record batch e).
Proof.
  intros Hr. apply List.in_flat_map in Hr as (e & He & Hr). exists e.
  split; [exact He |]. split; [| exact Hr].
  apply kept_record_cases in Hr as (Hp & _). auto.
Qed.

Lemma appended_records_in processed batch n :
  find_appointment (phone n) batch = Some n -> phone n ∉ processed ->
  In n (appended_records processed batch).
Proof.
  intros Hfind Hnot. pose proof (find_appointment_some _ _ _ Hfind) as [Hin _].
  destruct (appended_records_covers processed batch n Hin) as [H | (a & Ha & Hp)];
    [contradiction |].
  pose proof (appended_records_first _ _ _ Ha) as (_ & _ & Hfirst).
  rewrite Hp, Hfind in Hfirst. injection Hfirst as ->. exact Ha.
Qed.

(** X14.  The merge of an upload, phone by phone.  The phones of the merged
    store are those of the store and those of the sheet.  A record whose
    phone is not in the sheet stays, flagged as existing.  When the store
    holds one record per phone and the sheet gives a phone the time the
    store has, the sheet's record takes the place of the stored one, so a
    changed name is taken over.  The first sheet record of a phone the
    store does not know becomes the record of that phone. *)
Theorem merge_covers_store_and_sheet stored batch seen :
  let merged := mergedAppointments (smart_merge stored batch seen) in
  (forall q, has_phone q merged <-> has_phone q stored \/ has_phone q batch)
  /\ (forall e, In e stored -> find_appointment (phone e) batch = None ->
                In (mark_existing e) merged)
  /\ (forall e n, NoDup (map phone stored) -> In e stored ->
                  find_appointment (phone e) batch = Some n ->
                  appointmentTime e = appointmentTime n ->
                  find_appointment (phone e) merged = Some n)
  /\ (forall n, find_appointment (phone n) batch = Some n ->
                ~ has_phone (phone n) stored ->
                find_appointment (phone n) merged = Some n).
Proof.
  intros merged. destruct (smart_merge_closed stored batch seen) as (Hm & _ & _).
  cbv zeta in Hm. subst merged. rewrite Hm. clear Hm.
  set (kept := flat_map (kept_record batch) stored).
  assert (Hadded : NoDup (map phone (appended_records (list_to_set (map phone kept)) batch)))
    by apply appended_records_nodup.
  split; [| split; [| split]].
  - intros q. split.
    + intros (r & Hr & Hq). apply List.in_app_or in Hr as [Hr | Hr].
      * apply kept_records_of_phone in Hr as (e & He & Hp & _). left. exists e.
        split; [exact He | congruence].
      * apply appended_records_first in Hr as (Hr & _). right. exists r. auto.
    + intros [(e & He & Hq) | (n & Hn & Hq)].
      * destruct (smart_merge_closed stored batch seen) as (Hm & _ & _). cbv zeta in Hm.
        fold kept in Hm. rewrite <- Hm. apply smart_merge_keeps_phones. exists e. auto.
      * destruct (appended_records_covers (list_to_set (map phone kept)) batch n Hn)
          as [H | (a & Ha & Hp)].
        -- apply kept_records_phones in H as (a & Ha & Hp). exists a.
           split; [apply List.in_or_app; left; exact Ha | congruence].
        -- exists a. split; [apply List.in_or_app; right; exact Ha | congruence].
  - intros e He Hnone. apply List.in_or_app. left. apply List.in_flat_map. exists e.
    split; [exact He |]. unfold kept_record. rewrite Hnone. left. reflexivity.
  - intros e n Hnodup He Hfind Htime.
    assert (Hkept : ~ has_phone (phone e) kept).
    { intros (r & Hr & Hp). apply kept_records_of_phone in Hr as (e' & He' & Hp' & Hr).
      assert (e' = e) as ->.
      { pose proof (find_appointment_nodup stored e' Hnodup He') as H1.
        pose proof (find_appointment_nodup stored e Hnodup He) as H2.
        rewrite Hp', Hp, H2 in H1. congruence. }
      unfold kept_record in Hr. rewrite Hfind in Hr. unfold isSame in Hr.
      rewrite Htime, Z.eqb_refl in Hr. destruct Hr. }
    rewrite find_appointment_app.
    apply find_appointment_none in Hkept as Hnone. rewrite Hnone.
    pose proof (find_appointment_some _ _ _ Hfind) as [Hn Hp]. rewrite <- Hp.
    apply find_appointment_nodup; [exact Hadded |].
    apply appended_records_in; [rewrite Hp; exact Hfind |].
    rewrite Hp. intros H. apply Hkept. apply kept_records_phones. exact H.
  - intros n Hfind Hnot.
    assert (Hkept : ~ has_phone (phone n) kept).
    { intros (r & Hr & Hp). apply kept_records_of_phone in Hr as (e & He & Hp' & _).
      apply Hnot. exists e. split; [exact He | congruence]. }
    rewrite find_appointment_app.
    apply find_appointment_none in Hkept as Hnone. rewrite Hnone.
    apply find_appointment_nodup; [exact Hadded |].
    apply appended_records_in; [exact Hfind |].
    intros H. apply Hkept. apply kept_records_phones. exact H.
Qed.

Lemma merge_covers_store_and_sheet_witness :
  let gone := plain_appointment "Asha" "919800000001" 1000 in
  let same := plain_appointment "Ravi" "919800000002" 2000 in
  let renamed := plain_appointment "Ravi K" "919800000002" 2000 in
  let new := plain_appointment "Meena" "919800000003" 3000 in
  let merged := mergedAppointments (smart_merge [gone; same] [renamed; new] ∅) in
  In (mark_existing gone) merged
  /\ find_appointment "919800000002" merged = Some renamed
  /\ find_appointment "919800000003" merged = Some new.
Proof.
  intros gone same renamed new merged.
  destruct (merge_covers_store_and_sheet [gone; same] [renamed; new] ∅)
    as (_ & Hkept & Hsame & Hnew).
  split; [apply (Hkept gone); [left; reflexivity | reflexivity] |]. split.
  - apply (Hsame same renamed); [| right; left; reflexivity | reflexivity | reflexivity].
    simpl. apply NoDup_cons. split; [| apply NoDup_singleton].
    intros H. apply list_elem_of_In in H as [H | []]. discriminate H.
  - apply (Hnew new); [reflexivity |].
    intros (a & [<- | [<- | []]] & Hp); discriminate Hp.
Defined.

Lemma smart_merge_nodup stored batch seen :
  NoDup (map phone stored) ->
  NoDup (map phone (mergedAppointments (smart_merge stored batch seen))).
Proof.
  intros Hnodup. destruct (smart_merge_closed stored batch seen) as (Hm & _ & _).
  cbv zeta in Hm. rewrite Hm, map_app. apply NoDup_app.
  split; [apply kept_records_nodup; exact Hnodup |].
  split; [| apply appended_records_nodup].
  intros q Hq Hq'. apply list_elem_of_In, List.in_map_iff in Hq' as (n & Hp & Hn).
  apply appended_records_first in Hn as (_ & Hnot & _). apply Hnot.
  rewrite Hp. apply elem_of_list_to_set. exact Hq.
Qed.

(** ** What a dialogue step can touch *)

Lemma remove_first_nodup p l :
  NoDup (map phone l) -> NoDup (map phone (remove_first p l)).
Proof.
  induction l as [| a l IH]; simpl; [auto |]. intros Hnodup.
  apply NoDup_cons in Hnodup as [Ha Hl]. destruct (String.eqb (phone a) p); [exact Hl |].
  simpl. apply NoDup_cons. split; [| auto]. intros Hin. apply Ha.
  apply list_elem_of_In, List.in_map_iff in Hin as (x & Hp & Hx).
  apply list_elem_of_In, List.in_map_iff. exists x. split; [exact Hp |].
  clear -Hx. induction l as [| y l IH]; simpl in *; [destruct Hx |].
  destruct (String.eqb (phone y) p); [auto |]. destruct Hx; auto.
Qed.

Ltac footprint :=
  constructor; world_simpl;
  repeat match goal with
         | H : userReschedulingState _ = _ |- _ => rewrite H in *; clear H
         | H : appointmentData _ = _ |- _ => rewrite H in *; clear H
         end;
  world_simpl;
  rewrite ?insert_insert_eq, ?delete_insert_eq, ?delete_delete_eq;
  eauto.

Lemma deferred_touches off now d w res w' :
  run_deferred off now d w = (res, w') -> touched (deferred_phone d) w w'.
Proof.
  intros Hrun. destruct d as [p | p | p r | p c | p c | p]; simpl in *.
  - revert Hrun. unfold processCancellation. run_handler. intros Hrun. split_paths.
    all: footprint.
  - revert Hrun. unfold handleRescheduleRequest. run_handler. intros Hrun. split_paths.
    all: footprint.
  - apply reply_world in Hrun as [Hd Hs]. constructor; auto.
  - revert Hrun. unfold handleDateSelection. run_handler. intros Hrun. split_paths.
    all: footprint.
  - revert Hrun. unfold handleTimeSelection. run_handler. intros Hrun. split_paths.
    all: footprint.
  - revert Hrun. unfold handleCancellationRequest. run_handler. intros Hrun. split_paths.
    all: footprint.
Qed.

Lemma others_update_time p t l :
  List.filter (fun a => negb (String.eqb (phone a) p)) (update_time p t l)
  = List.filter (fun a => negb (String.eqb (phone a) p)) l.
Proof.
  induction l as [| a l IH]; simpl; [reflexivity |].
  destruct (String.eqb (phone a) p) eqn:Hp; simpl; rewrite Hp; simpl;
    [reflexivity | rewrite IH; reflexivity].
Qed.

Lemma others_remove_first p l :
  List.filter (fun a => negb (String.eqb (phone a) p)) (remove_first p l)
  = List.filter (fun a => negb (String.eqb (phone a) p)) l.
Proof.
  induction l as [| a l IH]; simpl; [reflexivity |].
  destruct (String.eqb (phone a) p) eqn:Hp; simpl; [reflexivity |].
  rewrite Hp. simpl. rewrite IH. reflexivity.
Qed.

Lemma touched_nodup p w w' :
  touched p w w' -> NoDup (map phone (appointmentData w)) ->
  NoDup (map phone (appointmentData w')).
Proof.
  intros [[-> | [[t ->] | ->]] _] Hnodup.
  - exact Hnodup.
  - rewrite update_time_phones. exact Hnodup.
  - apply remove_first_nodup. exact Hnodup.
Qed.

(** X15.  A dialogue step, whatever its outcome, is local to the phone it
    was scheduled for: the records of every other phone stay in the store,
    unchanged and in their order, and the conversation state of every
    other phone stays as it was. *)
Theorem dialogue_step_is_local off now d w res w' :
  run_deferred off now d w = (res, w') ->
  List.filter (fun a => negb (String.eqb (phone a) (deferred_phone d))) (appointmentData w')
  = List.filter (fun a => negb (String.eqb (phone a) (deferred_phone d))) (appointmentData w)
  /\ (forall q, q <> deferred_phone d ->
        find_appointment q (appointmentData w') = find_appointment q (appointmentData w)
        /\ userReschedulingState w' !! q = userReschedulingState w !! q).
Proof.
  intros Hrun. apply deferred_touches in Hrun as [Hdata Hstate]. split.
  - destruct Hdata as [-> | [[t ->] | ->]];
      [reflexivity | apply others_update_time | apply others_remove_first].
  - intros q Hq. split.
    + destruct Hdata as [-> | [[t ->] | ->]];
        [reflexivity | apply find_appointment_update_time_other; exact Hq
        | apply find_appointment_remove_first_other; exact Hq].
    + destruct Hstate as [-> | [[st ->] | ->]];
        [reflexivity | apply lookup_insert_ne; congruence
        | apply lookup_delete_ne; congruence].
Qed.

Lemma dialogue_step_is_local_witness :
  let mine := plain_appointment "Asha" "919800000001" (local_time 330 19786 14 0) in
  let other := plain_appointment "Ravi" "919800000002" (local_time 330 19786 16 0) in
  let w := quiet_world [other; mine]
             {[ "919800000001" := {| currentAppointment := mine; availableDates := None;
                                     stage := confirming_cancellation;
                                     selectedDate := None; availableTimeSlots := None |} ]}
             [] in
  let w' := snd (run_deferred 330 0 (RunProcessCancellation "919800000001") w) in
  appointmentData w' = [other]
  /\ find_appointment "919800000002" (appointmentData w') = Some other.
Proof.
  intros mine other w w'.
  destruct (dialogue_step_is_local 330 0 (RunProcessCancellation "919800000001") w
              (fst (run_deferred 330 0 (RunProcessCancellation "919800000001") w)) w')
    as [_ Hothers]; [apply surjective_pairing |].
  split; [reflexivity |].
  destruct (Hothers "919800000002") as [Hfind _]; [discriminate |].
  rewrite Hfind. reflexivity.
Defined.

(** X16.  One record per phone is an invariant of the running system: if no
    two records of the store share a phone, none do after any sequence of
    messages, dialogue steps whatever their outcome (a handler that ends
    by throwing included), uploads and clearings of the store. *)
Theorem one_record_per_phone off w w' :
  rtc (step off) w w' ->
  NoDup (map phone (appointmentData w)) -> NoDup (map phone (appointmentData w')).
Proof.
  induction 1 as [| w w1 w' Hstep _ IH]; [auto |]. intros Hnodup. apply IH. clear IH.
  destruct Hstep as [message w | now d w res w1 Hrun | batch w | w].
  - destruct (onMessage message w) as [res w1] eqn:Hrun.
    apply onMessage_world in Hrun as (Hd & _). simpl. rewrite Hd. exact Hnodup.
  - apply deferred_touches in Hrun. exact (touched_nodup _ _ _ Hrun Hnodup).
  - unfold upload. destruct batch as [| n batch]; [exact Hnodup |]. world_simpl.
    apply smart_merge_nodup. exact Hnodup.
  - simpl. constructor.
Qed.

Lemma one_record_per_phone_witness :
  let sheet := [plain_appointment "Asha" "919800000001" 1000;
                plain_appointment "Asha again" "919800000001" 2000;
                plain_appointment "Ravi" "919800000002" 3000] in
  let w := quiet_world []
             {[ "919800000001" := {| currentAppointment := plain_appointment "Asha" "919800000001" 1000;
                                     availableDates := None; stage := confirming_cancellation;
                                     selectedDate := None; availableTimeSlots := None |} ]}
             [false; false] in
  let cancelled := run_deferred 330 0 (RunProcessCancellation "919800000001") (upload sheet w) in
  fst cancelled = Throw SendFailed
  /\ NoDup (map phone (appointmentData (snd cancelled))).
Proof.
  intros sheet w cancelled. split; [reflexivity |].
  apply (one_record_per_phone 330 w (snd cancelled)).
  - eapply rtc_l; [apply (step_upload 330 sheet w) |]. apply rtc_once.
    apply (step_deferred 330 0 (RunProcessCancellation "919800000001") (upload sheet w)
             (fst cancelled) (snd cancelled)).
    apply surjective_pairing.
  - simpl. constructor.
Defined.

(** ** Uploads: who is announced, and uploading twice *)

Lemma filter_phones_nodup (f : Appointment -> bool) l :
  NoDup (map phone l) -> NoDup (map phone (List.filter f l)).
Proof.
  induction l as [| a l IH]; simpl; [auto |]. intros Hnodup.
  apply NoDup_cons in Hnodup as [Ha Hl]. destruct (f a); [| auto].
  simpl. apply NoDup_cons. split; [| auto]. intros Hin. apply Ha.
  apply list_elem_of_In, List.in_map_iff in Hin as (x & Hp & Hx).
  apply List.filter_In in Hx as [Hx _].
  apply list_elem_of_In, List.in_map_iff. exists x. auto.
Qed.

(** X17.  The appointments an upload reports as truly new are the first
    sheet records of the phones that were never seen and are appended by
    the merge, one per phone; the phones seen afterwards are those seen
    before and those of the truly new appointments. *)
Theorem truly_new_are_the_unseen_phones stored batch seen :
  let r := smart_merge stored batch seen in
  (forall n, In n (trulyNewAppointments r) ->
             In n (mergedAppointments r) /\ (phone n ∉ seen)
             /\ find_appointment (phone n) batch = Some n)
  /\ (forall n, find_appointment (phone n) batch = Some n ->
                phone n ∉ seen -> ~ has_phone (phone n) stored ->
                In n (trulyNewAppointments r))
  /\ NoDup (map phone (trulyNewAppointments r))
  /\ (forall q, q ∈ newlySeenPhones r <-> q ∈ seen \/ has_phone q (trulyNewAppointments r)).
Proof.
  intros r. destruct (smart_merge_closed stored batch seen) as (Hm & Ht & Hs).
  cbv zeta in Hm, Ht, Hs. subst r. rewrite Hm, Ht, Hs. clear Hm Ht Hs.
  set (kept := flat_map (kept_record batch) stored).
  split; [| split; [| split]].
  - intros n Hn. apply List.filter_In in Hn as [Hn Hunseen].
    split; [apply List.in_or_app; right; exact Hn |].
    apply negb_true_iff, bool_decide_eq_false in Hunseen. split; [exact Hunseen |].
    apply appended_records_first in Hn as (_ & _ & Hfirst). exact Hfirst.
  - intros n Hfind Hunseen Hnot. apply List.filter_In. split.
    + apply appended_records_in; [exact Hfind |]. intros H.
      apply kept_records_phones in H as (a & Ha & Hp).
      apply kept_records_of_phone in Ha as (e & He & Hp' & _).
      apply Hnot. exists e. split; [exact He | congruence].
    + apply negb_true_iff, bool_decide_eq_false. exact Hunseen.
  - apply filter_phones_nodup, appended_records_nodup.
  - intros q. rewrite elem_of_union, elem_of_list_to_set, list_elem_of_In, List.in_map_iff.
    unfold has_phone. split; (intros [H | (a & H1 & H2)]; [left; exact H | right; exists a; auto]).
Qed.

Lemma truly_new_are_the_unseen_phones_witness :
  let known := plain_appointment "Asha" "919800000001" 1000 in
  let new := plain_appointment "Meena" "919800000003" 3000 in
  In new (trulyNewAppointments (smart_merge [known] [known; new] {[ "919800000001" ]})).
Proof.
  intros known new.
  destruct (truly_new_are_the_unseen_phones [known] [known; new] {[ "919800000001" ]})
    as (_ & Hnew & _).
  apply (Hnew new); [reflexivity | |].
  - rewrite elem_of_singleton. discriminate.
  - intros (a & [<- | []] & Hp). discriminate Hp.
Defined.

Lemma filter_none {A} (f : A -> bool) l :
  (forall x, In x l -> f x = false) -> List.filter f l = [].
Proof.
  induction l as [| a l IH]; simpl; [reflexivity |]. intros H.
  rewrite (H a) by auto. apply IH. auto.
Qed.

Lemma kept_record_again batch e :
  flat_map (kept_record batch) (kept_record batch e) = kept_record batch e.
Proof.
  unfold kept_record at 2 3. destruct (find_appointment (phone e) batch) as [n |] eqn:Hfind.
  - destruct (negb (isSame (appointmentTime e) (appointmentTime n))) eqn:Hsame;
      [| reflexivity].
    simpl. unfold kept_record. simpl. rewrite Hfind, Hsame. reflexivity.
  - simpl. unfold kept_record. simpl. rewrite Hfind. reflexivity.
Qed.

Lemma kept_records_again batch stored :
  flat_map (kept_record batch) (flat_map (kept_record batch) stored)
  = flat_map (kept_record batch) stored.
Proof.
  induction stored as [| e stored IH]; simpl; [reflexivity |].
  rewrite List.flat_map_app, kept_record_again, IH. reflexivity.
Qed.

Lemma appended_records_dropped processed batch :
  flat_map (kept_record batch) (appended_records processed batch) = [].
Proof.
  assert (H : forall l, (forall n, In n l -> find_appointment (phone n) batch = Some n) ->
                        flat_map (kept_record batch) l = []).
  { induction l as [| n l IH]; simpl; [reflexivity |]. intros Hl.
    rewrite IH by auto. unfold kept_record. rewrite (Hl n) by auto.
    unfold isSame. rewrite Z.eqb_refl. reflexivity. }
  apply H. intros n Hn. apply appended_records_first in Hn as (_ & _ & Hfirst). exact Hfirst.
Qed.

Lemma smart_merge_twice stored batch seen :
  let r1 := smart_merge stored batch seen in
  let r2 := smart_merge (mergedAppointments r1) batch (newlySeenPhones r1) in
  mergedAppointments r2 = mergedAppointments r1
  /\ trulyNewAppointments r2 = []
  /\ newlySeenPhones r2 = newlySeenPhones r1.
Proof.
  intros r1 r2.
  destruct (smart_merge_closed stored batch seen) as (Hm1 & Ht1 & Hs1).
  destruct (smart_merge_closed (mergedAppointments r1) batch (newlySeenPhones r1))
    as (Hm2 & Ht2 & Hs2).
  cbv zeta in *. fold r1 in Hm1, Ht1, Hs1. fold r2 in Hm2, Ht2, Hs2.
  assert (Hkept : flat_map (kept_record batch) (mergedAppointments r1)
                  = flat_map (kept_record batch) stored).
  { rewrite Hm1, List.flat_map_app, kept_records_again, appended_records_dropped.
    apply app_nil_r. }
  rewrite Hkept in Hm2, Ht2, Hs2.
  assert (Hnone : List.filter (fun n => negb (bool_decide (phone n ∈ newlySeenPhones r1)))
                    (appended_records
                       (list_to_set (map phone (flat_map (kept_record batch) stored))) batch)
                  = []).
  { apply filter_none. intros n Hn. apply negb_false_iff, bool_decide_eq_true.
    rewrite Hs1. apply elem_of_union. destruct (decide (phone n ∈ seen)) as [H | H];
      [left; exact H | right].
    apply elem_of_list_to_set, list_elem_of_In, List.in_map. apply List.filter_In.
    split; [exact Hn |]. apply negb_true_iff, bool_decide_eq_false. exact H. }
  rewrite Hnone in Ht2, Hs2. split; [congruence |]. split; [exact Ht2 |].
  rewrite Hs2. simpl. apply (right_id_L ∅ (∪)).
Qed.

(** X18.  Uploading the same sheet a second time changes nothing: the store
    and the seen phones are those the first upload left, no appointment is
    truly new and no hook message is set off. *)
Theorem upload_twice_is_upload_once batch w connected statusSheetData :
  upload batch (upload batch w) = upload batch w
  /\ upload_hooks connected statusSheetData batch (upload batch w) = [].
Proof.
  unfold upload, upload_hooks. destruct batch as [| n batch]; [auto |].
  set (sheet := n :: batch). world_simpl.
  destruct (smart_merge_twice (appointmentData w) sheet (seenAppointments w))
    as (Hm & Ht & Hs). cbv zeta in Hm, Ht, Hs.
  rewrite Hm, Ht, Hs. split; reflexivity.
Qed.

(** ** The five-hour reminder *)

Lemma same_day_due_fields off now apptTime :
  same_day_due off now apptTime = true
  <-> localDay off now = localDay off (subtract_hour apptTime 5)
      /\ hour off now = hour off (subtract_hour apptTime 5)
      /\ minute off now = minute off (subtract_hour apptTime 5).
Proof.
  unfold same_day_due. cbv zeta. unfold format_date_HHmm. cbn [fst snd].
  rewrite andb_true_iff, Z.eqb_eq.
  unfold format_HHmm at 2.
  rewrite format_HHmm_eq by first [apply hour_range | apply minute_range]. tauto.
Qed.

Lemma same_minute_fields off a b :
  localDay off a = localDay off b /\ hour off a = hour off b /\ minute off a = minute off b
  <-> localMs off a / MS_PER_MINUTE = localMs off b / MS_PER_MINUTE.
Proof. split; [intros (H1 & H2 & H3) | intros H; repeat split]; clock. Qed.

Lemma same_day_due_window off now apptTime :
  same_day_due off now apptTime = true
  <-> let start := apptTime - 5 * MS_PER_HOUR - localMs off apptTime mod MS_PER_MINUTE in
      start <= now < start + MS_PER_MINUTE.
Proof.
  rewrite same_day_due_fields, same_minute_fields. cbv zeta. split; intros H; clock.
Qed.

(** X19.  The five-hour reminder is due exactly during the local minute that
    begins five hours before the minute of the appointment.  A loop
    started at [t0] ticks at [t0 + k * 60000] for [k] from 1 on.  When
    its ticks are exactly that far apart, it finds the reminder due at
    one tick and no other if it was started before that minute begins,
    and at no tick if it was started when the minute had begun, as
    happens when an upload restarts the loop inside the minute. *)
Theorem five_hour_reminder_due_at_one_tick off apptTime t0 :
  let start := apptTime - 5 * MS_PER_HOUR - localMs off apptTime mod MS_PER_MINUTE in
  (forall now, same_day_due off now apptTime = true <-> start <= now < start + MS_PER_MINUTE)
  /\ (t0 < start ->
      exists k, 1 <= k /\ same_day_due off (t0 + k * 60000) apptTime = true
                /\ forall k', 1 <= k' -> same_day_due off (t0 + k' * 60000) apptTime = true ->
                              k' = k)
  /\ (start <= t0 ->
      forall k, 1 <= k -> same_day_due off (t0 + k * 60000) apptTime = false).
Proof.
  intros start. split; [intros now; apply same_day_due_window |]. split.
  - intros Hbefore. exists ((start - t0 + 59999) / 60000).
    assert (Hk : 1 <= (start - t0 + 59999) / 60000
                 /\ start <= t0 + (start - t0 + 59999) / 60000 * 60000 < start + 60000).
    { generalize dependent start. intros s Hs. Z.div_mod_to_equations. lia. }
    split; [apply Hk |]. split.
    + apply same_day_due_window. cbv zeta. fold start. unfold MS_PER_MINUTE. apply Hk.
    + intros k' _ Hk'. apply same_day_due_window in Hk'. cbv zeta in Hk'.
      fold start in Hk'. unfold MS_PER_MINUTE in Hk'. lia.
  - intros Hafter k Hk. apply not_true_is_false. intros Hdue.
    apply same_day_due_window in Hdue. cbv zeta in Hdue. fold start in Hdue.
    unfold MS_PER_MINUTE in Hdue. lia.
Qed.

Lemma five_hour_reminder_due_at_one_tick_witness :
  same_day_due 330 (local_time 330 19786 9 0 + 42000) (local_time 330 19786 14 0) = true
  /\ same_day_due 330 (local_time 330 19786 9 1 + 42000) (local_time 330 19786 14 0) = false.
Proof.
  destruct (five_hour_reminder_due_at_one_tick 330 (local_time 330 19786 14 0) 0)
    as (Hwindow & _ & _).
  split; [apply Hwindow; vm_compute; split; [discriminate | reflexivity] |].
  apply not_true_is_false. intros H. apply Hwindow in H. vm_compute in H.
  destruct H as [_ H]. discriminate H.
Defined.

(** X20.  The two reminders never fall on the same tick for one appointment:
    when the countdown is due the five-hour reminder is not; and on a
    tick, an appointment gets at most one message, none at all when the
    client is not connected. *)
Theorem reminders_never_coincide off connected now a :
  (countdown_due off now (appointmentTime a) = true ->
   same_day_due off now (appointmentTime a) = false)
  /\ (List.length (reminder_tick off connected now [a]) <= 1)%nat
  /\ reminder_tick off false now [a] = [].
Proof.
  assert (Hex : countdown_due off now (appointmentTime a) = true ->
                same_day_due off now (appointmentTime a) = false).
  { intros Hc. apply countdown_due_spec in Hc as (Hh & Hm & Hd).
    apply not_true_is_false. intros Hs. apply same_day_due_fields in Hs as (H1 & H2 & H3).
    clock. }
  split; [exact Hex |]. rewrite !reminder_tick_cons.
  destruct (countdown_due off now (appointmentTime a)) eqn:Hc.
  - rewrite (Hex eq_refl). destruct connected; simpl; split; (lia || reflexivity).
  - destruct (same_day_due off now (appointmentTime a)), connected; simpl; split;
      (lia || reflexivity).
Qed.

Lemma reminders_never_coincide_witness :
  same_day_due 330 (local_time 330 19786 11 30)
    (appointmentTime (plain_appointment "Asha" "919800000001" (local_time 330 19788 16 30)))
  = false.
Proof.
  destruct (reminders_never_coincide 330 true (local_time 330 19786 11 30)
              (plain_appointment "Asha" "919800000001" (local_time 330 19788 16 30)))
    as (Hex & _).
  apply Hex. reflexivity.
Defined.

(** ** Hook messages and the status sheet *)

Lemma with_index_length {A B} (f : Z -> A -> B) index l :
  List.length (with_index f index l) = List.length l.
Proof.
  revert index. induction l as [| x l IH]; intros index; simpl; [reflexivity |].
  rewrite IH. reflexivity.
Qed.

Lemma with_index_in {A B} (f : Z -> A -> B) index l y :
  In y (with_index f index l)
  <-> exists k x, l !! k = Some x /\ y = f (index + Z.of_nat k) x.
Proof.
  revert index. induction l as [| x l IH]; intros index; simpl.
  - split; [intros [] | intros (k & x & Hk & _); destruct k; discriminate].
  - rewrite IH. split.
    + intros [<- | (k & x' & Hk & ->)].
      * exists 0%nat, x. split; [reflexivity |]. f_equal. lia.
      * exists (S k), x'. split; [exact Hk |]. f_equal. lia.
    + intros ([| k] & x' & Hk & ->).
      * injection Hk as ->. left. f_equal. lia.
      * right. exists k, x'. split; [exact Hk |]. f_equal. lia.
Qed.

Lemma flat_map_constant_length {A B} (f : A -> list B) l n :
  (forall x, List.length (f x) = n) -> List.length (flat_map f l) = (List.length l * n)%nat.
Proof.
  intros Hf. induction l as [| x l IH]; simpl; [reflexivity |].
  rewrite List.length_app, Hf, IH. reflexivity.
Qed.

(** X21.  The hook messages set off for a list of new appointments.  None
    without a connected client.  Otherwise one per new appointment and
    per person whose status is "no", addressed to that person's chat,
    delayed by five minutes times the person's position among the "no"
    people, whichever the appointment: the messages about different
    appointments reach a person at the same moment. *)
Theorem hook_messages_schedule connected statusSheetData newAppointments :
  let noStatusPeople := List.filter (fun person => String.eqb (status person) "no")
                                    statusSheetData in
  let hooks := sendHookMessagesToNoStatusPeople connected statusSheetData newAppointments in
  (connected = false -> hooks = [])
  /\ (connected = true ->
      List.length hooks = (List.length newAppointments * List.length noStatusPeople)%nat
      /\ (forall m, In m hooks ->
            exists a index person,
              In a newAppointments /\ noStatusPeople !! index = Some person
              /\ In person statusSheetData /\ status person = "no"%string
              /\ delayMs m = 300000 * Z.of_nat index
              /\ hook_to m = status_phone person +:+ "@c.us"
              /\ hook_about m = name a)
      /\ (forall a index person,
            In a newAppointments -> noStatusPeople !! index = Some person ->
            exists m, In m hooks /\ delayMs m = 300000 * Z.of_nat index
                      /\ hook_to m = status_phone person +:+ "@c.us"
                      /\ hook_about m = name a)).
Proof.
  intros noStatusPeople hooks. subst hooks. unfold sendHookMessagesToNoStatusPeople.
  fold noStatusPeople. split.
  - intros ->. rewrite orb_true_r. reflexivity.
  - intros ->. cbn [negb]. rewrite orb_false_r.
    assert (Hempty : statusSheetData = [] -> noStatusPeople = []) by (intros ->; reflexivity).
    destruct (Nat.eqb_spec (List.length statusSheetData) 0) as [Hlen | Hlen].
    { destruct statusSheetData; [| discriminate]. rewrite (Hempty eq_refl).
      split; [simpl; lia |]. split; [intros m [] |].
      intros a index person _ H. destruct index; discriminate. }
    destruct (Nat.eqb_spec (List.length noStatusPeople) 0) as [Hno | Hno].
    { destruct noStatusPeople; [| discriminate].
      split; [simpl; lia |]. split; [intros m [] |].
      intros a index person _ H. destruct index; discriminate. }
    split; [| split].
    + apply flat_map_constant_length. intros a. apply with_index_length.
    + intros m Hm. apply List.in_flat_map in Hm as (a & Ha & Hm).
      apply with_index_in in Hm as (index & person & Hperson & ->).
      exists a, index, person. cbn [delayMs hook_to hook_about].
      assert (Hin : In person noStatusPeople).
      { apply list_elem_of_In. eapply list_elem_of_lookup_2. exact Hperson. }
      apply List.filter_In in Hin as [Hin Hstatus]. apply String.eqb_eq in Hstatus.
      repeat split; auto. lia.
    + intros a index person Ha Hperson. eexists. split.
      * apply List.in_flat_map. exists a. split; [exact Ha |].
        apply with_index_in. exists index, person. split; [exact Hperson | reflexivity].
      * cbn [delayMs hook_to hook_about]. repeat split. lia.
Qed.

Lemma hook_messages_schedule_witness :
  let people := [ {| status_name := "Meena"; status_phone := "919800000003"; status := "yes" |};
                  {| status_name := "Kiran"; status_phone := "919800000004"; status := "no" |};
                  {| status_name := "Latha"; status_phone := "919800000005"; status := "no" |} ] in
  let new := [plain_appointment "Asha" "919800000001" 1000;
              plain_appointment "Ravi" "919800000002" 2000] in
  List.length (sendHookMessagesToNoStatusPeople true people new) = 4%nat
  /\ sendHookMessagesToNoStatusPeople false people new = [].
Proof.
  intros people new.
  destruct (hook_messages_schedule true people new) as [_ Hon].
  destruct (hook_messages_schedule false people new) as [Hoff _].
  split; [| apply Hoff; reflexivity].
  destruct (Hon eq_refl) as (Hlen & _). rewrite Hlen. reflexivity.
Defined.

(** X22.  A status upload only adds.  The entries already known stay first
    and unchanged, a row whose phone is already known is dropped, its
    status included, every phone of the sheet is known afterwards, and the
    same sheet uploaded again adds nothing. *)
Theorem status_upload_only_adds statusData statusSheetData :
  let result := upload_status statusData statusSheetData in
  (exists added,
     result = statusSheetData ++ added
     /\ forall item, In item added <->
                     In item statusData
                     /\ ~ In (status_phone item) (map status_phone statusSheetData))
  /\ (forall item, In item statusData -> In (status_phone item) (map status_phone result))
  /\ upload_status statusData result = result.
Proof.
  intros result. subst result. unfold upload_status.
  destruct statusData as [| first rest]; [| set (sheet := first :: rest)].
  { split; [| split; [intros item [] | reflexivity]].
    exists []. split; [symmetry; apply app_nil_r |]. intros item. simpl. tauto. }
  cbv zeta.
  assert (Hfilter : forall known item,
            In item (List.filter
                       (fun item => negb (bool_decide
                          (status_phone item ∈ (list_to_set (map status_phone known)
                                                 : gset string)))) sheet)
            <-> In item sheet /\ ~ In (status_phone item) (map status_phone known)).
  { intros known item. rewrite List.filter_In, negb_true_iff, bool_decide_eq_false,
      elem_of_list_to_set, list_elem_of_In. reflexivity. }
  split; [| split].
  - eexists. split; [reflexivity |]. intros item. apply Hfilter.
  - intros item Hitem. rewrite map_app. apply List.in_or_app.
    destruct (List.in_dec string_dec (status_phone item) (map status_phone statusSheetData))
      as [Hknown | Hnew]; [left; exact Hknown | right].
    apply List.in_map. apply Hfilter. auto.
  - set (result := statusSheetData ++ _).
    rewrite (filter_none (fun item => negb (bool_decide
               (status_phone item ∈ (list_to_set (map status_phone result) : gset string))))
               sheet); [apply app_nil_r |].
    intros item Hitem. apply negb_false_iff, bool_decide_eq_true.
    apply elem_of_list_to_set, list_elem_of_In. subst result. rewrite map_app.
    apply List.in_or_app.
    destruct (List.in_dec string_dec (status_phone item) (map status_phone statusSheetData))
      as [Hknown | Hnew]; [left; exact Hknown | right].
    apply List.in_map. apply Hfilter. auto.
Qed.

Lemma status_upload_only_adds_witness :
  let known := {| status_name := "Kiran"; status_phone := "919800000004"; status := "no" |} in
  let changed := {| status_name := "Kiran"; status_phone := "919800000004"; status := "yes" |} in
  let new := {| status_name := "Latha"; status_phone := "919800000005"; status := "no" |} in
  In "919800000005" (map status_phone (upload_status [changed; new] [known]))
  /\ upload_status [changed; new] [known] = [known; new].
Proof.
  intros known changed new.
  destruct (status_upload_only_adds [changed; new] [known]) as (_ & Hall & _).
  split; [apply (Hall new); right; left; reflexivity | reflexivity].
Defined.

(** ** Sheets: phone cells and saved times *)

Lemma digits_only_all_digits s : all_digits (digits_only s) = true.
Proof.
  induction s as [| c s IH]; simpl; [reflexivity |].
  destruct (is_digit c) eqn:Hc; simpl; [rewrite Hc |]; exact IH.
Qed.

Lemma digits_only_fixed s : digits_only s = s <-> all_digits s = true.
Proof.
  split.
  - intros <-. apply digits_only_all_digits.
  - induction s as [| c s IH]; simpl; [reflexivity |].
    intros H. apply andb_true_iff in H as [Hc Hs]. rewrite Hc, IH by exact Hs. reflexivity.
Qed.

(** X23.  Cleaning a phone cell keeps its digits, in order, and nothing
    else: the result holds digits only, a cell of digits is left as it is,
    cleaning twice is cleaning once, and the cleaning goes through
    concatenation, so separators anywhere in the cell are dropped. *)
Theorem phone_cell_keeps_digits s s' :
  all_digits (digits_only s) = true
  /\ (digits_only s = s <-> all_digits s = true)
  /\ digits_only (digits_only s) = digits_only s
  /\ digits_only (s +:+ s') = digits_only s +:+ digits_only s'
  /\ (String.length (digits_only s) <= String.length s)%nat.
Proof.
  split; [apply digits_only_all_digits |]. split; [apply digits_only_fixed |].
  split; [apply digits_only_fixed, digits_only_all_digits |]. split.
  - induction s as [| c s IH]; [apply append_nil_l |].
    rewrite append_cons. simpl. destruct (is_digit c); [| exact IH].
    rewrite append_cons, IH. reflexivity.
  - induction s as [| c s IH]; simpl; [lia |]. destruct (is_digit c); simpl; lia.
Qed.

Lemma phone_cell_keeps_digits_witness :
  digits_only "+91 98000-00001" = "919800000001"%string
  /\ digits_only "919800000001" = "919800000001"%string.
Proof.
  destruct (phone_cell_keeps_digits "919800000001" "") as (_ & Hfixed & _).
  split; [reflexivity | apply Hfixed; reflexivity].
Defined.

Lemma hour_minute_format h m :
  0 <= h < 24 -> 0 <= m < 60 -> hour_minute (pad2 h +:+ ":" +:+ pad2 m) = (h, m).
Proof.
  intros Hh Hm.
  pose (check := fun h m =>
    let '(h', m') := hour_minute (pad2 h +:+ ":" +:+ pad2 m) in (h' =? h) && (m' =? m)).
  assert (Hcheck : check h m = true).
  { apply forall_hour_minute; [| exact Hh | exact Hm]. vm_compute. reflexivity. }
  unfold check in Hcheck. destruct (hour_minute _) as [h' m'].
  apply andb_true_iff in Hcheck as [H1 H2]. apply Z.eqb_eq in H1, H2. congruence.
Qed.

Lemma loaded_saved off t :
  loaded_time off (saved_time off t) = t - localMs off t mod MS_PER_MINUTE.
Proof.
  unfold loaded_time, saved_time, format_date_HHmm, format_HHmm. cbn [fst snd].
  rewrite hour_minute_format by first [apply hour_range | apply minute_range]. clock.
Qed.

(** X24.  Saving to the sheet and loading again cuts an appointment time
    down to its minute and changes nothing else: the loaded time is the
    start of the minute of the saved one, it prints the same cell again,
    and a time on a full minute, such as a slot chosen in the dialogue,
    comes back as it was. *)
Theorem sheet_round_trip_keeps_the_minute off t d h :
  loaded_time off (saved_time off t) = t - localMs off t mod MS_PER_MINUTE
  /\ saved_time off (loaded_time off (saved_time off t)) = saved_time off t
  /\ (loaded_time off (saved_time off t) = t <-> localMs off t mod MS_PER_MINUTE = 0)
  /\ (0 <= h < 24 ->
      loaded_time off (saved_time off (local_time off d h 0)) = local_time off d h 0).
Proof.
  split; [apply loaded_saved |]. split; [| split].
  - rewrite loaded_saved. unfold saved_time, format_date_HHmm, format_HHmm.
    f_equal; [clock |]. f_equal; [f_equal; clock | f_equal; f_equal; clock].
  - rewrite loaded_saved. lia.
  - intros Hh. rewrite loaded_saved. clock.
Qed.

Lemma sheet_round_trip_keeps_the_minute_witness :
  loaded_time 330 (saved_time 330 (local_time 330 19786 14 0)) = local_time 330 19786 14 0.
Proof.
  destruct (sheet_round_trip_keeps_the_minute 330 0 19786 14) as (_ & _ & _ & H).
  apply H. lia.
Defined.

(** ** The whole rescheduling dialogue *)

Lemma handleRescheduleRequest_run off now p w a :
  find_appointment p (appointmentData w) = Some a ->
  next_send_ok w ->
  let dates := getAvailableDates off now 7 in
  handleRescheduleRequest off now p w
  = (Ok tt,
     delivered p (DateOptions a dates)
       (set_userReschedulingState
          (<[p := {| currentAppointment := a; availableDates := Some dates;
                     stage := selecting_date; selectedDate := None;
                     availableTimeSlots := None |}]> (userReschedulingState w)) w)).
Proof.
  intros Hfind Hsend dates.
  destruct (getAvailableDates_seven off now) as (_ & Hlen & _).
  unfold handleRescheduleRequest. run_handler. rewrite Hfind. cbv zeta.
  rewrite Hlen. cbn [Nat.eqb]. rewrite reply_ok by exact Hsend. reflexivity.
Qed.

Lemma handleDateSelection_run off p messageContent w st dates k d slots :
  userReschedulingState w !! p = Some st ->
  availableDates st = Some dates ->
  next_send_ok w ->
  JS.parseInt (JS.trim messageContent) = Some k ->
  1 <= k ->
  dates !! Z.to_nat (k - 1) = Some d ->
  getAvailableTimeSlots off (appointmentData w) d p = slots ->
  slots <> [] ->
  handleDateSelection off p messageContent w
  = (Ok tt,
     delivered p (TimeSlotOptions d slots)
       (set_userReschedulingState
          (<[p := with_availableTimeSlots
                    (with_stage (with_selectedDate st d) selecting_time) slots]>
             (userReschedulingState w)) w)).
Proof.
  intros Hst Hdates Hsend Hparse Hk Hd Hslots Hne.
  pose proof (lookup_lt_Some _ _ _ Hd) as Hlt.
  unfold handleDateSelection. run_handler. rewrite Hparse. cbn [fmap option_fmap option_map].
  destruct (Z.ltb_spec (k - 1) 0) as [Hneg | _]; [lia |].
  rewrite Hst. cbn beta iota. rewrite Hdates. cbn beta iota.
  destruct (Z.leb_spec (Z.of_nat (List.length dates)) (k - 1)) as [Hbig | _]; [lia |].
  rewrite Hd. cbn beta iota. world_simpl. rewrite Hslots.
  destruct slots as [| slot slots]; [congruence |].
  cbn [List.length Nat.eqb]. rewrite reply_ok by exact Hsend.
  unfold delivered, set_userReschedulingState. world_simpl.
  rewrite insert_insert_eq. reflexivity.
Qed.

Lemma handleTimeSelection_run off p messageContent w st slots parsed s :
  userReschedulingState w !! p = Some st ->
  availableTimeSlots st = Some slots ->
  parse (normalize_time_input messageContent) = Some parsed ->
  select_time off parsed slots = Some s ->
  next_send_ok w ->
  exists w',
    handleTimeSelection off p messageContent w = (Ok tt, w')
    /\ appointmentData w' = update_time p s (appointmentData w)
    /\ userReschedulingState w' = delete p (userReschedulingState w)
    /\ outbox w' = outbox w ++ [(p, Rescheduled (appointmentTime (currentAppointment st)) s)]
    /\ transport w' = tail (transport w).
Proof.
  intros Hst Hslots Hparse Hsel Hsend.
  unfold handleTimeSelection. run_handler. rewrite Hst. cbn beta iota. rewrite Hslots.
  cbn beta iota. change (JS.collapse_spaces (JS.toLowerCase (JS.trim messageContent)))
    with (normalize_time_input messageContent).
  rewrite Hparse, Hsel. cbn beta iota.
  rewrite reply_ok by exact Hsend.
  eexists. split; [reflexivity |]. world_simpl.
  split; [reflexivity |]. split; [apply delete_insert_eq |]. split; reflexivity.
Qed.

(** X25.  The rescheduling dialogue from end to end.  A contact with an
    appointment asks to reschedule, answers with the number of one of the
    offered dates and then with one of the listed times, written as it
    was listed; the three replies are delivered.  Then the appointment of
    that contact, and only its time, has changed: it is the chosen slot,
    on the chosen date, one to seven days ahead, on a full hour from 10
    to 20, and no appointment of another contact lies within an hour of
    it on that date.  The conversation state is gone again and the three
    replies are the date list, the slot list and the confirmation. *)
Theorem reschedule_dialogue_moves_appointment
        off now p a w dateText k d s rest :
  find_appointment p (appointmentData w) = Some a ->
  transport w = true :: true :: true :: rest ->
  JS.parseInt (JS.trim dateText) = Some k ->
  1 <= k ->
  getAvailableDates off now 7 !! Z.to_nat (k - 1) = Some d ->
  In s (getAvailableTimeSlots off (appointmentData w) d p) ->
  exists w1 w2 w3,
    handleRescheduleRequest off now p w = (Ok tt, w1)
    /\ handleDateSelection off p dateText w1 = (Ok tt, w2)
    /\ handleTimeSelection off p (format_hmmA off s) w2 = (Ok tt, w3)
    /\ appointmentData w3 = update_time p s (appointmentData w)
    /\ find_appointment p (appointmentData w3) = Some (with_time a s)
    /\ userReschedulingState w3 = delete p (userReschedulingState w)
    /\ outbox w3
       = outbox w
         ++ [(p, DateOptions a (getAvailableDates off now 7));
             (p, TimeSlotOptions d (getAvailableTimeSlots off (appointmentData w) d p));
             (p, Rescheduled (appointmentTime a) s)]
    /\ localDay off s = d
    /\ localDay off now < d <= localDay off now + 7
    /\ 10 <= hour off s <= 20 /\ minute off s = 0
    /\ (forall b, In b (appointmentData w) -> phone b <> p -> ~ conflicts off s b).
Proof.
  intros Hfind Htransport Hparse Hk Hd Hs.
  set (dates := getAvailableDates off now 7) in *.
  set (slots := getAvailableTimeSlots off (appointmentData w) d p) in *.
  destruct (offered_slot_form _ _ _ _ _ Hs) as (h & Hh & Hform & Hfree).
  assert (Hsend : next_send_ok w) by (unfold next_send_ok; rewrite Htransport; reflexivity).
  pose proof (handleRescheduleRequest_run off now p w a Hfind Hsend) as H1.
  cbv zeta in H1. fold dates in H1.
  set (st0 := {| currentAppointment := a; availableDates := Some dates;
                 stage := selecting_date; selectedDate := None;
                 availableTimeSlots := None |}) in *.
  set (w1 := delivered p (DateOptions a dates)
               (set_userReschedulingState (<[p := st0]> (userReschedulingState w)) w)) in *.
  assert (H2 : handleDateSelection off p dateText w1
               = (Ok tt,
                  delivered p (TimeSlotOptions d slots)
                    (set_userReschedulingState
                       (<[p := with_availableTimeSlots
                                 (with_stage (with_selectedDate st0 d) selecting_time) slots]>
                          (userReschedulingState w1)) w1))).
  { apply (handleDateSelection_run off p dateText w1 st0 dates k d slots).
    - subst w1. world_simpl. apply lookup_insert_eq.
    - reflexivity.
    - subst w1. unfold next_send_ok. world_simpl. rewrite Htransport. reflexivity.
    - exact Hparse.
    - exact Hk.
    - exact Hd.
    - reflexivity.
    - intros Hnil. rewrite Hnil in Hs. destruct Hs. }
  set (st2 := with_availableTimeSlots
                (with_stage (with_selectedDate st0 d) selecting_time) slots) in *.
  set (w2 := delivered p (TimeSlotOptions d slots)
               (set_userReschedulingState (<[p := st2]> (userReschedulingState w1)) w1)) in *.
  assert (Hunique : forall s', In s' slots -> shows off (hour off s) (minute off s) s' -> s' = s).
  { intros s' Hs' [Hhour _].
    destruct (offered_slot_form _ _ _ _ _ Hs') as (h' & Hh' & Hform' & _).
    rewrite Hform, Hform' in Hhour. rewrite !hour_local_time in Hhour by lia.
    congruence. }
  destruct (handleTimeSelection_run off p (format_hmmA off s) w2 st2 slots
              {| matchedHour := if hour off s mod 12 =? 0 then 12 else hour off s mod 12;
                 matchedMinute := minute off s;
                 matchedPeriod := Some (if hour off s <? 12 then AM else PM);
                 is24HourFormat := false |} s)
    as (w3 & H3 & Hdata & Hstates & Hout & _).
  { subst w2. world_simpl. apply lookup_insert_eq. }
  { reflexivity. }
  { unfold format_hmmA. apply parse_hmmA; [apply hour_range | apply minute_range]. }
  { rewrite select_time_listed by exact Hs. apply slot_at_unique; assumption. }
  { subst w2 w1. unfold next_send_ok. world_simpl. rewrite Htransport. reflexivity. }
  exists w1, w2, w3. split; [exact H1 |]. split; [exact H2 |]. split; [exact H3 |].
  subst w2 w1. world_simpl.
  split; [exact Hdata |].
  split; [rewrite Hdata, find_appointment_update_time_same, Hfind; reflexivity |].
  split; [rewrite Hstates, !delete_insert_eq; reflexivity |].
  split; [rewrite Hout, <- !app_assoc; reflexivity |].
  assert (Hday : localDay off s = d) by (rewrite Hform; apply localDay_local_time; lia).
  split; [exact Hday |]. split.
  - destruct (getAvailableDates_seven off now) as (Hlist & _ & _). cbv zeta in Hlist.
    fold dates in Hlist. apply list_elem_of_lookup_2, list_elem_of_In in Hd.
    rewrite Hlist in Hd. apply List.filter_In in Hd as [Hd _]. simpl in Hd. lia.
  - split; [rewrite Hform, hour_local_time by lia; exact Hh |].
    split; [rewrite Hform; apply minute_local_time; lia |].
    apply isTimeSlotAvailable_spec. exact Hfree.
Qed.

Lemma reschedule_dialogue_moves_appointment_witness :
  let mine := plain_appointment "Asha" "919800000001" (local_time 330 19786 14 0) in
  let other := plain_appointment "Ravi" "919800000002" (local_time 330 19787 15 0) in
  let w := quiet_world [other; mine] ∅ [true; true; true] in
  exists w1 w2 w3,
    handleRescheduleRequest 330 (local_time 330 19784 9 15) "919800000001" w = (Ok tt, w1)
    /\ handleDateSelection 330 "919800000001" " 2nd" w1 = (Ok tt, w2)
    /\ handleTimeSelection 330 "919800000001" "4:00 PM" w2 = (Ok tt, w3)
    /\ appointmentData w3 = [other; with_time mine (local_time 330 19787 16 0)].
Proof.
  intros mine other w.
  destruct (reschedule_dialogue_moves_appointment
              330 (local_time 330 19784 9 15) "919800000001" mine w " 2nd" 2 19787
              (local_time 330 19787 16 0) [])
    as (w1 & w2 & w3 & H1 & H2 & H3 & Hdata & _);
    [reflexivity | reflexivity | reflexivity | lia | reflexivity | vm_compute; tauto |].
  exists w1, w2, w3. split; [exact H1 |]. split; [exact H2 |]. split; [exact H3 |].
  rewrite Hdata. reflexivity.
Defined.

(** ** A date without a free slot *)

(** X26.  Choosing a date on which nothing is free.  The contact is told so
    and stays in date selection, with the date list it was offered and the
    chosen date recorded; the store is not touched.  This happens exactly
    when the day is closed or each of its eleven hours is within an hour
    of an appointment of another contact. *)
Theorem full_date_returns_to_date_selection off p messageContent w st dates k d :
  userReschedulingState w !! p = Some st ->
  availableDates st = Some dates ->
  next_send_ok w ->
  JS.parseInt (JS.trim messageContent) = Some k ->
  1 <= k ->
  dates !! Z.to_nat (k - 1) = Some d ->
  (getAvailableTimeSlots off (appointmentData w) d p = []
   <-> has_business_hours (day off (dayjs_of_date off d)) = false
       \/ forall h, 10 <= h <= 20 ->
            isTimeSlotAvailable off (appointmentData w) (local_time off d h 0) p = false)
  /\ (getAvailableTimeSlots off (appointmentData w) d p = [] ->
      handleDateSelection off p messageContent w
      = (Ok tt,
         delivered p NoSlotsForDate
           (set_userReschedulingState
              (<[p := {| currentAppointment := currentAppointment st;
                         availableDates := Some dates;
                         stage := selecting_date;
                         selectedDate := Some d;
                         availableTimeSlots := availableTimeSlots st |}]>
                 (userReschedulingState w)) w))).
Proof.
  intros Hst Hdates Hsend Hparse Hk Hd. split.
  - destruct (has_business_hours (day off (dayjs_of_date off d))) eqn:Hopen.
    + rewrite (getAvailableTimeSlots_open off (appointmentData w) d p Hopen),
        generated_slots_of_day.
      split.
      * intros Hnil. right. intros h Hh. apply not_true_is_false. intros Hfree.
        assert (Hin : In (local_time off d h 0)
                        (List.filter (fun slot => isTimeSlotAvailable off (appointmentData w) slot p)
                           (map (fun h => local_time off d h 0)
                                [10; 11; 12; 13; 14; 15; 16; 17; 18; 19; 20]))).
        { apply List.filter_In. split; [| exact Hfree]. apply List.in_map_iff. exists h.
          split; [reflexivity | simpl; lia]. }
        rewrite Hnil in Hin. destruct Hin.
      * intros [Hclosed | Hfull]; [discriminate |]. apply filter_none.
        intros s Hs. apply List.in_map_iff in Hs as (h & <- & Hh). apply Hfull.
        simpl in Hh. lia.
    + unfold getAvailableTimeSlots. rewrite Hopen. split; [auto | reflexivity].
  - intros Hnil. pose proof (lookup_lt_Some _ _ _ Hd) as Hlt.
    unfold handleDateSelection. run_handler. rewrite Hparse.
    cbn [fmap option_fmap option_map].
    destruct (Z.ltb_spec (k - 1) 0) as [Hneg | _]; [lia |].
    rewrite Hst. cbn beta iota. rewrite Hdates. cbn beta iota.
    destruct (Z.leb_spec (Z.of_nat (List.length dates)) (k - 1)) as [Hbig | _]; [lia |].
    rewrite Hd. cbn beta iota. world_simpl. rewrite Hnil.
    cbn [List.length Nat.eqb]. rewrite reply_ok by exact Hsend.
    unfold delivered, set_userReschedulingState. world_simpl.
    rewrite insert_insert_eq. unfold with_stage, with_selectedDate. cbn. rewrite Hdates.
    reflexivity.
Qed.

Lemma full_date_returns_to_date_selection_witness :
  let current := plain_appointment "Asha" "919800000001" (local_time 330 19786 14 0) in
  let w := choosing_date current [19785; 19786] in
  exists w',
    handleDateSelection 330 "919800000001" "1" w = (Ok tt, w')
    /\ (stage <$> userReschedulingState w' !! "919800000001") = Some selecting_date
    /\ outbox w' = [("919800000001", NoSlotsForDate)].
Proof.
  intros current w.
  destruct (full_date_returns_to_date_selection 330 "919800000001" "1" w
              {| currentAppointment := current; availableDates := Some [19785; 19786];
                 stage := selecting_date; selectedDate := None;
                 availableTimeSlots := None |} [19785; 19786] 1 19785
              eq_refl eq_refl eq_refl eq_refl ltac:(lia) eq_refl) as [_ Hrun].
  eexists. split; [apply Hrun; reflexivity |]. split; reflexivity.
Defined.

(** ** Offers are not checked again *)

(** X27.  The time selection trusts the slots it offered: it does not test
    availability again.  Two contacts that were both offered a slot (each
    chose a date while the slot was free) and both choose it both get it:
    afterwards the two appointments are at the same instant, and the slot
    no longer passes the availability test for either of them. *)
Theorem stale_offer_is_committed off p q text_p text_q w st_p st_q slots_p slots_q
        parsed_p parsed_q s a b rest :
  p <> q ->
  find_appointment p (appointmentData w) = Some a ->
  find_appointment q (appointmentData w) = Some b ->
  userReschedulingState w !! p = Some st_p -> availableTimeSlots st_p = Some slots_p ->
  userReschedulingState w !! q = Some st_q -> availableTimeSlots st_q = Some slots_q ->
  parse (normalize_time_input text_p) = Some parsed_p ->
  select_time off parsed_p slots_p = Some s ->
  parse (normalize_time_input text_q) = Some parsed_q ->
  select_time off parsed_q slots_q = Some s ->
  transport w = true :: true :: rest ->
  exists w1 w2,
    handleTimeSelection off p text_p w = (Ok tt, w1)
    /\ handleTimeSelection off q text_q w1 = (Ok tt, w2)
    /\ find_appointment p (appointmentData w2) = Some (with_time a s)
    /\ find_appointment q (appointmentData w2) = Some (with_time b s)
    /\ isTimeSlotAvailable off (appointmentData w2) s p = false
    /\ isTimeSlotAvailable off (appointmentData w2) s q = false.
Proof.
  intros Hpq Ha Hb Hstp Hslp Hstq Hslq Hparsep Hselp Hparseq Hselq Htransport.
  destruct (handleTimeSelection_run off p text_p w st_p slots_p parsed_p s
              Hstp Hslp Hparsep Hselp)
    as (w1 & H1 & Hdata1 & Hstates1 & _ & Htransport1).
  { unfold next_send_ok. rewrite Htransport. reflexivity. }
  destruct (handleTimeSelection_run off q text_q w1 st_q slots_q parsed_q s)
    as (w2 & H2 & Hdata2 & _ & _ & _).
  { rewrite Hstates1, lookup_delete_ne by exact Hpq. exact Hstq. }
  { exact Hslq. }
  { exact Hparseq. }
  { exact Hselq. }
  { unfold next_send_ok. rewrite Htransport1, Htransport. reflexivity. }
  assert (Hp2 : find_appointment p (appointmentData w2) = Some (with_time a s)).
  { rewrite Hdata2, find_appointment_update_time_other by exact Hpq.
    rewrite Hdata1, find_appointment_update_time_same, Ha. reflexivity. }
  assert (Hq2 : find_appointment q (appointmentData w2) = Some (with_time b s)).
  { rewrite Hdata2, find_appointment_update_time_same.
    rewrite Hdata1, find_appointment_update_time_other by congruence.
    rewrite Hb. reflexivity. }
  exists w1, w2. split; [exact H1 |]. split; [exact H2 |].
  split; [exact Hp2 |]. split; [exact Hq2 |].
  assert (Hclash : forall r x, phone x <> r -> In x (appointmentData w2) ->
                               appointmentTime x = s ->
                               isTimeSlotAvailable off (appointmentData w2) s r = false).
  { intros r x Hr Hx Htime. apply not_true_is_false. intros Hfree.
    apply (proj1 (isTimeSlotAvailable_spec off (appointmentData w2) s r) Hfree x Hx Hr).
    unfold conflicts. rewrite Htime. split; [reflexivity |].
    rewrite Z.sub_diag. unfold MS_PER_HOUR. simpl. lia. }
  apply find_appointment_some in Hp2 as [Hinp Hphonep].
  apply find_appointment_some in Hq2 as [Hinq Hphoneq].
  split.
  - apply (Hclash p (with_time b s)); [congruence | exact Hinq | reflexivity].
  - apply (Hclash q (with_time a s)); [congruence | exact Hinp | reflexivity].
Qed.

Lemma stale_offer_is_committed_witness :
  let mine := plain_appointment "Asha" "919800000001" (local_time 330 19786 14 0) in
  let other := plain_appointment "Ravi" "919800000002" (local_time 330 19786 11 0) in
  let slots := [local_time 330 19787 16 0] in
  let offered current :=
    {| currentAppointment := current; availableDates := Some [19787];
       stage := selecting_time; selectedDate := Some 19787;
       availableTimeSlots := Some slots |} in
  let w := quiet_world [mine; other]
             {[ "919800000001" := offered mine; "919800000002" := offered other ]}
             [true; true] in
  exists w1 w2,
    handleTimeSelection 330 "919800000001" "4 pm" w = (Ok tt, w1)
    /\ handleTimeSelection 330 "919800000002" "16:00" w1 = (Ok tt, w2)
    /\ (appointmentTime <$> find_appointment "919800000001" (appointmentData w2))
       = Some (local_time 330 19787 16 0)
    /\ (appointmentTime <$> find_appointment "919800000002" (appointmentData w2))
       = Some (local_time 330 19787 16 0).
Proof.
  intros mine other slots offered w.
  destruct (stale_offer_is_committed 330 "919800000001" "919800000002" "4 pm" "16:00" w
              (offered mine) (offered other) slots slots
              {| matchedHour := 4; matchedMinute := 0; matchedPeriod := Some PM;
                 is24HourFormat := false |}
              {| matchedHour := 16; matchedMinute := 0; matchedPeriod := None;
                 is24HourFormat := true |}
              (local_time 330 19787 16 0) mine other [])
    as (w1 & w2 & H1 & H2 & Hp & Hq & _); try reflexivity; [discriminate |].
  exists w1, w2. split; [exact H1 |]. split; [exact H2 |].
  rewrite Hp, Hq. split; reflexivity.
Defined.
